(** * StudyBalance: the block scheduler, the free-time walk and the e-mail
    stress analysis, embedded from the Python sources

    Sources embedded here:
    - [src/arcade_tools/calendar_optmizer.py]  (class [CalendarOptimizer])
    - [src/arcade_tools/gmail_analyzer.py]     (class [GmailAnalyzer])
    - [src/arcade_tools/wellness_nudger.py]    (the reminder times of class
                                                [WellnessNudger])
    - [src/utils.py]                           (the parsers, the time
                                                strings, the scores)

    Conventions.  Python [int] is [Z].  Python [str] is [string]; the model is
    restricted to ASCII text, so [str.lower], [str.strip] and the [\d] class
    of the [strptime] pattern are the ASCII ones.  Python [float] is IEEE
    binary64, given by [SpecFloat] at precision 53.  A call that raises is
    [None].  Library calls whose result depends on the interpreter's
    environment ([datetime.now], [datetime.fromisoformat],
    [datetime.fromtimestamp]) are section variables. *)

From Stdlib Require Import ZArith List Bool Lia Ascii String.
From Stdlib Require Import Permutation Sorted.
From Stdlib Require Import Floats.SpecFloat.
Import ListNotations.

Local Open Scope string_scope.
Local Open Scope list_scope.
Local Open Scope Z_scope.

(* ------------------------------------------------------------------ *)
(** ** Python floats (binary64) *)

Module PyFloat.

Definition prec : Z := 53.
Definition emax : Z := 1024.

(** [float(n)] for an [int]: correctly rounded, [OverflowError] when the
    rounded value is not finite. *)
Definition of_int (n : Z) : option spec_float :=
  match binary_normalize prec emax n 0 false with
  | S754_infinity _ | S754_nan => None
  | f => Some f
  end.

Definition mul (x y : spec_float) : spec_float := SFmul prec emax x y.

(** [int(x)] for a float: truncation toward zero; raises on inf and nan. *)
Definition to_int (x : spec_float) : option Z :=
  match x with
  | S754_zero _ => Some 0
  | S754_finite s m e =>
      let a := match e with
               | Zneg p => Z.shiftr (Zpos m) (Zpos p)
               | _ => Z.shiftl (Zpos m) e
               end in
      Some (if s then - a else a)
  | _ => None
  end.

(** Exact comparison of an [int] with a float, as Python's mixed
    comparison does it (no rounding of the integer). *)
Definition int_cmp (n : Z) (x : spec_float) : option comparison :=
  match x with
  | S754_zero _ => Some (n ?= 0)
  | S754_infinity s => Some (if s then Gt else Lt)
  | S754_nan => None
  | S754_finite s m e =>
      let v := if s then Zneg m else Zpos m in
      match e with
      | Zneg p => Some (Z.shiftl n (Zpos p) ?= v)
      | _ => Some (n ?= Z.shiftl v e)
      end
  end.

Definition int_gt (n : Z) (x : spec_float) : bool :=
  match int_cmp n x with Some Gt => true | _ => false end.

Definition int_ge (n : Z) (x : spec_float) : bool :=
  match int_cmp n x with Some Gt | Some Eq => true | _ => false end.

(** The literals of the sources, as the nearest binary64 values. *)
Definition lit_1_0 : spec_float := S754_finite false 4503599627370496 (-52).
Definition lit_0_9 : spec_float := S754_finite false 8106479329266893 (-53).
Definition lit_0_8 : spec_float := S754_finite false 7205759403792794 (-53).
Definition lit_0_7 : spec_float := S754_finite false 6305039478318694 (-53).
Definition lit_0_6 : spec_float := S754_finite false 5404319552844595 (-53).
Definition lit_0_25 : spec_float := S754_finite false 4503599627370496 (-54).

Definition lit_0_5 : spec_float := S754_finite false 4503599627370496 (-53).

(** [x >= y] on floats. *)
Definition ge (x y : spec_float) : bool := SFleb y x.

(** [a / b] on two [int]s whose magnitude is below 2^53 (both convert
    exactly, so the quotient is rounded once); [b] is not zero. *)
Definition true_div (a b : Z) : spec_float :=
  SFdiv prec emax (binary_normalize prec emax a 0 false)
                  (binary_normalize prec emax b 0 false).

(** The integer nearest to [10 * x], ties to the even one. *)
Definition nearest_tenths (x : spec_float) : Z :=
  match x with
  | S754_finite s m e =>
      let t :=
        match e with
        | Zneg p =>
            let k := Zpos p in
            let q := Z.shiftr (10 * Zpos m) k in
            let r := Z.land (10 * Zpos m) (Z.ones k) in
            let half := Z.shiftl 1 (k - 1) in
            match r ?= half with
            | Lt => q
            | Gt => q + 1
            | Eq => if Z.even q then q else q + 1
            end
        | _ => Z.shiftl (10 * Zpos m) e
        end in
      if s then - t else t
  | _ => 0
  end.

(** [round(x, 1)] on a finite float: the float nearest to the
    one-decimal number nearest to [x]. *)
Definition round1 (x : spec_float) : spec_float :=
  match x with
  | S754_finite _ _ _ => true_div (nearest_tenths x) 10
  | _ => x
  end.

(** [n * x] for an [int] [n] and a float [x]. *)
Definition int_mul (n : Z) (x : spec_float) : option spec_float :=
  match of_int n with
  | Some f => Some (mul f x)
  | None => None
  end.

(** *** Further float operations *)

(** An [int] as an unrounded binary value. *)
Definition exact (a : Z) : spec_float :=
  match a with
  | Z0 => S754_zero false
  | Zpos p => S754_finite false p 0
  | Zneg p => S754_finite true p 0
  end.

(** [a / b] on two [int]s of any size: the correctly rounded quotient;
    [ZeroDivisionError] when [b] is zero, [OverflowError] when the
    quotient is too large for a float. *)
Definition int_true_div (a b : Z) : option spec_float :=
  match b with
  | Z0 => None
  | _ =>
      match SFdiv prec emax (exact a) (exact b) with
      | S754_infinity _ | S754_nan => None
      | f => Some f
      end
  end.

Definition add (x y : spec_float) : spec_float := SFadd prec emax x y.
Definition sub (x y : spec_float) : spec_float := SFsub prec emax x y.
Definition abs (x : spec_float) : spec_float := SFabs x.

(** [x / y] on floats: [ZeroDivisionError] when [y] is a zero. *)
Definition div (x y : spec_float) : option spec_float :=
  match y with
  | S754_zero _ => None
  | _ => Some (SFdiv prec emax x y)
  end.

(** [x < y] and [x > y] on floats. *)
Definition lt (x y : spec_float) : bool := SFltb x y.
Definition gt (x y : spec_float) : bool := SFltb y x.

(** [n < x] and [n <= x] for an [int] and a float, compared exactly. *)
Definition int_lt (n : Z) (x : spec_float) : bool :=
  match int_cmp n x with Some Lt => true | _ => false end.
Definition int_le (n : Z) (x : spec_float) : bool :=
  match int_cmp n x with Some Lt | Some Eq => true | _ => false end.

(** [round(x, 1)] on any float: infinities and nans are returned as they
    are; a value that rounds to zero keeps its sign. *)
Definition round_1 (x : spec_float) : spec_float :=
  match x with
  | S754_finite s _ _ =>
      match nearest_tenths x with
      | Z0 => S754_zero s
      | t => match int_true_div t 10 with
             | Some f => f
             | None => x  (* unreachable: [t / 10] is no larger than [x] *)
             end
      end
  | _ => x
  end.

(** Further literals of the sources. *)
Definition lit_0_15 : spec_float := S754_finite false 5404319552844595 (-55).
Definition lit_0_4 : spec_float := S754_finite false 7205759403792794 (-54).
Definition lit_0_75 : spec_float := S754_finite false 6755399441055744 (-53).
Definition lit_5_0 : spec_float := S754_finite false 5629499534213120 (-50).
Definition lit_8_5 : spec_float := S754_finite false 4785074604081152 (-49).
Definition lit_3_0 : spec_float := S754_finite false 6755399441055744 (-51).
Definition lit_10_0 : spec_float := S754_finite false 5629499534213120 (-49).

End PyFloat.

(* ------------------------------------------------------------------ *)
(** ** Python strings (ASCII) *)

Module PyStr.

Definition is_digit (c : ascii) : bool :=
  let n := N_of_ascii c in (48 <=? n)%N && (n <=? 57)%N.

Definition digit_val (c : ascii) : Z := Z.of_N (N_of_ascii c) - 48.

Definition digit_char (d : Z) : ascii := ascii_of_N (Z.to_N (d + 48)).

(** The format spec [:02d], on the values 0..99 the sources apply it to;
    wider or negative numbers print with their own width. *)
Definition fmt_02d (n : Z) : string :=
  String (digit_char (n / 10)) (String (digit_char (n mod 10)) "").

(** [str.lower] on ASCII text. *)
Definition lower_char (c : ascii) : ascii :=
  let n := N_of_ascii c in
  if (65 <=? n)%N && (n <=? 90)%N then ascii_of_N (n + 32) else c.

Fixpoint lower (s : string) : string :=
  match s with
  | "" => ""
  | String c s' => String (lower_char c) (lower s')
  end.

(** [k in s] for strings: [k] occurs in [s] as a contiguous substring. *)
Fixpoint contains (k s : string) : bool :=
  prefix k s ||
  match s with
  | "" => false
  | String _ s' => contains k s'
  end.

(** [c in s] for a one-character needle. *)
Fixpoint has_char (c : ascii) (s : string) : bool :=
  match s with
  | "" => false
  | String d s' => Ascii.eqb c d || has_char c s'
  end.

(** [s.replace(c, r)] for a one-character pattern [c]. *)
Fixpoint replace_char (c : ascii) (r : string) (s : string) : string :=
  match s with
  | "" => ""
  | String d s' =>
      if Ascii.eqb c d then r ++ replace_char c r s'
      else String d (replace_char c r s')
  end.

(** Truthiness of a string, and the [or] of two string operands. *)
Definition truthy (s : string) : bool :=
  match s with "" => false | _ => true end.

Definition py_or (a b : string) : string := if truthy a then a else b.

(** [s.split(c)] for a one-character separator: always at least one
    piece, empty pieces kept. *)
Fixpoint split_char (c : ascii) (s : string) : list string :=
  match s with
  | "" => [""]
  | String d s' =>
      match split_char c s' with
      | [] => [String d ""]  (* unreachable: the result is never empty *)
      | p :: ps => if Ascii.eqb c d then "" :: p :: ps
                   else String d p :: ps
      end
  end.

(** ASCII white space, as [str.isspace] sees it. *)
Definition is_space (c : ascii) : bool :=
  let n := N_of_ascii c in
  ((9 <=? n)%N && (n <=? 13)%N) || ((28 <=? n)%N && (n <=? 32)%N).

Fixpoint lstrip (s : string) : string :=
  match s with
  | "" => ""
  | String c s' => if is_space c then lstrip s' else s
  end.

Fixpoint rstrip (s : string) : string :=
  match s with
  | "" => ""
  | String c s' =>
      match rstrip s' with
      | "" => if is_space c then "" else String c ""
      | r => String c r
      end
  end.

Definition strip (s : string) : string := rstrip (lstrip s).

End PyStr.

(* ------------------------------------------------------------------ *)
(** ** [datetime] and [timedelta] *)

Module PyTime.

(** A [datetime]: the proleptic Gregorian ordinal of its date (1 is
    0001-01-01, 3652059 is 9999-12-31), the microseconds since midnight,
    and the UTC offset in microseconds when the value is aware. *)
Record datetime : Type := mk_datetime {
    dt_date : Z;
    dt_us : Z;
    dt_tz : option Z
  }.

Definition MINORDINAL : Z := 1.
Definition MAXORDINAL : Z := 3652059.
Definition us_per_second : Z := 1000000.
Definition us_per_minute : Z := 60000000.
Definition us_per_hour : Z := 3600000000.
Definition us_per_day : Z := 86400000000.

Definition hour (d : datetime) : Z := dt_us d / us_per_hour.
Definition minute (d : datetime) : Z := (dt_us d / us_per_minute) mod 60.

(** [d.strftime('%H:%M')] *)
Definition strftime_HM (d : datetime) : string :=
  PyStr.fmt_02d (hour d) ++ ":" ++ PyStr.fmt_02d (minute d).

(** A [timedelta] is its length in microseconds; the constructor raises
    [OverflowError] when the day count leaves [-999999999, 999999999]. *)
Definition timedelta_ok (us : Z) : bool :=
  (-999999999 <=? us / us_per_day) && (us / us_per_day <=? 999999999).

Definition timedelta_minutes (n : Z) : option Z :=
  let us := n * us_per_minute in
  if timedelta_ok us then Some us else None.

Definition timedelta_days (n : Z) : option Z :=
  let us := n * us_per_day in
  if timedelta_ok us then Some us else None.

(** [d + td] and [d - td]: [OverflowError] when the date leaves the
    supported years. *)
Definition add (d : datetime) (td : Z) : option datetime :=
  let t := dt_us d + td in
  let day := dt_date d + t / us_per_day in
  if (MINORDINAL <=? day) && (day <=? MAXORDINAL)
  then Some (mk_datetime day (t mod us_per_day) (dt_tz d))
  else None.

Definition sub (d : datetime) (td : Z) : option datetime := add d (- td).

(** Microseconds from 0001-01-01T00:00 on the wall clock. *)
Definition wall (d : datetime) : Z := (dt_date d - 1) * us_per_day + dt_us d.

(** Ordering of two datetimes: [TypeError] when exactly one is aware. *)
Definition cmp (a b : datetime) : option comparison :=
  match dt_tz a, dt_tz b with
  | None, None => Some (wall a ?= wall b)
  | Some oa, Some ob => Some (wall a - oa ?= wall b - ob)
  | _, _ => None
  end.

Definition lt (a b : datetime) : option bool :=
  option_map (fun c => match c with Lt => true | _ => false end) (cmp a b).

Definition ge (a b : datetime) : option bool :=
  option_map (fun c => match c with Lt => false | _ => true end) (cmp a b).

(** [(a - b).seconds]: the seconds field of the normalised difference,
    always in [0, 86400); [TypeError] when exactly one operand is aware. *)
Definition diff_seconds (a b : datetime) : option Z :=
  match dt_tz a, dt_tz b with
  | None, None => Some (((wall a - wall b) / us_per_second) mod 86400)
  | Some oa, Some ob =>
      Some ((((wall a - oa) - (wall b - ob)) / us_per_second) mod 86400)
  | _, _ => None
  end.

(** [datetime.strptime(s, '%H:%M').time()].  The directive [%H] is the
    pattern [2[0-3]|[0-1]\d|\d] and [%M] is [[0-5]\d|\d]; the pattern is
    matched at the start of [s] and a match that leaves text over raises
    [ValueError]. *)
Definition in_range (lo hi : N) (c : ascii) : bool :=
  let n := N_of_ascii c in (lo <=? n)%N && (n <=? hi)%N.

Definition match_H (s : string) : option (Z * string) :=
  match s with
  | String a (String b r) =>
      if Ascii.eqb a "2" && in_range 48 51 b && prefix ":" r
      then Some (20 + PyStr.digit_val b, r)
      else if in_range 48 49 a && PyStr.is_digit b && prefix ":" r
      then Some (10 * PyStr.digit_val a + PyStr.digit_val b, r)
      else if PyStr.is_digit a && Ascii.eqb b ":"
      then Some (PyStr.digit_val a, String b r)
      else None
  | _ => None
  end.

Definition match_M (s : string) : option (Z * string) :=
  match s with
  | String a r =>
      match r with
      | String b r' =>
          if in_range 48 53 a && PyStr.is_digit b
          then Some (10 * PyStr.digit_val a + PyStr.digit_val b, r')
          else if PyStr.is_digit a then Some (PyStr.digit_val a, r)
          else None
      | "" => if PyStr.is_digit a then Some (PyStr.digit_val a, "") else None
      end
  | "" => None
  end.

Definition strptime_HM (s : string) : option (Z * Z) :=
  match match_H s with
  | Some (h, String ":" r) =>
      match match_M r with
      | Some (m, "") => Some (h, m)
      | _ => None
      end
  | _ => None
  end.

(** [datetime.combine(date, time(h, m))] *)
Definition combine (date : Z) (hm : Z * Z) : datetime :=
  mk_datetime date (fst hm * us_per_hour + snd hm * us_per_minute) None.

End PyTime.

(* ------------------------------------------------------------------ *)
(** ** [sorted] with a key and dictionaries with string keys *)

Module PyList.

Section Sorted.
Context {A K : Type}.
Variable key : A -> K.
(** [ahead k1 k2]: an element of key [k1] met earlier in the input stays
    ahead of an element of key [k2]. *)
Variable ahead : K -> K -> bool.

Fixpoint insert (x : A) (l : list A) : list A :=
  match l with
  | [] => [x]
  | y :: l' => if ahead (key x) (key y) then x :: l else y :: insert x l'
  end.

(** [sorted(l, key=key)] is a stable sort, and the keys are totally
    ordered, which leaves one possible result; it is computed here by
    insertion from the right end, every element placed ahead of the first
    later element it may stay ahead of. *)
Definition sorted_by (l : list A) : list A := fold_right insert [] l.
End Sorted.

(** [sorted(l, key=key)] and [sorted(l, key=key, reverse=True)] on integer
    keys; both keep the input order of elements with equal keys. *)
Definition sorted_asc {A} (key : A -> Z) : list A -> list A :=
  sorted_by key Z.leb.
Definition sorted_desc {A} (key : A -> Z) : list A -> list A :=
  sorted_by key (fun k1 k2 => k2 <=? k1).

(** [sorted(l, key=key)] on string keys (code-point order). *)
Definition sorted_str {A} (key : A -> string) : list A -> list A :=
  sorted_by key String.leb.

(** [d.get(k, default)] on a dictionary literal. *)
Fixpoint dict_get {V} (d : list (string * V)) (k : string) (default : V) : V :=
  match d with
  | [] => default
  | (k', v) :: d' => if String.eqb k k' then v else dict_get d' k default
  end.

(** [opt.get(default)] for a key that may be absent. *)
Definition get_or {V} (o : option V) (default : V) : V :=
  match o with Some v => v | None => default end.

End PyList.

(* ------------------------------------------------------------------ *)
(** ** [calendar_optmizer.py]: the block scheduler *)

Module CalendarOptimizer.
Import PyTime.

(** The literal [difficulty_map]; [_order_subjects_by_difficulty] and
    [_get_subject_difficulty] each spell out this same dictionary. *)
Definition difficulty_map : list (string * Z) :=
  [ ("math", 9); ("mathematics", 9); ("calculus", 9); ("algebra", 8);
    ("physics", 8); ("chemistry", 7); ("biology", 6);
    ("computer science", 8); ("programming", 8); ("algorithms", 9);
    ("english", 5); ("literature", 5); ("history", 6);
    ("psychology", 6); ("sociology", 5); ("philosophy", 7) ].

Definition _get_subject_difficulty (subject : string) : Z :=
  PyList.dict_get difficulty_map (PyStr.lower subject) 5.

Definition _order_subjects_by_difficulty (subjects : list string) : list string :=
  let subjects_with_difficulty :=
    map (fun subject =>
           (subject, PyList.dict_get difficulty_map (PyStr.lower subject) 5))
        subjects in
  map fst (PyList.sorted_desc snd subjects_with_difficulty).

(** The three-way band test on the clock hour that opens
    [_adjust_duration_for_time_and_subject]. *)
Definition duration_multiplier (hour : Z) : spec_float :=
  if ((9 <=? hour) && (hour <=? 11)) || ((15 <=? hour) && (hour <=? 17))
  then PyFloat.lit_1_0
  else if ((11 <=? hour) && (hour <=? 15)) || ((17 <=? hour) && (hour <=? 20))
  then PyFloat.lit_0_9
  else PyFloat.lit_0_8.

Definition _adjust_duration_for_time_and_subject
    (time : datetime) (subject : string) (base_duration : Z) : option Z :=
  let hour := PyTime.hour time in
  let multiplier := duration_multiplier hour in
  let difficulty := _get_subject_difficulty subject in
  let multiplier :=
    if 8 <=? difficulty then
      if hour <? 12 then multiplier
      else PyFloat.mul multiplier PyFloat.lit_0_9
    else multiplier in
  match PyFloat.int_mul base_duration multiplier with
  | Some f => PyFloat.to_int f
  | None => None
  end.

Definition _is_optimal_time_for_subject (time : datetime) (subject : string) : bool :=
  let hour := PyTime.hour time in
  let difficulty := _get_subject_difficulty subject in
  if 7 <=? difficulty
  then ((9 <=? hour) && (hour <=? 12)) || ((15 <=? hour) && (hour <=? 17))
  else (9 <=? hour) && (hour <=? 20).

Definition _adjust_break_duration (base_break study_duration : Z) : Z :=
  if 90 <=? study_duration then Z.min (base_break + 5) 20 else base_break.

Definition _suggest_break_activity (break_duration : Z) : string :=
  if break_duration <=? 10 then "Deep breathing or stretching"
  else if break_duration <=? 20 then "Short walk or hydration"
  else "Physical exercise or snack".

(** The two shapes of dictionary appended to [study_blocks]. *)
Record study_block : Type := mk_study {
    sb_subject : string;
    sb_start_time : string;
    sb_end_time : string;
    sb_duration : Z;
    sb_difficulty : Z;
    sb_optimal_time : bool
  }.

Record break_block : Type := mk_break {
    bb_start_time : string;
    bb_end_time : string;
    bb_duration : Z;
    bb_activity : string
  }.

Inductive block : Type :=
  | Study (b : study_block)
  | Break (b : break_block).

Inductive block_type : Type := study | break.

Definition type_of (b : block) : block_type :=
  match b with Study _ => study | Break _ => break end.
Definition subject_of (b : block) : string :=
  match b with Study s => sb_subject s | Break _ => "Break" end.
Definition start_time_of (b : block) : string :=
  match b with Study s => sb_start_time s | Break k => bb_start_time k end.
Definition end_time_of (b : block) : string :=
  match b with Study s => sb_end_time s | Break k => bb_end_time k end.
Definition duration_of (b : block) : Z :=
  match b with Study s => sb_duration s | Break k => bb_duration k end.

Definition is_study (b : block) : bool :=
  match b with Study _ => true | Break _ => false end.
Definition is_break (b : block) : bool := negb (is_study b).

(** The [preferences] dictionary: every key may be absent. *)
Record preferences : Type := mk_preferences {
    p_study_duration : option Z;
    p_break_duration : option Z;
    p_subjects : option (list string);
    p_start_time : option string;
    p_end_time : option string
  }.

(** A calendar event as [get_calendar_events] builds it; a missing key and
    the empty string are told apart nowhere in this file's code. *)
Record event : Type := mk_event {
    ev_start : string;
    ev_end : string
  }.

(** The part of the returned dictionary that the block loop fills.  The
    remaining keys ([wellness_score], [efficiency_score],
    [schedule_rating], [optimization_notes]) are computed from these three
    by functions that read them only and raise on no block list the loop
    can build. *)
Record schedule : Type := mk_schedule {
    study_blocks : list block;
    total_study_time : Z;
    total_break_time : Z
  }.

(** The variables the [for] loop of [_generate_optimized_blocks] updates. *)
Record loop_state : Type := mk_state {
    st_blocks : list block;
    st_study : Z;
    st_break : Z;
    st_current : datetime
  }.

Section Loop.
Variables study_duration break_duration : Z.
(** [len(difficulty_order)] *)
Variable n : Z.

(** One iteration of the loop body, at index [i]. *)
Definition loop_body (i : Z) (subject : string) (st : loop_state)
  : option loop_state :=
  let current_datetime := st_current st in
  match _adjust_duration_for_time_and_subject
          current_datetime subject study_duration with
  | None => None
  | Some adjusted_duration =>
  match timedelta_minutes adjusted_duration with
  | None => None
  | Some td =>
  match add current_datetime td with
  | None => None
  | Some end_datetime =>
    let blocks :=
      st_blocks st ++
      [Study (mk_study subject
                (strftime_HM current_datetime)
                (strftime_HM end_datetime)
                adjusted_duration
                (_get_subject_difficulty subject)
                (_is_optimal_time_for_subject current_datetime subject))] in
    let total_study_time := st_study st + adjusted_duration in
    let current_datetime := end_datetime in
    if i <? n - 1 then
      let adjusted_break :=
        _adjust_break_duration break_duration adjusted_duration in
      match timedelta_minutes adjusted_break with
      | None => None
      | Some tb =>
      match add current_datetime tb with
      | None => None
      | Some break_end =>
        Some (mk_state
                (blocks ++
                 [Break (mk_break (strftime_HM current_datetime)
                           (strftime_HM break_end)
                           adjusted_break
                           (_suggest_break_activity adjusted_break))])
                total_study_time
                (st_break st + adjusted_break)
                break_end)
      end end
    else
      Some (mk_state blocks total_study_time (st_break st) current_datetime)
  end end end.

(** [for i, subject in enumerate(difficulty_order)], from index [i]. *)
Fixpoint loop (i : Z) (subjects : list string) (st : loop_state)
  : option loop_state :=
  match subjects with
  | [] => Some st
  | subject :: rest =>
      match loop_body i subject st with
      | Some st' => loop (i + 1) rest st'
      | None => None
      end
  end.
End Loop.

Definition default_subjects : list string :=
  ["Math"; "Physics"; "Chemistry"; "English"].

Section Generate.
(** [datetime.now().date()], as an ordinal. *)
Variable today : Z.

Definition _generate_optimized_blocks
    (prefs : preferences) (existing_events : option (list event))
  : option schedule :=
  let study_duration := PyList.get_or (p_study_duration prefs) 90 in
  let break_duration := PyList.get_or (p_break_duration prefs) 15 in
  let subjects := PyList.get_or (p_subjects prefs) default_subjects in
  let start_time_str := PyList.get_or (p_start_time prefs) "09:00" in
  match strptime_HM start_time_str with
  | None => None
  | Some start_time =>
    let current_datetime := combine today start_time in
    let difficulty_order := _order_subjects_by_difficulty subjects in
    match loop study_duration break_duration
            (Z.of_nat (List.length difficulty_order)) 0 difficulty_order
            (mk_state [] 0 0 current_datetime) with
    | None => None
    | Some st =>
        Some (mk_schedule (st_blocks st) (st_study st) (st_break st))
    end
  end.

(** [_simulate_schedule] *)
Definition _simulate_schedule (prefs : preferences) : option schedule :=
  _generate_optimized_blocks prefs None.
End Generate.

(** *** The free-time walk *)

(** An [int] or a [float], for the [duration_hours] entry. *)
Inductive number : Type :=
  | Int (z : Z)
  | Float (f : spec_float).

Record free_block : Type := mk_free {
    fb_start : string;
    fb_end : string;
    fb_duration_hours : number
  }.

(** A free block read as an event: the walk looks up [start] and [end]. *)
Definition as_event (b : free_block) : event :=
  mk_event (fb_start b) (fb_end b).

(** [datetime.fromisoformat('2025-09-13T09:00:00')] *)
Definition day_start : datetime := mk_datetime 739507 (9 * us_per_hour) None.

Definition default_free_blocks : list free_block :=
  [mk_free "09:00" "17:00" (Int 8)].

Record walk_state : Type := mk_walk {
    w_free : list free_block;
    w_current : datetime
  }.

Section FreeTime.
(** [datetime.fromisoformat]; [None] when it raises [ValueError]. *)
Variable fromisoformat : string -> option datetime.

(** The body of the [for event in sorted_events] loop.  An exception
    inside [try] leaves [current_time] as it was; a block appended
    before the exception stays in the list. *)
Definition walk_body (ev : event) (st : walk_state) : walk_state :=
  let current_time := w_current st in
  let start_str := ev_start ev in
  if PyStr.truthy start_str then
    match fromisoformat (PyStr.replace_char "Z" "" start_str) with
    | None => st
    | Some event_start =>
      match lt current_time event_start with
      | None => st
      | Some is_before =>
        let free_blocks :=
          if is_before then
            match diff_seconds event_start current_time with
            | None => w_free st  (* unreachable: [lt] has just succeeded *)
            | Some seconds =>
                let duration := PyFloat.true_div seconds 3600 in
                if PyFloat.ge duration PyFloat.lit_0_5 then
                  w_free st ++
                  [mk_free (strftime_HM current_time)
                           (strftime_HM event_start)
                           (Float (PyFloat.round1 duration))]
                else w_free st
            end
          else w_free st in
        let end_str := ev_end ev in
        if PyStr.truthy end_str then
          match fromisoformat (PyStr.replace_char "Z" "" end_str) with
          | None => mk_walk free_blocks current_time
          | Some event_end =>
            match lt current_time event_end with
            | None => mk_walk free_blocks current_time
            | Some true => mk_walk free_blocks event_end
            | Some false => mk_walk free_blocks current_time
            end
          end
        else mk_walk free_blocks current_time
      end
    end
  else st.

Definition _calculate_free_time_blocks (events : list event) : list free_block :=
  match events with
  | [] => default_free_blocks
  | _ =>
      let sorted_events := PyList.sorted_str ev_start events in
      w_free (fold_left (fun st ev => walk_body ev st) sorted_events
                        (mk_walk [] day_start))
  end.
End FreeTime.

End CalendarOptimizer.

(* ------------------------------------------------------------------ *)
(** ** Numbers that are an [int] or a [float] *)

Module PyNum.
Import CalendarOptimizer.

(** [a < b], compared exactly across the two kinds; false with a nan. *)
Definition lt (a b : number) : bool :=
  match a, b with
  | Int x, Int y => x <? y
  | Int x, Float g => PyFloat.int_lt x g
  | Float f, Int y => PyFloat.int_gt y f
  | Float f, Float g => PyFloat.lt f g
  end.

Definition gt (a b : number) : bool := lt b a.

(** [a >= b] *)
Definition ge (a b : number) : bool :=
  match a, b with
  | Int x, Int y => y <=? x
  | Int x, Float g => PyFloat.int_ge x g
  | Float f, Int y => PyFloat.int_le y f
  | Float f, Float g => PyFloat.ge f g
  end.

(** [max(a, b)] and [min(a, b)]: the first argument stays unless the
    second is strictly beyond it. *)
Definition py_max (a b : number) : number := if gt b a then b else a.
Definition py_min (a b : number) : number := if lt b a then b else a.

(** [round(n, 1)]: an [int] stays an [int]. *)
Definition round1 (n : number) : number :=
  match n with
  | Int z => Int z
  | Float f => Float (PyFloat.round_1 f)
  end.


End PyNum.

(* ------------------------------------------------------------------ *)
(** ** [gmail_analyzer.py]: the e-mail stress analysis *)

Module GmailAnalyzer.
Import PyTime.

Definition stress_keywords : list string :=
  [ "urgent"; "deadline"; "asap"; "emergency"; "critical";
    "overdue"; "late"; "failed"; "missing"; "important";
    "immediately"; "quickly"; "rush"; "priority" ].

Definition work_keywords : list string :=
  [ "assignment"; "homework"; "project"; "exam"; "test";
    "quiz"; "submission"; "grade"; "course"; "class";
    "study"; "lecture"; "professor"; "teacher" ].

(** An e-mail dictionary: text entries and the two time entries, each
    possibly absent; [timestamp] holds whole epoch seconds. *)
Record email_dict : Type := mk_email {
    e_subject : option string;
    e_body : option string;
    e_snippet : option string;
    e_text : option string;
    e_sender : option string;
    e_from : option string;
    e_date : option string;
    e_timestamp : option Z
  }.

(** An element of the [emails] list: a dictionary or anything else. *)
Inductive email : Type :=
  | NotDict
  | Dict (d : email_dict).

(** [hourly_distribution]: a dictionary in insertion order. *)
Definition histogram : Type := list (Z * Z).

(** [d[h] = d.get(h, 0) + 1] *)
Fixpoint bump (d : histogram) (h : Z) : histogram :=
  match d with
  | [] => [(h, 1)]
  | (k, v) :: d' => if k =? h then (k, v + 1) :: d' else (k, v) :: bump d' h
  end.

(** [for keyword in keywords: if keyword in text: ...; break] reaches its
    body for the first keyword of the list that occurs in [text]. *)
Fixpoint first_keyword (keywords : list string) (text : string) : option string :=
  match keywords with
  | [] => None
  | keyword :: rest =>
      if PyStr.contains keyword text then Some keyword
      else first_keyword rest text
  end.

(** [keyword in stress_keywords_found] *)
Definition mem (keyword : string) (l : list string) : bool :=
  existsb (String.eqb keyword) l.

Definition email_text (d : email_dict) : string :=
  let subject := PyStr.lower (PyList.get_or (e_subject d) "") in
  let body :=
    PyStr.lower
      (PyStr.py_or
         (PyStr.py_or (PyList.get_or (e_body d) "")
                      (PyList.get_or (e_snippet d) ""))
         (PyList.get_or (e_text d) "")) in
  let sender :=
    PyStr.lower
      (PyStr.py_or (PyList.get_or (e_sender d) "")
                   (PyList.get_or (e_from d) "")) in
  subject ++ " " ++ body ++ " " ++ sender.

(** The counters the second loop of [_analyze_email_content] updates. *)
Record counters : Type := mk_counters {
    urgent_count : Z;
    work_count : Z;
    stress_keywords_found : list string;
    hourly_distribution : histogram
  }.

Record analysis : Type := mk_analysis {
    total_emails : Z;
    urgent_emails : Z;
    work_emails : Z;
    a_stress_keywords_found : list string;
    peak_hours : list string;
    recommendations : list string;
    days_analyzed : Z;
    a_hourly_distribution : histogram
  }.

Definition rec_urgency : string :=
  "High urgency emails detected - consider prioritization techniques".
Definition rec_scattered : string :=
  "Email scattered throughout day - try batching email checks".
Definition rec_late_night : string :=
  "Late night/early morning emails - set email boundaries".
Definition rec_academic : string :=
  "High volume of academic emails - consider organizing with filters".
Definition rec_healthy : string :=
  "Email patterns look healthy - keep up the good work!".

(** [f"{hour:02d}:00-{(hour+1)%24:02d}:00"] *)
Definition peak_label (hour : Z) : string :=
  PyStr.fmt_02d hour ++ ":00-" ++ PyStr.fmt_02d ((hour + 1) mod 24) ++ ":00".

(** [any(hour for hour in hourly_distribution.keys()
         if hour >= 22 or hour <= 6)]:
    the generator yields the hours themselves, and [any] tests each
    yielded hour for truth, which an [int] has when it is not zero. *)
Definition any_late_hour (d : histogram) : bool :=
  existsb (fun hour => negb (hour =? 0))
          (filter (fun hour => (22 <=? hour) || (hour <=? 6)) (map fst d)).

Definition scan_stress (text : string) (c : counters) : counters :=
  match first_keyword stress_keywords text with
  | Some keyword =>
      mk_counters (urgent_count c + 1) (work_count c)
        (if mem keyword (stress_keywords_found c)
         then stress_keywords_found c
         else stress_keywords_found c ++ [keyword])
        (hourly_distribution c)
  | None => c
  end.

Definition scan_work (text : string) (c : counters) : counters :=
  match first_keyword work_keywords text with
  | Some _ =>
      mk_counters (urgent_count c) (work_count c + 1)
        (stress_keywords_found c) (hourly_distribution c)
  | None => c
  end.

Section Analyze.
(** [datetime.fromisoformat]; [None] when it raises. *)
Variable fromisoformat : string -> option datetime.
(** [datetime.fromtimestamp(float(t))]; [None] when it raises. *)
Variable fromtimestamp : Z -> option datetime.
(** [datetime.now()] *)
Variable now : datetime.

(** The first loop: is [email] appended to [recent_emails]?  Every
    exception inside [try] appends it. *)
Definition is_recent (cutoff_date : datetime) (e : email) : bool :=
  match e with
  | NotDict => true
  | Dict d =>
      let parsed : option (option datetime) :=
        match e_date d with
        | Some date_str =>
            if PyStr.has_char "T" date_str then
              match fromisoformat (PyStr.replace_char "Z" "+00:00" date_str) with
              | Some t => Some (Some t)
              | None => None
              end
            else Some None
        | None =>
            match e_timestamp d with
            | Some ts =>
                match fromtimestamp ts with
                | Some t => Some (Some t)
                | None => None
                end
            | None => Some None
            end
        end in
      match parsed with
      | None => true
      | Some None => true
      | Some (Some email_date) =>
          match ge email_date cutoff_date with
          | None => true
          | Some b => b
          end
      end
  end.

(** The [try] block that closes the second loop's body. *)
Definition scan_hour (d : email_dict) (c : counters) : counters :=
  let email_time :=
    match e_date d with
    | Some date_str =>
        fromisoformat (PyStr.replace_char "Z" "+00:00" date_str)
    | None =>
        match e_timestamp d with
        | Some ts => fromtimestamp ts
        | None => None
        end
    end in
  match email_time with
  | Some t =>
      mk_counters (urgent_count c) (work_count c)
        (stress_keywords_found c) (bump (hourly_distribution c) (hour t))
  | None => c
  end.

(** The body of [for email in recent_emails]. *)
Definition scan_email (e : email) (c : counters) : counters :=
  match e with
  | NotDict => c
  | Dict d =>
      let text := email_text d in
      scan_hour d (scan_work text (scan_stress text c))
  end.

Definition scan_all (recent_emails : list email) : counters :=
  fold_left (fun c e => scan_email e c) recent_emails
            (mk_counters 0 0 [] []).

(** [peak_hours]; [None] when [max_count * 0.7] raises. *)
Definition compute_peak_hours (d : histogram) : option (list string) :=
  match d with
  | [] => Some []
  | (_, v0) :: rest =>
      let max_count := fold_left Z.max (map snd rest) v0 in
      match PyFloat.int_mul max_count PyFloat.lit_0_7 with
      | None => None
      | Some bound =>
          Some (map (fun hc => peak_label (fst hc))
                    (filter (fun hc => PyFloat.int_ge (snd hc) bound) d))
      end
  end.

Definition compute_recommendations
    (total urgent work : Z) (peaks : list string) (d : histogram)
  : option (list string) :=
  let checks : option (list string) :=
    if 0 <? total then
      match PyFloat.int_mul total PyFloat.lit_0_25,
            PyFloat.int_mul total PyFloat.lit_0_6 with
      | Some quarter, Some sixty =>
          Some ((if PyFloat.int_gt urgent quarter then [rec_urgency] else []) ++
                (if 3 <? Z.of_nat (List.length peaks) then [rec_scattered] else []) ++
                (if any_late_hour d then [rec_late_night] else []) ++
                (if PyFloat.int_gt work sixty then [rec_academic] else []))
      | _, _ => None
      end
    else Some [] in
  match checks with
  | None => None
  | Some [] => Some [rec_healthy]
  | Some recs => Some recs
  end.

(** [_analyze_email_content], without the entries [workload_score],
    [burnout_risk] and [analysis_date], which are computed from the
    counters and feed nothing back. *)
Definition _analyze_email_content (emails : list email) (days_back : Z)
  : option analysis :=
  match timedelta_days days_back with
  | None => None
  | Some td =>
  match sub now td with
  | None => None
  | Some cutoff_date =>
    let recent_emails := filter (is_recent cutoff_date) emails in
    let total := Z.of_nat (List.length recent_emails) in
    let c := scan_all recent_emails in
    match compute_peak_hours (hourly_distribution c) with
    | None => None
    | Some peaks =>
    match compute_recommendations total (urgent_count c) (work_count c)
            peaks (hourly_distribution c) with
    | None => None
    | Some recs =>
        Some (mk_analysis total (urgent_count c) (work_count c)
                (stress_keywords_found c) peaks recs days_back
                (hourly_distribution c))
    end end
  end end.
End Analyze.


(** *** The workload score *)

(** [workload_score] as the [if total_emails > 0] statement leaves it. *)
Definition workload_score (total urgent work : Z) : option CalendarOptimizer.number :=
  if 0 <? total then
    match PyFloat.int_true_div urgent total, PyFloat.int_true_div work total with
    | Some urgent_ratio, Some work_ratio =>
        Some (PyNum.py_min (CalendarOptimizer.Int 10)
                (CalendarOptimizer.Float
                   (PyFloat.mul
                      (PyFloat.add (PyFloat.mul urgent_ratio PyFloat.lit_5_0)
                                   (PyFloat.mul work_ratio PyFloat.lit_3_0))
                      PyFloat.lit_10_0)))
    | _, _ => None
    end
  else Some (CalendarOptimizer.Int 0).

(** [burnout_risk], decided on the score before it is rounded. *)
Definition burnout_risk (score : CalendarOptimizer.number) : string :=
  if PyNum.ge score (CalendarOptimizer.Int 7) then "high"
  else if PyNum.ge score (CalendarOptimizer.Int 4) then "moderate"
  else "low".

(** The entry ['workload_score': round(workload_score, 1)]. *)
Definition workload_score_entry (total urgent work : Z)
  : option CalendarOptimizer.number :=
  option_map PyNum.round1 (workload_score total urgent work).

End GmailAnalyzer.

(* ------------------------------------------------------------------ *)
(** ** [utils.py] *)

Module Utils.

Definition parse_study_subjects (subjects_input : string) : list string :=
  if negb (PyStr.truthy subjects_input)
  then ["Math"; "Physics"; "Chemistry"; "English"]
  else
    let subjects := map PyStr.strip (PyStr.split_char "," subjects_input) in
    filter PyStr.truthy subjects.


(** [datetime.strptime(time_str, '%H:%M').strftime('%I:%M %p')], with the
    [AM]/[PM] of the C locale; any exception gives the input back. *)
Definition format_time (time_str : string) : string :=
  match PyTime.strptime_HM time_str with
  | Some (h, m) =>
      let h12 := if h mod 12 =? 0 then 12 else h mod 12 in
      PyStr.fmt_02d h12 ++ ":" ++ PyStr.fmt_02d m ++ " "
      ++ (if h <? 12 then "AM" else "PM")
  | None => time_str
  end.



(** The end of the pattern: [$] matches at the end of the string and
    before a newline that ends it. *)
Definition at_end (s : string) : bool :=
  match s with
  | "" => true
  | String c "" => Ascii.eqb c "010"
  | _ => false
  end.

(** [:[0-5][0-9]$] *)
Definition match_minutes (s : string) : bool :=
  match s with
  | String c (String a (String b r)) =>
      Ascii.eqb c ":" && PyTime.in_range 48 53 a && PyStr.is_digit b && at_end r
  | _ => false
  end.

(** [bool(re.match(r'^([0-1]?[0-9]|2[0-3]):[0-5][0-9]$', time_str))]: the
    hour is [[0-1][0-9]], then a lone [[0-9]], then [2[0-3]], whichever
    first lets the rest match. *)
Definition validate_time_format (time_str : string) : bool :=
  match time_str with
  | String a r1 =>
      (match r1 with
       | String b r2 =>
           PyTime.in_range 48 49 a && PyStr.is_digit b && match_minutes r2
       | "" => false
       end)
      || (PyStr.is_digit a && match_minutes r1)
      || (match r1 with
          | String b r2 =>
              Ascii.eqb a "2" && PyTime.in_range 48 51 b && match_minutes r2
          | "" => false
          end)
  | "" => false
  end.

Definition get_time_of_day (hour : Z) : string :=
  if (6 <=? hour) && (hour <? 12) then "morning"
  else if (12 <=? hour) && (hour <? 17) then "afternoon"
  else if (17 <=? hour) && (hour <? 21) then "evening"
  else "night".

Definition calculate_optimal_break_time (study_duration difficulty : Z) : Z :=
  let base_break :=
    if 120 <=? study_duration then 20
    else if 90 <=? study_duration then 15
    else 10 in
  let difficulty_adjustment := (difficulty - 5) * 2 in
  let optimal_break := base_break + difficulty_adjustment in
  Z.max 5 (Z.min 30 optimal_break).

End Utils.

(* ------------------------------------------------------------------ *)
(** ** A reading of the library parsers, for evaluating the code on
    concrete records *)

Module IsoBasic.
Import PyTime.

(** Exactly [n] decimal digits at the head of [s]. *)
Fixpoint digits (n : nat) (acc : Z) (s : string) : option (Z * string) :=
  match n with
  | O => Some (acc, s)
  | S n' =>
      match s with
      | String c r =>
          if PyStr.is_digit c then digits n' (10 * acc + PyStr.digit_val c) r
          else None
      | "" => None
      end
  end.

Definition is_leap (y : Z) : bool :=
  (y mod 4 =? 0) && (negb (y mod 100 =? 0) || (y mod 400 =? 0)).

Definition days_in_month (y m : Z) : Z :=
  if m =? 2 then (if is_leap y then 29 else 28)
  else if (m =? 4) || (m =? 6) || (m =? 9) || (m =? 11) then 30 else 31.

Definition days_before_year (y : Z) : Z :=
  let p := y - 1 in p * 365 + p / 4 - p / 100 + p / 400.

Definition days_before_month (y m : Z) : Z :=
  fold_left (fun acc k => acc + days_in_month y k)
            (map Z.of_nat (seq 1 (Z.to_nat (m - 1)))) 0.

(** [date(y, m, d).toordinal()], [None] outside the calendar. *)
Definition ymd2ord (y m d : Z) : option Z :=
  if (1 <=? y) && (y <=? 9999) && (1 <=? m) && (m <=? 12)
     && (1 <=? d) && (d <=? days_in_month y m)
  then Some (days_before_year y + days_before_month y m + d)
  else None.

(** [YYYY-MM-DD] *)
Definition parse_date (s : string) : option (Z * string) :=
  match digits 4 0 s with
  | Some (y, String "-" r1) =>
      match digits 2 0 r1 with
      | Some (m, String "-" r2) =>
          match digits 2 0 r2 with
          | Some (d, r3) =>
              match ymd2ord y m d with
              | Some o => Some (o, r3)
              | None => None
              end
          | None => None
          end
      | _ => None
      end
  | _ => None
  end.

(** [HH], [HH:MM] or [HH:MM:SS], as microseconds since midnight. *)
Definition parse_time (s : string) : option (Z * string) :=
  match digits 2 0 s with
  | Some (h, r1) =>
      if h <=? 23 then
        match r1 with
        | String ":" r2 =>
            match digits 2 0 r2 with
            | Some (m, r3) =>
                if m <=? 59 then
                  match r3 with
                  | String ":" r4 =>
                      match digits 2 0 r4 with
                      | Some (sec, r5) =>
                          if sec <=? 59
                          then Some (h * us_per_hour + m * us_per_minute
                                     + sec * us_per_second, r5)
                          else None
                      | None => None
                      end
                  | _ => Some (h * us_per_hour + m * us_per_minute, r3)
                  end
                else None
            | None => None
            end
        | _ => Some (h * us_per_hour, r1)
        end
      else None
  | None => None
  end.

(** Nothing, or a UTC offset [+HH:MM] / [-HH:MM]. *)
Definition parse_offset (s : string) : option (option Z) :=
  match s with
  | "" => Some None
  | String sign r =>
      if Ascii.eqb sign "+" || Ascii.eqb sign "-" then
        match parse_time r with
        | Some (us, "") =>
            Some (Some (if Ascii.eqb sign "-" then - us else us))
        | _ => None
        end
      else None
  end.

(** [datetime.fromisoformat] on the forms [YYYY-MM-DD],
    [YYYY-MM-DD*HH[:MM[:SS]]] and the latter with a UTC offset, where [*]
    is any one character.  Other spellings the library accepts
    (fractional seconds, the compact forms) are not read by this
    function, which is used for examples only; the theorems below that
    quantify over the parser do not depend on it. *)
Definition fromisoformat (s : string) : option datetime :=
  match parse_date s with
  | Some (o, "") => Some (mk_datetime o 0 None)
  | Some (o, String _ r) =>
      match parse_time r with
      | Some (us, rest) =>
          match parse_offset rest with
          | Some tz => Some (mk_datetime o us tz)
          | None => None
          end
      | None => None
      end
  | None => None
  end.

(** [datetime.fromtimestamp] for whole seconds on a machine whose local
    time is UTC. *)
Definition fromtimestamp (ts : Z) : option datetime :=
  add (mk_datetime 719163 0 None) (ts * us_per_second).

End IsoBasic.

(* ------------------------------------------------------------------ *)
(** ** [calendar_optmizer.py]: the scores *)

Module ScoreEngine.
Import CalendarOptimizer.

(** The points a study block earns for its length. *)
Definition duration_points (duration : Z) : Z :=
  if (60 <=? duration) && (duration <=? 120) then 10
  else if (45 <=? duration) && (duration <=? 150) then 8
  else 5.

(** [_calculate_wellness_score]; [None] is the [OverflowError] of a
    quotient too large for a float. *)
Definition _calculate_wellness_score
    (blocks : list block) (study_time break_time : Z) : option number :=
  match PyFloat.int_true_div break_time (Z.max study_time 1) with
  | None => None
  | Some balance_ratio =>
  let optimal_ratio := PyFloat.lit_0_15 in
  match PyFloat.div
          (PyFloat.abs (PyFloat.sub balance_ratio optimal_ratio))
          optimal_ratio with
  | None => None
  | Some deviation =>
  let balance_score :=
    PyFloat.mul PyFloat.lit_10_0 (PyFloat.sub PyFloat.lit_1_0 deviation) in
  let study_blocks := filter is_study blocks in
  let duration_score :=
    fold_left (fun acc b => acc + duration_points (duration_of b))
              study_blocks 0 in
  match PyFloat.int_true_div duration_score
          (Z.max (Z.of_nat (List.length study_blocks)) 1) with
  | None => None
  | Some duration_score =>
  let wellness_score :=
    PyFloat.add (PyFloat.mul balance_score PyFloat.lit_0_4)
                (PyFloat.mul duration_score PyFloat.lit_0_6) in
  Some (PyNum.round1
          (PyNum.py_min (Int 10) (PyNum.py_max (Int 0) (Float wellness_score))))
  end end end.

(** [block.get('optimal_time', False)] *)
Definition optimal_flag (b : block) : bool :=
  match b with Study s => sb_optimal_time s | Break _ => false end.

Definition _calculate_efficiency_score (blocks : list block) : option number :=
  let study_blocks := filter is_study blocks in
  match study_blocks with
  | [] => Some (Int 0)
  | _ =>
      let efficiency :=
        fold_left (fun acc b => acc + (if optimal_flag b then 10 else 6))
                  study_blocks 0 in
      match PyFloat.int_true_div efficiency
              (Z.of_nat (List.length study_blocks)) with
      | Some q => Some (Float (PyFloat.round_1 q))
      | None => None
      end
  end.

(** The conditional expression under the key [schedule_rating]. *)
Definition schedule_rating (wellness_score : number) : string :=
  if PyNum.gt wellness_score (Float PyFloat.lit_8_5) then "Excellent"
  else if PyNum.gt wellness_score (Int 7) then "Good"
  else "Needs Improvement".

End ScoreEngine.

(* ------------------------------------------------------------------ *)
(** ** [calendar_optmizer.py]: the two public methods *)

Module CalendarService.
Import PyTime CalendarOptimizer.

(** The attributes the methods read: [initialized], and whether [client]
    is set. *)
Record toolkit : Type := mk_toolkit {
  tk_initialized : bool;
  tk_client : bool
}.

Section Create.
(** [datetime.now().date()] *)
Variable today : Z.
(** Does [initialize] succeed?  It then sets [client] and [initialized];
    otherwise it leaves the object as it is and returns [False]. *)
Variable arcade_available : bool.
(** What the calendar tool answers to [_get_existing_events], which turns
    every exception into the empty list itself. *)
Variable fetched_events : list event.

Definition initialize (tk : toolkit) : bool * toolkit :=
  if arcade_available then (true, mk_toolkit true true) else (false, tk).

Definition _get_existing_events (tk : toolkit) : list event :=
  if tk_client tk then fetched_events else [].

(** [try: ... except Exception: return self._simulate_schedule(...)] *)
Definition _create_with_arcade_toolkit (tk : toolkit) (prefs : preferences)
  : option schedule :=
  let attempt :=
    if negb (tk_client tk) then _simulate_schedule today prefs
    else _generate_optimized_blocks today prefs
           (Some (_get_existing_events tk)) in
  match attempt with
  | Some sched => Some sched
  | None => _simulate_schedule today prefs
  end.

Definition create_optimized_schedule (tk : toolkit) (prefs : preferences)
  : option schedule * toolkit :=
  let '(ready, tk) :=
    if tk_initialized tk then (true, tk) else initialize tk in
  if negb ready then (_simulate_schedule today prefs, tk)
  else
    match _create_with_arcade_toolkit tk prefs with
    | Some sched => (Some sched, tk)
    | None => (_simulate_schedule today prefs, tk)
    end.
End Create.

(** An element of the fetched event list: a dictionary with its
    [summary] and the [dateTime] entries under [start] and [end], or
    anything else. *)
Inductive raw_event : Type :=
| RawOther
| RawEvent (summary start_dateTime end_dateTime : option string).

(** An entry of [processed_events]; its [type] is always ['existing']. *)
Record processed_event : Type := mk_processed {
  pe_title : string;
  pe_start : string;
  pe_end : string
}.

Definition walk_view (e : processed_event) : event :=
  mk_event (pe_start e) (pe_end e).

(** The two events used without a client. *)
Definition simulated_events : list raw_event :=
  [ RawEvent (Some "Data Structures Lecture")
             (Some "2025-09-13T10:00:00") (Some "2025-09-13T11:30:00");
    RawEvent (Some "Algorithm Analysis Lab")
             (Some "2025-09-13T14:00:00") (Some "2025-09-13T17:00:00") ].

Definition process_events (events : list raw_event) : list processed_event :=
  flat_map
    (fun e =>
       match e with
       | RawOther => []
       | RawEvent summary start_dt end_dt =>
           [mk_processed (PyList.get_or summary "Untitled")
                         (PyList.get_or start_dt "")
                         (PyList.get_or end_dt "")]
       end) events.

(** What [get_calendar_events] returns: the report, or the dictionary of
    the [except] branch, whose [events] and [free_time_blocks] are empty
    (its [error] text is the library's message). *)
Inductive calendar_report : Type :=
| Report (events : list processed_event) (free_time_blocks : list free_block)
         (total_events : Z) (total_free_hours : number)
| ReportError.

Section Events.
(** [datetime.fromisoformat]; [None] when it raises. *)
Variable fromisoformat : string -> option datetime.
(** [sum] over a non-empty sequence of floats, whose rounding depends on
    the interpreter version. *)
Variable float_sum : list spec_float -> spec_float.
(** What [_get_existing_events] returns with a client. *)
Variable fetched : list raw_event.

(** One term of the sum under [total_free_hours]. *)
Definition block_hours (b : free_block) : option spec_float :=
  match fromisoformat (PyStr.replace_char "Z" "" (fb_end b)) with
  | None => None
  | Some e =>
      match fromisoformat (PyStr.replace_char "Z" "" (fb_start b)) with
      | None => None
      | Some s =>
          match diff_seconds e s with
          | None => None
          | Some seconds => PyFloat.int_true_div seconds 3600
          end
      end
  end.

(** The terms in order; the first exception ends the evaluation. *)
Fixpoint all_hours (bs : list free_block) : option (list spec_float) :=
  match bs with
  | [] => Some []
  | b :: bs' =>
      match block_hours b with
      | None => None
      | Some h =>
          match all_hours bs' with
          | None => None
          | Some hs => Some (h :: hs)
          end
      end
  end.

Definition get_calendar_events (tk : toolkit) (days : Z) : calendar_report :=
  let events :=
    if tk_initialized tk && tk_client tk then fetched else simulated_events in
  let processed_events := process_events events in
  let free_blocks :=
    _calculate_free_time_blocks fromisoformat (map walk_view processed_events) in
  match all_hours free_blocks with
  | None => ReportError
  | Some hours =>
      Report processed_events free_blocks
             (Z.of_nat (List.length processed_events))
             (match hours with
              | [] => Int 0
              | _ => Float (float_sum hours)
              end)
  end.
End Events.

End CalendarService.

(* ------------------------------------------------------------------ *)
(** ** [wellness_nudger.py]: reminder times *)

Module WellnessNudger.
Import PyTime CalendarOptimizer.

(** The date [strptime] gives to a bare time: 1900-01-01. *)
Definition strptime_date : Z := 693596.

Definition _add_minutes_to_time (time_str : string) (minutes : Z) : string :=
  match strptime_HM time_str with
  | None => time_str
  | Some hm =>
      match timedelta_minutes minutes with
      | None => time_str
      | Some td =>
          match add (combine strptime_date hm) td with
          | None => time_str
          | Some new_time => strftime_HM new_time
          end
      end
  end.

(** [a <= b] on datetimes. *)
Definition le (a b : datetime) : option bool :=
  option_map (fun c => match c with Gt => false | _ => true end) (cmp a b).

(** The [while current_time < end_time] loop shared by the two schedule
    generators, for a step in microseconds.  Both times lie on one day and
    the steps are an hour and more, so the 1440 iterations allowed below
    are never used up. *)
Fixpoint reminder_loop (fuel : nat) (step : Z)
    (current_time end_time : datetime) (times : list string)
  : option (list string) :=
  match fuel with
  | O => None
  | S fuel' =>
      match lt current_time end_time with
      | None => None
      | Some false => Some times
      | Some true =>
          match add current_time step with
          | None => None
          | Some current_time =>
              match le current_time end_time with
              | None => None
              | Some within =>
                  reminder_loop fuel' step current_time end_time
                    (if within then times ++ [strftime_HM current_time]
                     else times)
              end
          end
      end
  end.

(** [study_blocks[-1]] *)
Definition last_block (b : block) (bs : list block) : block := last bs b.

Definition reminder_times (step : Z) (study_blocks : list block)
  : option (list string) :=
  match study_blocks with
  | [] => Some []
  | first :: rest =>
      let study_start := start_time_of first in
      let study_end := end_time_of (last_block first rest) in
      match strptime_HM study_start with
      | None => None
      | Some s =>
          match strptime_HM study_end with
          | None => None
          | Some e =>
              reminder_loop 1440 step (combine strptime_date s)
                            (combine strptime_date e) []
          end
      end
  end.

(** [timedelta(hours=2)] and [timedelta(minutes=90)], in microseconds. *)
Definition two_hours : Z := 2 * us_per_hour.
Definition ninety_minutes : Z := 90 * us_per_minute.

Definition _generate_hydration_schedule (study_blocks : list block)
  : option (list string) := reminder_times two_hours study_blocks.

Definition _generate_posture_schedule (study_blocks : list block)
  : option (list string) := reminder_times ninety_minutes study_blocks.

End WellnessNudger.

(* ------------------------------------------------------------------ *)
(** ** Properties stated over the embedding *)

Import PyTime CalendarOptimizer GmailAnalyzer.

(** Every block starts where the block before it ends. *)
Definition contiguous (bs : list block) : Prop :=
  forall i b1 b2,
    nth_error bs i = Some b1 ->
    nth_error bs (S i) = Some b2 ->
    start_time_of b2 = end_time_of b1.

(** [chain s bs e]: [bs] leads from the clock string [s] to the clock
    string [e] without a gap. *)
Inductive chain : string -> list block -> string -> Prop :=
| chain_nil : forall s, chain s [] s
| chain_cons : forall b bs e,
  chain (end_time_of b) bs e -> chain (start_time_of b) (b :: bs) e.

(** Sum of the [duration] entries of the blocks selected by [p]. *)
Definition sum_durations (p : block -> bool) (bs : list block) : Z :=
  fold_right Z.add 0 (map duration_of (filter p bs)).

(** A clock string in the two-digit form [HH:MM]. *)
Definition is_HH_MM (s : string) : Prop :=
  exists h m, 0 <= h <= 23 /\ 0 <= m <= 59 /\
              s = (PyStr.fmt_02d h ++ ":" ++ PyStr.fmt_02d m)%string.

(** A date the [datetime] type can hold. *)
Definition valid_date (d : Z) : Prop := MINORDINAL <= d <= MAXORDINAL.

(** All clock values, for checks by evaluation. *)
Definition all_clock_values : list (Z * Z) :=
  list_prod (map Z.of_nat (seq 0 24)) (map Z.of_nat (seq 0 60)).

(** First component of an equation between [Some] pairs, without
    unfolding the arithmetic inside. *)
Ltac some_fst H :=
  let E := fresh "E" in
  pose proof (f_equal (fun o : option (Z * string) =>
                         match o with Some (x, _) => x | None => 0 end) H) as E;
  cbv beta iota in E; subst.

(** [d] moved by [td] microseconds without leaving its date. *)
Definition shift (d : datetime) (td : Z) : datetime :=
  mk_datetime (dt_date d) (dt_us d + td) (dt_tz d).

(** A valid date with a time of day inside it. *)
Definition within_day (d : datetime) : Prop :=
  valid_date (dt_date d) /\ 0 <= dt_us d < us_per_day.

(** Side conditions of the same-day lemmas on literal clock values. *)
Ltac same_day Hd :=
  first
    [ reflexivity
    | split; [exact Hd | vm_compute; split; congruence] ].

(** The request of the end-to-end example. *)
Definition example_request : preferences :=
  mk_preferences (Some 90) (Some 15) (Some ["Math"; "English"])
                 (Some "09:00") None.

(** The schedule the example is answered with. *)
Definition example_schedule : schedule :=
  mk_schedule
    [ Study (mk_study "Math" "09:00" "10:30" 90 9 true);
      Break (mk_break "10:30" "10:50" 20 "Short walk or hydration");
      Study (mk_study "English" "10:50" "12:20" 90 5 true) ]
    180 20.

(** A request with an empty subject list. *)
Definition empty_request : preferences :=
  mk_preferences (Some 90) (Some 15) (Some []) (Some "09:00") (Some "17:00").

(** A request for the four default subjects from 15:00 with the end of the
    day at 17:00. *)
Definition late_request (end_time : option string) : preferences :=
  mk_preferences (Some 90) (Some 15) None (Some "15:00") end_time.

(** Does the text of [e] hold one of the stress keywords? *)
Definition has_stress (e : email) : bool :=
  match e with
  | NotDict => false
  | Dict d => existsb (fun k => PyStr.contains k (email_text d)) stress_keywords
  end.

(** An e-mail whose subject holds two stress keywords. *)
Definition urgent_deadline_email : email_dict :=
  mk_email (Some "URGENT: project deadline moved") (Some "See the new date.")
           None None (Some "Prof. Lee") None None None.

(** One e-mail, sent half an hour after midnight. *)
Definition midnight_email : email :=
  Dict (mk_email (Some "Hello") None (Some "See you on Monday")
                 None None (Some "sam@mail.org")
                 (Some "2025-09-13T00:30:00Z") None).

(** Noon of 2025-09-14, for [datetime.now()]. *)
Definition sample_now : datetime := mk_datetime 739508 (12 * us_per_hour) None.

(** The entries of a free block are five-character clock strings. *)
Definition clock_entries (b : free_block) : Prop :=
  String.length (fb_start b) = 5%nat /\ String.length (fb_end b) = 5%nat.

(** The two events [get_calendar_events] falls back to, as the walk sees
    them. *)
Definition sample_events : list event :=
  [ mk_event "2025-09-13T10:00:00" "2025-09-13T11:30:00";
    mk_event "2025-09-13T14:00:00" "2025-09-13T17:00:00" ].

(** The clock string of a point of the time line, given in microseconds
    from the first midnight of the calendar. *)
Definition clock (w : Z) : string :=
  strftime_HM (mk_datetime 1 (w mod us_per_day) None).

(** [laid_out w bs w']: the blocks [bs] cover the time line from [w] to
    [w'] back to back, each for its [duration] in minutes, and carry the
    clock strings of the two ends of their stretch. *)
Inductive laid_out : Z -> list block -> Z -> Prop :=
| laid_out_nil : forall w, laid_out w [] w
| laid_out_cons : forall w b bs w',
  start_time_of b = clock w ->
  end_time_of b = clock (w + duration_of b * us_per_minute) ->
  laid_out (w + duration_of b * us_per_minute) bs w' ->
  laid_out w (b :: bs) w'.

(** The time-of-day field lies inside one day. *)
Definition normalized (d : datetime) : Prop := 0 <= dt_us d < us_per_day.

(** A float that is not negative: its sign bit is clear, or it is a nan. *)
Definition sign_plus (f : spec_float) : Prop :=
  match f with
  | S754_zero s | S754_infinity s | S754_finite s _ _ => s = false
  | S754_nan => True
  end.

(** A finite float whose sign bit is clear. *)
Definition plus_finite (f : spec_float) : Prop :=
  match f with
  | S754_zero s | S754_finite s _ _ => s = false
  | _ => False
  end.

(** The block kinds of a schedule for [n] subjects: study blocks with a
    break between any two of them. *)
Fixpoint alternating (n : nat) : list block_type :=
  match n with
  | O => []
  | S k =>
      match k with
      | O => [study]
      | S _ => study :: break :: alternating k
      end
  end.

(** The whole-number percentage that stands for the multiplier chosen at
    clock hour [hour] for a subject of rating [difficulty]. *)
Definition percent (hour difficulty : Z) : Z :=
  let band :=
    if ((9 <=? hour) && (hour <=? 11)) || ((15 <=? hour) && (hour <=? 17))
    then 100
    else if ((11 <=? hour) && (hour <=? 15)) || ((17 <=? hour) && (hour <=? 20))
    then 90
    else 80 in
  if (8 <=? difficulty) && negb (hour <? 12) then band * 90 / 100 else band.

(** The multipliers [_adjust_duration_for_time_and_subject] can reach, each
    with its percentage. *)
Definition multiplier_table : list (spec_float * Z) :=
  [ (PyFloat.lit_1_0, 100); (PyFloat.lit_0_9, 90); (PyFloat.lit_0_8, 80);
    (PyFloat.mul PyFloat.lit_1_0 PyFloat.lit_0_9, 90);
    (PyFloat.mul PyFloat.lit_0_9 PyFloat.lit_0_9, 81);
    (PyFloat.mul PyFloat.lit_0_8 PyFloat.lit_0_9, 72) ].

(** [int(base * multiplier)] is the floor of the percentage of [base]. *)
Definition percent_agrees (mp : spec_float * Z) (base : Z) : bool :=
  match PyFloat.int_mul base (fst mp) with
  | Some f =>
      match PyFloat.to_int f with
      | Some d => d =? base * snd mp / 100
      | None => false
      end
  | None => false
  end.

(** The base durations of up to a day, in minutes. *)
Definition day_minutes : list Z := map Z.of_nat (seq 0 1441).

(** What the loop writes into a block, for base durations [sd] and [bd]:
    a study block carries the rendering of a time of day, the duration
    adjusted at that time and the rating and flag of its subject; a break
    carries the adjustment of [bd] after some study duration and the
    activity that goes with it. *)
Definition written_by_loop (sd bd : Z) (b : block) : Prop :=
  match b with
  | Study s =>
      exists time : datetime,
        normalized time /\
        sb_start_time s = strftime_HM time /\
        _adjust_duration_for_time_and_subject time (sb_subject s) sd
        = Some (sb_duration s) /\
        sb_difficulty s = _get_subject_difficulty (sb_subject s) /\
        sb_optimal_time s = _is_optimal_time_for_subject time (sb_subject s)
  | Break k =>
      exists study_duration : Z,
        bb_duration k = _adjust_break_duration bd study_duration /\
        bb_activity k = _suggest_break_activity (bb_duration k)
  end.

(** The window test of [_is_optimal_time_for_subject], on a clock hour. *)
Definition optimal_at (hour difficulty : Z) : bool :=
  if 7 <=? difficulty
  then ((9 <=? hour) && (hour <=? 12)) || ((15 <=? hour) && (hour <=? 17))
  else (9 <=? hour) && (hour <=? 20).

(** An event the free-time walk reads: its [start] is not empty and
    parses. *)
Definition readable (fromisoformat : string -> option datetime) (ev : event)
  : bool :=
  PyStr.truthy (ev_start ev) &&
  match fromisoformat (PyStr.replace_char "Z" "" (ev_start ev)) with
  | Some _ => true
  | None => false
  end.

(** Does a work keyword occur in the text of [e]? *)
Definition has_work (e : email) : bool :=
  match e with
  | NotDict => false
  | Dict d => existsb (fun k => PyStr.contains k (email_text d)) work_keywords
  end.

(** The sum of the counts of a histogram. *)
Definition histogram_total (d : histogram) : Z :=
  fold_right Z.add 0 (map snd d).

(** The five recommendation strings. *)
Definition all_recommendations : list string :=
  [rec_urgency; rec_scattered; rec_late_night; rec_academic; rec_healthy].

(** E-mails the date filter cannot date: anything that is not a
    dictionary, a [date] entry without a [T], or neither a [date] nor a
    [timestamp] entry. *)
Definition undated (e : email) : bool :=
  match e with
  | NotDict => true
  | Dict d =>
      match e_date d, e_timestamp d with
      | Some date_str, _ => negb (PyStr.has_char "T" date_str)
      | None, Some _ => false
      | None, None => true
      end
  end.

(** Three elements: an e-mail of 2025-09-01, something that is no
    dictionary, and an e-mail whose date has no time part. *)
Definition dated_emails : list email :=
  [ Dict (mk_email (Some "Hello") None None None None None
                   (Some "2025-09-01T08:00:00") None);
    NotDict;
    Dict (mk_email None None None None None None (Some "2020-01-01") None) ].

(** A subject name as the parser returns it: not empty, without a comma,
    and without white space at either end. *)
Definition clean_subject (s : string) : Prop :=
  s <> "" /\ PyStr.has_char "," s = false /\ PyStr.strip s = s.

(** The [%H:%M] string of a minute of the day. *)
Definition clock_of_minute (t : Z) : string :=
  PyStr.fmt_02d (t / 60) ++ ":" ++ PyStr.fmt_02d (t mod 60).

(** The datetime [T] minutes after 1900-01-01T00:00. *)
Definition at_minute (T : Z) : datetime :=
  mk_datetime (WellnessNudger.strptime_date + T / 1440)
              (T mod 1440 * us_per_minute) None.

(** The reminder times from minute [S] of the day to minute [E], one
    every [k] minutes. *)
Definition every_minutes (k S E : Z) : list string :=
  map (fun i => clock_of_minute (S + Z.of_nat i * k))
      (seq 1 (Z.to_nat ((E - S) / k))).

(** A score between 0 and 10, the ends included; the comparisons are
    Python's, exact between an [int] and a [float]. *)
Definition zero_to_ten (n : number) : Prop :=
  PyNum.ge n (Int 0) = true /\ PyNum.ge (Int 10) n = true.

(** The difficulty ratings of the study blocks of a list, in order. *)
Definition study_difficulties (blocks : list block) : list Z :=
  flat_map (fun b => match b with
                     | Study s => [sb_difficulty s]
                     | Break _ => []
                     end) blocks.

(* ------------------------------------------------------------------ *)
(** ** Stable sorting *)

Section SortedFacts.
Context {A K : Type}.
Variable key : A -> K.
Variable ahead : K -> K -> bool.

Lemma insert_perm (x : A) (l : list A) :
  Permutation (x :: l) (PyList.insert key ahead x l).
Proof.
  induction l as [|y l IH]; simpl.
  - apply Permutation_refl.
  - destruct (ahead (key x) (key y)).
    + apply Permutation_refl.
    + eapply perm_trans; [apply perm_swap|].
      now apply perm_skip.
Qed.

Lemma sorted_by_perm (l : list A) :
  Permutation l (PyList.sorted_by key ahead l).
Proof.
  induction l as [|x l IH]; simpl.
  - constructor.
  - eapply perm_trans; [apply perm_skip, IH|]. apply insert_perm.
Qed.

Lemma sorted_by_Forall (P : A -> Prop) (l : list A) :
  Forall P l -> Forall P (PyList.sorted_by key ahead l).
Proof.
  intros H. eapply Permutation_Forall; [apply sorted_by_perm|exact H].
Qed.

(** Insertion never moves the new element behind an element it was
    allowed to stay ahead of, so a class of elements that [x] always stays
    ahead of or is kept out of keeps its order. *)
Lemma insert_filter (sel : A -> bool) (x : A) (l : list A) :
  (forall y, sel x = true -> sel y = true -> ahead (key x) (key y) = true) ->
  filter sel (PyList.insert key ahead x l) = filter sel (x :: l).
Proof.
  intros Hsel. induction l as [|y l IH]; [reflexivity|].
  simpl. destruct (ahead (key x) (key y)) eqn:E; [reflexivity|].
  simpl. rewrite IH. simpl.
  destruct (sel x) eqn:Ex; [|reflexivity].
  destruct (sel y) eqn:Ey; [|reflexivity].
  rewrite (Hsel y eq_refl Ey) in E. discriminate.
Qed.

Lemma sorted_by_filter (sel : A -> bool) (l : list A) :
  (forall x y, sel x = true -> sel y = true -> ahead (key x) (key y) = true) ->
  filter sel (PyList.sorted_by key ahead l) = filter sel l.
Proof.
  intros Hsel. induction l as [|x l IH]; [reflexivity|].
  simpl PyList.sorted_by. rewrite insert_filter by (intros; now apply Hsel).
  simpl. now rewrite IH.
Qed.
End SortedFacts.

Section SortedDesc.
Context {A : Type}.
Variable key : A -> Z.

Lemma insert_desc_sorted (x : A) (l : list A) :
  StronglySorted (fun a b => key b <= key a) l ->
  StronglySorted (fun a b => key b <= key a)
                 (PyList.insert key (fun k1 k2 => k2 <=? k1) x l).
Proof.
  induction 1 as [|y l Hs IH Hy]; simpl.
  - repeat constructor.
  - destruct (key y <=? key x) eqn:E.
    + apply Z.leb_le in E.
      constructor; [constructor; assumption|].
      constructor; [exact E|].
      eapply Forall_impl; [|exact Hy].
      cbv beta; intros; lia.
    + apply Z.leb_gt in E.
      constructor; [exact IH|].
      eapply Permutation_Forall; [apply insert_perm|].
      constructor; [lia|exact Hy].
Qed.

Lemma sorted_desc_sorted (l : list A) :
  StronglySorted (fun a b => key b <= key a) (PyList.sorted_desc key l).
Proof.
  induction l as [|x l IH]; simpl.
  - constructor.
  - now apply insert_desc_sorted.
Qed.

Lemma sorted_desc_stable (d : Z) (l : list A) :
  filter (fun a => key a =? d) (PyList.sorted_desc key l)
  = filter (fun a => key a =? d) l.
Proof.
  apply sorted_by_filter.
  intros x y Hx Hy. apply Z.eqb_eq in Hx, Hy. apply Z.leb_le. lia.
Qed.
End SortedDesc.

Section StableUnique.
Context {A : Type}.
Variable key : A -> Z.

Lemma filter_key_head (d : Z) (x : A) (l : list A) :
  key x = d ->
  filter (fun a => key a =? d) (x :: l)
  = x :: filter (fun a => key a =? d) l.
Proof. intros H. simpl. now rewrite (proj2 (Z.eqb_eq _ _) H). Qed.

Lemma in_filter_key (d : Z) (x : A) (l : list A) :
  In x (filter (fun a => key a =? d) l) -> In x l /\ key x = d.
Proof. intros H. apply filter_In in H. now rewrite Z.eqb_eq in H. Qed.

(** Two lists in descending key order with the same elements in the same
    order inside every key class are the same list: a stable descending
    sort has one possible output, whatever the algorithm. *)
Lemma stable_descending_unique (l1 : list A) :
  forall l2,
    StronglySorted (fun a b => key b <= key a) l1 ->
    StronglySorted (fun a b => key b <= key a) l2 ->
    (forall d, filter (fun a => key a =? d) l1
               = filter (fun a => key a =? d) l2) ->
    l1 = l2.
Proof.
  induction l1 as [|x l1 IH]; intros l2 H1 H2 Hcls.
  - destruct l2 as [|y l2]; [reflexivity|].
    specialize (Hcls (key y)). rewrite filter_key_head in Hcls by reflexivity.
    discriminate.
  - destruct l2 as [|y l2].
    { specialize (Hcls (key x)). rewrite filter_key_head in Hcls by reflexivity.
      discriminate. }
    inversion H1 as [|? ? Hs1 Hx]; subst.
    inversion H2 as [|? ? Hs2 Hy]; subst.
    rewrite Forall_forall in Hx, Hy.
    assert (Hxy : key x <= key y).
    { pose proof (Hcls (key x)) as E.
      rewrite filter_key_head in E by reflexivity.
      assert (Hin : In x (filter (fun a => key a =? key x) (y :: l2)))
        by (rewrite <- E; now left).
      apply in_filter_key in Hin. destruct Hin as [[->|Hin] _]; [lia|].
      now apply Hy. }
    assert (Hyx : key y <= key x).
    { pose proof (Hcls (key y)) as E.
      rewrite (filter_key_head (key y) y) in E by reflexivity.
      assert (Hin : In y (filter (fun a => key a =? key y) (x :: l1)))
        by (rewrite E; now left).
      apply in_filter_key in Hin. destruct Hin as [[->|Hin] _]; [lia|].
      now apply Hx. }
    assert (Hk : key x = key y) by lia.
    pose proof (Hcls (key x)) as E.
    rewrite filter_key_head in E by reflexivity.
    rewrite (filter_key_head (key x) y) in E by (symmetry; exact Hk).
    injection E as -> E. f_equal.
    apply IH; try assumption.
    intros d. destruct (Z.eq_dec (key y) d) as [Hd|Hd].
    + subst d. exact E.
    + specialize (Hcls d). simpl in Hcls.
      rewrite (proj2 (Z.eqb_neq _ _) Hd) in Hcls. exact Hcls.
Qed.
End StableUnique.

(** Sorting decorated elements is decorating the sorted elements. *)
Lemma sorted_by_decorated {A B K : Type} (g : A -> B) (key : B -> K)
    (ahead : K -> K -> bool) (l : list A) :
  PyList.sorted_by key ahead (map g l)
  = map g (PyList.sorted_by (fun a => key (g a)) ahead l).
Proof.
  unfold PyList.sorted_by.
  induction l as [|x l IH]; [reflexivity|].
  simpl. rewrite IH.
  generalize (fold_right (PyList.insert (fun a => key (g a)) ahead) [] l).
  intros acc. induction acc as [|y acc IHa]; [reflexivity|].
  simpl. destruct (ahead (key (g x)) (key (g y))); [reflexivity|].
  simpl. now rewrite IHa.
Qed.

(** Sorting the (subject, difficulty) pairs and dropping the difficulty is
    sorting the subjects by their difficulty. *)
Lemma order_subjects_unfold (subjects : list string) :
  _order_subjects_by_difficulty subjects
  = PyList.sorted_desc _get_subject_difficulty subjects.
Proof.
  unfold _order_subjects_by_difficulty, PyList.sorted_desc.
  rewrite sorted_by_decorated, map_map. simpl.
  apply map_id.
Qed.

(** C4. [_order_subjects_by_difficulty] is a stable descending sort by
    difficulty rating: the output is a rearrangement of the input, it is
    sorted by non-increasing difficulty, the subjects of any one difficulty
    appear in their input order, and [English; Math; History] becomes
    [Math; History; English]. *)
Theorem order_subjects_stable_descending :
  (forall subjects : list string,
     let ordered := _order_subjects_by_difficulty subjects in
     Permutation subjects ordered /\
     StronglySorted
       (fun a b => _get_subject_difficulty b <= _get_subject_difficulty a)
       ordered /\
     (forall d : Z,
        filter (fun s => _get_subject_difficulty s =? d) ordered
        = filter (fun s => _get_subject_difficulty s =? d) subjects)) /\
  map _get_subject_difficulty ["English"; "Math"; "History"] = [5; 9; 6] /\
  _order_subjects_by_difficulty ["English"; "Math"; "History"]
  = ["Math"; "History"; "English"].
Proof.
  split; [|split; reflexivity].
  intros subjects ordered. subst ordered.
  rewrite order_subjects_unfold. repeat split.
  - apply sorted_by_perm.
  - apply sorted_desc_sorted.
  - intros d. apply sorted_desc_stable.
Qed.

(* ------------------------------------------------------------------ *)
(** ** Clock strings *)

Lemma strftime_combine (date : Z) (h m : Z) :
  0 <= h <= 23 -> 0 <= m <= 59 ->
  strftime_HM (combine date (h, m))
  = (PyStr.fmt_02d h ++ ":" ++ PyStr.fmt_02d m)%string.
Proof.
  intros Hh Hm. unfold strftime_HM, combine, hour, minute; simpl.
  unfold us_per_hour, us_per_minute.
  replace ((h * 3600000000 + m * 60000000) / 3600000000) with h
    by (apply Z.div_unique with (r := m * 60000000); lia).
  replace ((h * 3600000000 + m * 60000000) / 60000000) with (h * 60 + m)
    by (apply Z.div_unique with (r := 0); lia).
  replace ((h * 60 + m) mod 60) with m
    by (apply Z.mod_unique with (q := h); lia).
  reflexivity.
Qed.

Lemma in_all_clock_values (h m : Z) :
  0 <= h <= 23 -> 0 <= m <= 59 -> In (h, m) all_clock_values.
Proof.
  intros Hh Hm. unfold all_clock_values. apply in_prod.
  - apply in_map_iff. exists (Z.to_nat h). split; [lia|].
    apply in_seq. lia.
  - apply in_map_iff. exists (Z.to_nat m). split; [lia|].
    apply in_seq. lia.
Qed.

Lemma strptime_fmt_all :
  forallb (fun hm =>
             match strptime_HM (PyStr.fmt_02d (fst hm) ++ ":"
                                ++ PyStr.fmt_02d (snd hm)) with
             | Some (h', m') => (h' =? fst hm) && (m' =? snd hm)
             | None => false
             end) all_clock_values = true.
Proof. vm_compute. reflexivity. Qed.

(** Parsing the two-digit rendering of a clock value gives it back. *)
Lemma strptime_fmt (h m : Z) :
  0 <= h <= 23 -> 0 <= m <= 59 ->
  strptime_HM (PyStr.fmt_02d h ++ ":" ++ PyStr.fmt_02d m) = Some (h, m).
Proof.
  intros Hh Hm.
  pose proof strptime_fmt_all as H. rewrite forallb_forall in H.
  specialize (H (h, m) (in_all_clock_values h m Hh Hm)). simpl in H.
  destruct (strptime_HM _) as [[h' m']|]; [|discriminate].
  apply andb_true_iff in H. destruct H as [H1 H2].
  apply Z.eqb_eq in H1, H2. now subst.
Qed.

Lemma digit_val_range (c : ascii) :
  PyStr.is_digit c = true -> 0 <= PyStr.digit_val c <= 9.
Proof.
  unfold PyStr.is_digit, PyStr.digit_val. intros H.
  apply andb_true_iff in H. destruct H as [H1 H2].
  apply N.leb_le in H1, H2. lia.
Qed.

(** What [strptime] accepts is a clock value. *)
Lemma strptime_HM_range (s : string) (h m : Z) :
  strptime_HM s = Some (h, m) -> 0 <= h <= 23 /\ 0 <= m <= 59.
Proof.
  unfold strptime_HM. intros H.
  destruct (match_H s) as [[h0 r0]|] eqn:EH; [|discriminate].
  destruct r0 as [|c0 r0]; [discriminate|].
  destruct (Ascii.eqb_spec c0 ":") as [->|Hne].
  2:{ exfalso. revert H. clear -Hne.
      destruct c0 as [[] [] [] [] [] [] [] []]; try discriminate.
      now contradiction Hne. }
  destruct (match_M r0) as [[m0 r1]|] eqn:EM; [|discriminate].
  destruct r1; [|discriminate].
  assert (h0 = h /\ m0 = m) as [-> ->] by (split; congruence). clear H.
  split.
  - clear EM. unfold match_H in EH.
    destruct s as [|a [|b r]]; try discriminate.
    destruct (Ascii.eqb a "2" && in_range 48 51 b && prefix ":" r) eqn:E1.
    + some_fst EH.
      apply andb_true_iff in E1. destruct E1 as [E1 _].
      apply andb_true_iff in E1. destruct E1 as [_ E1].
      unfold in_range in E1. apply andb_true_iff in E1.
      destruct E1 as [Ea Eb]. apply N.leb_le in Ea, Eb.
      unfold PyStr.digit_val. lia.
    + destruct (in_range 48 49 a && PyStr.is_digit b && prefix ":" r) eqn:E2.
      * some_fst EH.
        apply andb_true_iff in E2. destruct E2 as [E2 _].
        apply andb_true_iff in E2. destruct E2 as [Ea Eb].
        apply digit_val_range in Eb.
        unfold in_range in Ea. apply andb_true_iff in Ea.
        destruct Ea as [Ea1 Ea2]. apply N.leb_le in Ea1, Ea2.
        unfold PyStr.digit_val in *. lia.
      * destruct (PyStr.is_digit a && Ascii.eqb b ":") eqn:E3; [|discriminate].
        some_fst EH.
        apply andb_true_iff in E3. destruct E3 as [Ea _].
        apply digit_val_range in Ea. lia.
  - clear EH. unfold match_M in EM.
    destruct r0 as [|a [|b r]]; try discriminate.
    + destruct (PyStr.is_digit a) eqn:Ea; [|discriminate].
      some_fst EM. apply digit_val_range in Ea. lia.
    + destruct (in_range 48 53 a && PyStr.is_digit b) eqn:E1.
      * some_fst EM.
        apply andb_true_iff in E1. destruct E1 as [Ea Eb].
        apply digit_val_range in Eb.
        unfold in_range in Ea. apply andb_true_iff in Ea.
        destruct Ea as [Ea1 Ea2]. apply N.leb_le in Ea1, Ea2.
        unfold PyStr.digit_val in *. lia.
      * destruct (PyStr.is_digit a) eqn:Ea; [|discriminate].
        some_fst EM. apply digit_val_range in Ea. lia.
Qed.

(* ------------------------------------------------------------------ *)
(** ** The block loop *)

Lemma chain_snoc (s e : string) (bs : list block) (b : block) :
  chain s bs e -> start_time_of b = e ->
  chain s (bs ++ [b]) (end_time_of b).
Proof.
  induction 1 as [s|b0 bs e Hc IH]; intros Hb; simpl.
  - rewrite <- Hb. constructor. constructor.
  - constructor. now apply IH.
Qed.

Lemma chain_contiguous (s e : string) (bs : list block) :
  chain s bs e -> contiguous bs.
Proof.
  induction 1 as [s|b bs e Hc IH]; intros i b1 b2 H1 H2.
  - destruct i; discriminate.
  - destruct i as [|i]; simpl in H1, H2.
    + injection H1 as <-. destruct bs as [|b' bs']; [discriminate|].
      injection H2 as <-. now inversion Hc.
    + eapply IH; eassumption.
Qed.

Lemma chain_first (s e : string) (b : block) (bs : list block) :
  chain s (b :: bs) e -> start_time_of b = s.
Proof. now inversion 1. Qed.

Lemma sum_durations_app (p : block -> bool) (l1 l2 : list block) :
  sum_durations p (l1 ++ l2) = sum_durations p l1 + sum_durations p l2.
Proof.
  unfold sum_durations. rewrite filter_app, map_app.
  induction (map duration_of (filter p l1)) as [|x l IH]; simpl; lia.
Qed.

(** What one iteration does to the loop variables: it appends a study
    block that starts at the current time, and, at every index but the
    last, a break block that starts where the study block ends. *)
Lemma loop_body_cases (sd bd n i : Z) (subject : string) (st st' : loop_state) :
  loop_body sd bd n i subject st = Some st' ->
  exists sb : study_block,
    sb_subject sb = subject /\
    sb_start_time sb = strftime_HM (st_current st) /\
    st_study st' = st_study st + sb_duration sb /\
    ((i <? n - 1) = false /\
     st_blocks st' = st_blocks st ++ [Study sb] /\
     strftime_HM (st_current st') = sb_end_time sb /\
     st_break st' = st_break st
     \/
     (i <? n - 1) = true /\
     exists bb : break_block,
       st_blocks st' = st_blocks st ++ [Study sb; Break bb] /\
       bb_start_time bb = sb_end_time sb /\
       strftime_HM (st_current st') = bb_end_time bb /\
       st_break st' = st_break st + bb_duration bb).
Proof.
  unfold loop_body. intros H.
  destruct (_adjust_duration_for_time_and_subject _ _ _) as [d|]; [|discriminate].
  destruct (timedelta_minutes d) as [td|]; [|discriminate].
  destruct (add (st_current st) td) as [end_dt|]; [|discriminate].
  eexists (mk_study subject _ _ d _ _).
  split; [reflexivity|]. split; [reflexivity|].
  destruct (i <? n - 1).
  - destruct (timedelta_minutes _) as [tb|]; [|discriminate].
    destruct (add end_dt tb) as [break_end|]; [|discriminate].
    injection H as <-. simpl. split; [reflexivity|]. right.
    split; [reflexivity|]. eexists (mk_break _ _ _ _).
    rewrite <- app_assoc. simpl. repeat split; reflexivity.
  - injection H as <-. simpl. split; [reflexivity|]. left.
    repeat split; reflexivity.
Qed.

(** A property that every iteration keeps holds after the loop. *)
Lemma loop_invariant (sd bd n : Z) (P : loop_state -> Prop) :
  (forall i subject st st',
      P st -> loop_body sd bd n i subject st = Some st' -> P st') ->
  forall subjects i st st',
    P st -> loop sd bd n i subjects st = Some st' -> P st'.
Proof.
  intros Hstep subjects.
  induction subjects as [|subject rest IH]; intros i st st' HP H; simpl in H.
  - now injection H as <-.
  - destruct (loop_body sd bd n i subject st) as [st1|] eqn:E; [|discriminate].
    eapply IH; [|exact H]. eapply Hstep; eassumption.
Qed.

Lemma loop_chain (sd bd n : Z) (s0 : string) subjects i st st' :
  chain s0 (st_blocks st) (strftime_HM (st_current st)) ->
  loop sd bd n i subjects st = Some st' ->
  chain s0 (st_blocks st') (strftime_HM (st_current st')).
Proof.
  apply (loop_invariant sd bd n
           (fun st => chain s0 (st_blocks st) (strftime_HM (st_current st)))).
  clear. intros i subject st st' Hc H.
  apply loop_body_cases in H.
  destruct H as (sb & _ & Hstart & _ & [(_ & -> & -> & _)|(_ & bb & -> & Hb & -> & _)]).
  - exact (chain_snoc _ _ _ (Study sb) Hc Hstart).
  - change (st_blocks st ++ [Study sb; Break bb])
      with (st_blocks st ++ [Study sb] ++ [Break bb]).
    rewrite app_assoc.
    exact (chain_snoc _ _ _ (Break bb)
             (chain_snoc _ _ _ (Study sb) Hc Hstart) Hb).
Qed.

Lemma loop_totals (sd bd n : Z) subjects i st st' :
  st_study st = sum_durations is_study (st_blocks st) /\
  st_break st = sum_durations is_break (st_blocks st) ->
  loop sd bd n i subjects st = Some st' ->
  st_study st' = sum_durations is_study (st_blocks st') /\
  st_break st' = sum_durations is_break (st_blocks st').
Proof.
  apply (loop_invariant sd bd n
           (fun st => st_study st = sum_durations is_study (st_blocks st) /\
                      st_break st = sum_durations is_break (st_blocks st))).
  clear. intros i subject st st' [Hs Hb] H.
  apply loop_body_cases in H.
  destruct H as (sb & _ & _ & Hst & [(_ & -> & _ & Hbr)|(_ & bb & -> & _ & _ & Hbr)]);
    rewrite !sum_durations_app, Hst, Hbr, Hs, Hb;
    unfold sum_durations; simpl; lia.
Qed.

(** The loop emits one study block per subject, in the order given. *)
Lemma loop_study_subjects (sd bd n : Z) subjects :
  forall i st st',
    loop sd bd n i subjects st = Some st' ->
    map subject_of (filter is_study (st_blocks st'))
    = map subject_of (filter is_study (st_blocks st)) ++ subjects.
Proof.
  induction subjects as [|subject rest IH]; intros i st st' H; simpl in H.
  - injection H as <-. now rewrite app_nil_r.
  - destruct (loop_body sd bd n i subject st) as [st1|] eqn:E; [|discriminate].
    apply IH in H. rewrite H. clear H.
    apply loop_body_cases in E.
    destruct E as (sb & Hsub & _ & _ & [(_ & -> & _)|(_ & bb & -> & _)]);
      rewrite filter_app, map_app, <- app_assoc; simpl; now rewrite Hsub.
Qed.

(** What a successful call returns, in terms of the loop. *)
Lemma generate_unfold (today : Z) (prefs : preferences)
    (events : option (list event)) (sched : schedule) :
  _generate_optimized_blocks today prefs events = Some sched ->
  exists t st,
    strptime_HM (PyList.get_or (p_start_time prefs) "09:00") = Some t /\
    loop (PyList.get_or (p_study_duration prefs) 90)
         (PyList.get_or (p_break_duration prefs) 15)
         (Z.of_nat (List.length
            (_order_subjects_by_difficulty
               (PyList.get_or (p_subjects prefs) default_subjects))))
         0
         (_order_subjects_by_difficulty
            (PyList.get_or (p_subjects prefs) default_subjects))
         (mk_state [] 0 0 (combine today t)) = Some st /\
    sched = mk_schedule (st_blocks st) (st_study st) (st_break st).
Proof.
  unfold _generate_optimized_blocks. intros H.
  destruct (strptime_HM _) as [t|]; [|discriminate].
  destruct (loop _ _ _ _ _ _) as [st|] eqn:E; [|discriminate].
  injection H as <-. now exists t, st.
Qed.

(** *** The blocks on the time line *)

Lemma strftime_clock (d : datetime) :
  normalized d -> strftime_HM d = clock (wall d).
Proof.
  unfold normalized, clock, wall. intros H.
  replace (((dt_date d - 1) * us_per_day + dt_us d) mod us_per_day)
    with (dt_us d)
    by (apply Z.mod_unique with (q := dt_date d - 1); [left; exact H|ring]).
  reflexivity.
Qed.

Lemma add_wall (d d' : datetime) (td : Z) :
  add d td = Some d' -> wall d' = wall d + td /\ normalized d'.
Proof.
  unfold add, wall, normalized. intros H.
  destruct (_ && _); [|discriminate]. injection H as <-. simpl.
  pose proof (Z.div_mod (dt_us d + td) us_per_day ltac:(discriminate)).
  pose proof (Z.mod_pos_bound (dt_us d + td) us_per_day ltac:(reflexivity)).
  split; [|assumption].
  set (q := (dt_us d + td) / us_per_day) in *.
  set (r := (dt_us d + td) mod us_per_day) in *.
  unfold us_per_day in *. lia.
Qed.

Lemma timedelta_minutes_value (n td : Z) :
  timedelta_minutes n = Some td -> td = n * us_per_minute.
Proof.
  unfold timedelta_minutes. destruct (timedelta_ok _); [|discriminate].
  now injection 1 as <-.
Qed.

Lemma laid_out_snoc (w w' : Z) (bs : list block) (b : block) :
  laid_out w bs w' ->
  start_time_of b = clock w' ->
  end_time_of b = clock (w' + duration_of b * us_per_minute) ->
  laid_out w (bs ++ [b]) (w' + duration_of b * us_per_minute).
Proof.
  induction 1 as [w|w b0 bs w' Hs He Hl IH]; intros Hbs Hbe; simpl.
  - constructor; [assumption|assumption|constructor].
  - constructor; [assumption|assumption|]. now apply IH.
Qed.

(** One iteration keeps the blocks back to back on the time line. *)
Lemma loop_body_laid_out (sd bd n i w0 : Z) (subject : string)
    (st st' : loop_state) :
  normalized (st_current st) /\
  laid_out w0 (st_blocks st) (wall (st_current st)) ->
  loop_body sd bd n i subject st = Some st' ->
  normalized (st_current st') /\
  laid_out w0 (st_blocks st') (wall (st_current st')).
Proof.
  intros [Hn Hl]. unfold loop_body.
  destruct (_adjust_duration_for_time_and_subject _ _ _) as [d|]; [|discriminate].
  destruct (timedelta_minutes d) as [td|] eqn:Etd; [|discriminate].
  apply timedelta_minutes_value in Etd. subst td.
  destruct (add (st_current st) _) as [end_dt|] eqn:Eadd; [|discriminate].
  apply add_wall in Eadd. destruct Eadd as [Hw Hne].
  assert (Hstudy :
    forall opt diff,
      laid_out w0
        (st_blocks st ++
         [Study (mk_study subject (strftime_HM (st_current st))
                   (strftime_HM end_dt) d diff opt)])
        (wall end_dt)).
  { intros opt diff. rewrite Hw.
    apply (laid_out_snoc w0 (wall (st_current st)) (st_blocks st)
             (Study (mk_study subject (strftime_HM (st_current st))
                       (strftime_HM end_dt) d diff opt)) Hl); simpl.
    - now apply strftime_clock.
    - rewrite <- Hw. now apply strftime_clock. }
  destruct (i <? n - 1).
  - destruct (timedelta_minutes _) as [tb|] eqn:Etb; [|discriminate].
    apply timedelta_minutes_value in Etb. subst tb.
    destruct (add end_dt _) as [break_end|] eqn:Eadd; [|discriminate].
    apply add_wall in Eadd. destruct Eadd as [Hw' Hne'].
    injection 1 as <-. simpl. split; [exact Hne'|]. rewrite Hw'.
    apply (laid_out_snoc w0 (wall end_dt) _
             (Break (mk_break (strftime_HM end_dt) (strftime_HM break_end)
                       (_adjust_break_duration bd d)
                       (_suggest_break_activity (_adjust_break_duration bd d))))
             (Hstudy _ _)); simpl.
    + now apply strftime_clock.
    + rewrite <- Hw'. now apply strftime_clock.
  - injection 1 as <-. simpl. split; [exact Hne|]. apply Hstudy.
Qed.

Lemma combine_normalized (date h m : Z) :
  0 <= h <= 23 -> 0 <= m <= 59 -> normalized (combine date (h, m)).
Proof.
  unfold normalized, combine; simpl.
  unfold us_per_hour, us_per_minute, us_per_day. lia.
Qed.

(** Blocks of non-negative duration come one after the other. *)
Lemma laid_out_forward (w w' : Z) (bs : list block) :
  laid_out w bs w' ->
  Forall (fun b => 0 <= duration_of b) bs ->
  w <= w'.
Proof.
  induction 1 as [w|w b bs w' _ _ _ IH]; intros Hd; [lia|].
  inversion Hd as [|? ? Hb Hbs]; subst.
  specialize (IH Hbs). unfold us_per_minute in *. lia.
Qed.

(** *** Signs of the computed durations *)

Lemma binary_round_aux_plus (mx ex : Z) (lx : location) :
  sign_plus (binary_round_aux PyFloat.prec PyFloat.emax false mx ex lx).
Proof.
  unfold binary_round_aux.
  destruct (shr_fexp _ _ _ _ _) as [mrs' e'].
  destruct (shr_fexp _ _ _ _ _) as [mrs'' e''].
  destruct (shr_m mrs''); simpl; trivial.
  destruct (_ <=? _); reflexivity.
Qed.

Lemma of_int_plus (n : Z) (f : spec_float) :
  0 <= n -> PyFloat.of_int n = Some f -> plus_finite f.
Proof.
  unfold PyFloat.of_int, binary_normalize. intros Hn.
  destruct n as [|p|p]; [| |lia].
  - injection 1 as <-. reflexivity.
  - unfold binary_round.
    destruct (shl_align _ _ _) as [mz ez].
    pose proof (binary_round_aux_plus (Z.pos mz) ez loc_Exact) as H.
    destruct (binary_round_aux _ _ _ _ _ _); try discriminate;
      injection 1 as <-; exact H.
Qed.

Lemma mul_plus (x y : spec_float) :
  plus_finite x -> plus_finite y -> sign_plus (PyFloat.mul x y).
Proof.
  unfold PyFloat.mul, SFmul.
  destruct x as [sx|sx| |sx mx ex], y as [sy|sy| |sy my ey]; simpl;
    intros Hx Hy; subst; try reflexivity; try contradiction.
  apply binary_round_aux_plus.
Qed.

Lemma to_int_plus (f : spec_float) (d : Z) :
  sign_plus f -> PyFloat.to_int f = Some d -> 0 <= d.
Proof.
  destruct f as [s|s| |s m e]; simpl; try discriminate.
  - intros _. injection 1 as <-. lia.
  - intros ->. injection 1 as <-.
    destruct e as [|p|p].
    + simpl. lia.
    + apply Z.shiftl_nonneg. lia.
    + apply Z.shiftr_nonneg. lia.
Qed.

(** A non-negative base duration is adjusted to a non-negative one. *)
Lemma adjust_duration_nonneg (time : datetime) (subject : string) (base d : Z) :
  0 <= base ->
  _adjust_duration_for_time_and_subject time subject base = Some d ->
  0 <= d.
Proof.
  intros Hb. unfold _adjust_duration_for_time_and_subject, PyFloat.int_mul.
  destruct (PyFloat.of_int base) as [f|] eqn:Ef; [|discriminate].
  apply of_int_plus in Ef; [|exact Hb].
  intros H. apply to_int_plus in H; [exact H|].
  apply mul_plus; [exact Ef|].
  unfold duration_multiplier.
  repeat match goal with
         | |- context [if ?b then _ else _] => destruct b
         end; reflexivity.
Qed.

Lemma adjust_break_nonneg (base_break study_duration : Z) :
  0 <= base_break -> 0 <= _adjust_break_duration base_break study_duration.
Proof.
  unfold _adjust_break_duration. intros H.
  destruct (90 <=? study_duration); lia.
Qed.

(** With non-negative base durations every block has a non-negative
    duration. *)
Lemma loop_durations_nonneg (sd bd n : Z) subjects i st st' :
  0 <= sd -> 0 <= bd ->
  Forall (fun b => 0 <= duration_of b) (st_blocks st) ->
  loop sd bd n i subjects st = Some st' ->
  Forall (fun b => 0 <= duration_of b) (st_blocks st').
Proof.
  intros Hsd Hbd. revert subjects i st st'.
  apply (loop_invariant sd bd n
           (fun st => Forall (fun b => 0 <= duration_of b) (st_blocks st))).
  intros i subject st st' HF. unfold loop_body.
  destruct (_adjust_duration_for_time_and_subject _ _ _) as [d|] eqn:Ed;
    [|discriminate].
  apply adjust_duration_nonneg in Ed; [|exact Hsd].
  destruct (timedelta_minutes d) as [td|]; [|discriminate].
  destruct (add (st_current st) td) as [end_dt|]; [|discriminate].
  destruct (i <? n - 1).
  - destruct (timedelta_minutes _) as [tb|]; [|discriminate].
    destruct (add end_dt tb) as [break_end|]; [|discriminate].
    injection 1 as <-. simpl.
    repeat (apply Forall_app; split); try assumption;
      repeat constructor; simpl; [exact Ed|now apply adjust_break_nonneg].
  - injection 1 as <-. simpl.
    apply Forall_app; split; [assumption|]. repeat constructor. exact Ed.
Qed.

Lemma loop_laid_out (sd bd n w0 : Z) subjects i st st' :
  normalized (st_current st) /\
  laid_out w0 (st_blocks st) (wall (st_current st)) ->
  loop sd bd n i subjects st = Some st' ->
  normalized (st_current st') /\
  laid_out w0 (st_blocks st') (wall (st_current st')).
Proof.
  apply (loop_invariant sd bd n
           (fun st => normalized (st_current st) /\
                      laid_out w0 (st_blocks st) (wall (st_current st)))).
  intros. eapply loop_body_laid_out; eassumption.
Qed.

(** C1. In every schedule [_generate_optimized_blocks] returns, each block
    starts at the clock string at which the block before it ends, and the
    first block starts at the requested start time: its [start_time] is
    the [%H:%M] rendering of the parsed request, parses back to the same
    clock value, and is the requested string itself when that string is in
    the two-digit form [HH:MM].  The blocks lie back to back on the time
    line from the requested start, each for its [duration]; with
    non-negative base durations every block has a non-negative duration,
    so no two blocks overlap. *)
Theorem schedule_blocks_contiguous
    (today : Z) (prefs : preferences) (events : option (list event))
    (sched : schedule) :
  _generate_optimized_blocks today prefs events = Some sched ->
  let requested := PyList.get_or (p_start_time prefs) "09:00" in
  exists t w_end,
    strptime_HM requested = Some t /\
    contiguous (study_blocks sched) /\
    (forall first : block,
       nth_error (study_blocks sched) 0 = Some first ->
       start_time_of first = strftime_HM (combine today t) /\
       strptime_HM (start_time_of first) = Some t /\
       (is_HH_MM requested -> start_time_of first = requested)) /\
    laid_out (wall (combine today t)) (study_blocks sched) w_end /\
    (0 <= PyList.get_or (p_study_duration prefs) 90 ->
     0 <= PyList.get_or (p_break_duration prefs) 15 ->
     Forall (fun b => 0 <= duration_of b) (study_blocks sched) /\
     wall (combine today t) <= w_end).
Proof.
  intros H requested. subst requested. apply generate_unfold in H.
  destruct H as (t & st & Ht & Hloop & ->). simpl.
  exists t, (wall (st_current st)). split; [exact Ht|].
  destruct t as [h m]. destruct (strptime_HM_range _ _ _ Ht) as [Hh Hm].
  assert (Hlaid : laid_out (wall (combine today (h, m))) (st_blocks st)
                    (wall (st_current st))).
  { eapply loop_laid_out; [|exact Hloop]. simpl. split.
    - now apply combine_normalized.
    - constructor. }
  assert (Hchain : chain (strftime_HM (combine today (h, m))) (st_blocks st)
                      (strftime_HM (st_current st))).
  { eapply loop_chain; [|exact Hloop]. constructor. }
  split; [eapply chain_contiguous; exact Hchain|].
  split; [|split; [exact Hlaid|]].
  - intros first Hfirst.
    destruct (st_blocks st) as [|b bs]; [discriminate|].
    injection Hfirst as ->.
    apply chain_first in Hchain.
    rewrite Hchain, strftime_combine by assumption.
    repeat split.
    + now apply strptime_fmt.
    + intros (h' & m' & Hh' & Hm' & E).
      rewrite E in Ht. rewrite strptime_fmt in Ht by assumption.
      injection Ht as <- <-. now rewrite E.
  - intros Hsd Hbd.
    assert (HF : Forall (fun b => 0 <= duration_of b) (st_blocks st)).
    { eapply loop_durations_nonneg; [exact Hsd|exact Hbd| |exact Hloop].
      constructor. }
    split; [exact HF|]. eapply laid_out_forward; eassumption.
Qed.

(** C10. In every schedule [_generate_optimized_blocks] returns,
    [total_study_time] is the sum of the [duration] entries of the study
    blocks and [total_break_time] is the sum of the [duration] entries of
    the break blocks. *)
Theorem schedule_totals_consistent
    (today : Z) (prefs : preferences) (events : option (list event))
    (sched : schedule) :
  _generate_optimized_blocks today prefs events = Some sched ->
  total_study_time sched = sum_durations is_study (study_blocks sched) /\
  total_break_time sched = sum_durations is_break (study_blocks sched).
Proof.
  intros H. apply generate_unfold in H.
  destruct H as (t & st & _ & Hloop & ->). simpl.
  eapply loop_totals; [|exact Hloop]. split; reflexivity.
Qed.

(* ------------------------------------------------------------------ *)
(** ** Running the loop inside one day *)

Lemma add_same_day (d : datetime) (td : Z) :
  valid_date (dt_date d) ->
  0 <= dt_us d + td < us_per_day ->
  add d td = Some (shift d td).
Proof.
  unfold valid_date, add, shift. intros Hd Hus.
  rewrite Z.div_small, Z.mod_small, Z.add_0_r by exact Hus.
  destruct Hd as [H1 H2].
  apply Z.leb_le in H1, H2. now rewrite H1, H2.
Qed.

Lemma timedelta_minutes_same_day (d : datetime) (n : Z) :
  within_day d -> within_day (shift d (n * us_per_minute)) ->
  timedelta_minutes n = Some (n * us_per_minute).
Proof.
  unfold within_day, shift, timedelta_minutes, timedelta_ok; simpl.
  intros [_ H1] [_ H2].
  assert (-1 <= n * us_per_minute / us_per_day <= 0) as [Ha Hb].
  { unfold us_per_day in *. split.
    - apply Z.div_le_lower_bound; lia.
    - apply Z.lt_succ_r. apply Z.div_lt_upper_bound; lia. }
  replace (-999999999 <=? n * us_per_minute / us_per_day) with true
    by (symmetry; apply Z.leb_le; lia).
  replace (n * us_per_minute / us_per_day <=? 999999999) with true
    by (symmetry; apply Z.leb_le; lia).
  reflexivity.
Qed.

Lemma add_minutes_same_day (d : datetime) (n : Z) :
  within_day d -> within_day (shift d (n * us_per_minute)) ->
  add d (n * us_per_minute) = Some (shift d (n * us_per_minute)).
Proof.
  intros [Hd _] [_ H2]. now apply add_same_day.
Qed.

(** The iteration for the last subject, when the study block ends on the
    day it starts. *)
Lemma loop_body_last (sd bd n i : Z) (subject : string) (st : loop_state) (d : Z) :
  (i <? n - 1) = false ->
  _adjust_duration_for_time_and_subject (st_current st) subject sd = Some d ->
  within_day (st_current st) ->
  within_day (shift (st_current st) (d * us_per_minute)) ->
  loop_body sd bd n i subject st
  = Some (mk_state
            (st_blocks st ++
             [Study (mk_study subject
                       (strftime_HM (st_current st))
                       (strftime_HM (shift (st_current st) (d * us_per_minute)))
                       d (_get_subject_difficulty subject)
                       (_is_optimal_time_for_subject (st_current st) subject))])
            (st_study st + d) (st_break st)
            (shift (st_current st) (d * us_per_minute))).
Proof.
  intros Hi Hadj H1 H2. unfold loop_body.
  rewrite Hadj, (timedelta_minutes_same_day _ _ H1 H2),
    (add_minutes_same_day _ _ H1 H2), Hi.
  reflexivity.
Qed.

(** An iteration that is followed by a break, when both blocks end on the
    day the study block starts. *)
Lemma loop_body_break (sd bd n i : Z) (subject : string) (st : loop_state) (d : Z) :
  (i <? n - 1) = true ->
  _adjust_duration_for_time_and_subject (st_current st) subject sd = Some d ->
  within_day (st_current st) ->
  within_day (shift (st_current st) (d * us_per_minute)) ->
  within_day (shift (shift (st_current st) (d * us_per_minute))
                    (_adjust_break_duration bd d * us_per_minute)) ->
  loop_body sd bd n i subject st
  = Some (mk_state
            (st_blocks st ++
             [Study (mk_study subject
                       (strftime_HM (st_current st))
                       (strftime_HM (shift (st_current st) (d * us_per_minute)))
                       d (_get_subject_difficulty subject)
                       (_is_optimal_time_for_subject (st_current st) subject));
              Break (mk_break
                       (strftime_HM (shift (st_current st) (d * us_per_minute)))
                       (strftime_HM
                          (shift (shift (st_current st) (d * us_per_minute))
                                 (_adjust_break_duration bd d * us_per_minute)))
                       (_adjust_break_duration bd d)
                       (_suggest_break_activity (_adjust_break_duration bd d)))])
            (st_study st + d)
            (st_break st + _adjust_break_duration bd d)
            (shift (shift (st_current st) (d * us_per_minute))
                   (_adjust_break_duration bd d * us_per_minute))).
Proof.
  intros Hi Hadj H1 H2 H3. unfold loop_body.
  rewrite Hadj, (timedelta_minutes_same_day _ _ H1 H2),
    (add_minutes_same_day _ _ H1 H2), Hi,
    (timedelta_minutes_same_day _ _ H2 H3),
    (add_minutes_same_day _ _ H2 H3), <- app_assoc.
  reflexivity.
Qed.

(** C2. On the request [{study_duration: 90, break_duration: 15,
    subjects: [Math, English], start_time: 09:00}] the scheduler returns
    exactly a Math study block 09:00-10:30 of duration 90, a break
    10:30-10:50 of duration 20 and an English study block 10:50-12:20 of
    duration 90; the multiplier is 1.0 at hours 9 and 10, and the break
    after a 90-minute block is [min(15 + 5, 20) = 20]. *)
Theorem end_to_end_math_english (today : Z) (events : option (list event)) :
  valid_date today ->
  _generate_optimized_blocks today example_request events
  = Some example_schedule /\
  duration_multiplier 9 = PyFloat.lit_1_0 /\
  duration_multiplier 10 = PyFloat.lit_1_0 /\
  _adjust_duration_for_time_and_subject (combine today (9, 0)) "Math" 90
  = Some 90 /\
  _adjust_break_duration 15 90 = Z.min (15 + 5) 20 /\
  Z.min (15 + 5) 20 = 20.
Proof.
  intros Hd. split; [|repeat split].
  unfold _generate_optimized_blocks, example_request.
  cbn [PyList.get_or p_study_duration p_break_duration p_subjects p_start_time].
  change (strptime_HM "09:00") with (Some (9, 0)). cbn beta iota.
  change (_order_subjects_by_difficulty ["Math"; "English"])
    with ["Math"; "English"].
  cbn [loop].
  rewrite (loop_body_break _ _ _ _ _ _ 90) by same_day Hd.
  rewrite (loop_body_last _ _ _ _ _ _ 90) by same_day Hd.
  vm_compute. reflexivity.
Qed.

Lemma end_to_end_math_english_witness :
  valid_date 739507 /\
  _generate_optimized_blocks 739507 example_request None
  = Some example_schedule.
Proof.
  split; [vm_compute; split; discriminate|].
  apply (end_to_end_math_english 739507 None).
  vm_compute; split; discriminate.
Defined.

Lemma schedule_blocks_contiguous_witness :
  _generate_optimized_blocks 739507 example_request None
  = Some example_schedule /\
  is_HH_MM "09:00" /\
  0 <= 90 /\ 0 <= 15 /\
  contiguous (study_blocks example_schedule) /\
  Forall (fun b => 0 <= duration_of b) (study_blocks example_schedule).
Proof.
  assert (H : _generate_optimized_blocks 739507 example_request None
              = Some example_schedule) by (vm_compute; reflexivity).
  assert (Hf : is_HH_MM "09:00").
  { exists 9, 0. repeat split; try lia; reflexivity. }
  destruct (schedule_blocks_contiguous 739507 example_request None
              example_schedule H) as (t & w_end & _ & Hc & _ & _ & Hd).
  destruct (Hd ltac:(simpl; lia) ltac:(simpl; lia)) as [Hd' _].
  repeat split; try lia; assumption.
Defined.

Lemma schedule_totals_consistent_witness :
  _generate_optimized_blocks 739507 example_request None
  = Some example_schedule /\
  total_study_time example_schedule = 90 + (90 + 0) /\
  total_break_time example_schedule = 20 + 0.
Proof.
  assert (H : _generate_optimized_blocks 739507 example_request None
              = Some example_schedule) by (vm_compute; reflexivity).
  split; [exact H|].
  exact (schedule_totals_consistent 739507 example_request None
           example_schedule H).
Defined.

(** C3. At the clock hours 11, 15 and 17 both band tests hold and the first
    one decides: the multiplier is 1.0 and not 0.9, so a 100-minute base
    for a subject without the afternoon penalty stays 100 minutes. *)
Theorem boundary_hours_first_band :
  Forall (fun h =>
            duration_multiplier h = PyFloat.lit_1_0 /\
            ((11 <=? h) && (h <=? 15)) || ((17 <=? h) && (h <=? 20)) = true /\
            forall today,
              _adjust_duration_for_time_and_subject
                (combine today (h, 0)) "English" 100 = Some 100)
         [11; 15; 17] /\
  PyFloat.lit_1_0 <> PyFloat.lit_0_9 /\
  PyFloat.to_int PyFloat.lit_1_0 = Some 1.
Proof.
  split; [|split; [discriminate|reflexivity]].
  repeat constructor.
Qed.

(** C5, as stated, fails: on a request whose subject list is empty the
    scheduler raises nothing and returns a schedule (without blocks), and
    [parse_study_subjects] replaces an empty input by four default
    subjects. *)
Lemma empty_subjects_not_rejected :
  p_subjects empty_request = Some [] /\
  _generate_optimized_blocks 739507 empty_request None <> None /\
  Utils.parse_study_subjects "" = ["Math"; "Physics"; "Chemistry"; "English"].
Proof.
  split; [reflexivity|]. split; [|reflexivity].
  vm_compute. discriminate.
Qed.

(** C5, amended. A request whose subject list is empty is not rejected:
    when its start time parses, the scheduler returns the schedule without
    blocks and with both totals zero (only a start time that does not parse
    makes the call fail); and [parse_study_subjects] turns the empty input
    into the default subjects Math, Physics, Chemistry, English. *)
Theorem empty_subjects_give_empty_schedule
    (today : Z) (prefs : preferences) (events : option (list event)) :
  p_subjects prefs = Some [] ->
  _generate_optimized_blocks today prefs events
  = match strptime_HM (PyList.get_or (p_start_time prefs) "09:00") with
    | Some _ => Some (mk_schedule [] 0 0)
    | None => None
    end /\
  Utils.parse_study_subjects "" = default_subjects.
Proof.
  intros H. split; [|reflexivity].
  unfold _generate_optimized_blocks. rewrite H.
  destruct (strptime_HM _); reflexivity.
Qed.

Lemma empty_subjects_give_empty_schedule_witness :
  p_subjects empty_request = Some [] /\
  _generate_optimized_blocks 739507 empty_request None
  = Some (mk_schedule [] 0 0).
Proof.
  split; [reflexivity|].
  exact (proj1 (empty_subjects_give_empty_schedule 739507 empty_request None
                  eq_refl)).
Defined.

(** C6. Two requests that differ in [end_time] only get the same answer
    from [_generate_optimized_blocks]; every subject gets its study block,
    whatever the end time; and the four default subjects started at 15:00
    with [end_time] 17:00 are laid out until 21:09. *)
Theorem end_time_not_consulted :
  (forall today sd bd subjects start e1 e2 events,
     _generate_optimized_blocks today
       (mk_preferences sd bd subjects start e1) events
     = _generate_optimized_blocks today
         (mk_preferences sd bd subjects start e2) events) /\
  (forall today prefs events sched,
     _generate_optimized_blocks today prefs events = Some sched ->
     map subject_of (filter is_study (study_blocks sched))
     = _order_subjects_by_difficulty
         (PyList.get_or (p_subjects prefs) default_subjects)) /\
  (exists sched last,
     _generate_optimized_blocks 739507 (late_request (Some "17:00")) None
     = Some sched /\
     nth_error (study_blocks sched) 6 = Some last /\
     List.length (study_blocks sched) = 7%nat /\
     end_time_of last = "21:09").
Proof.
  split; [reflexivity|]. split.
  - intros today prefs events sched H.
    apply generate_unfold in H. destruct H as (t & st & _ & Hloop & ->).
    apply loop_study_subjects in Hloop. exact Hloop.
  - eexists. eexists. split; [vm_compute; reflexivity|].
    split; [reflexivity|]. split; reflexivity.
Qed.

Lemma end_time_not_consulted_witness :
  _generate_optimized_blocks 739507 example_request None
  = Some example_schedule /\
  map subject_of (filter is_study (study_blocks example_schedule))
  = ["Math"; "English"].
Proof.
  assert (H : _generate_optimized_blocks 739507 example_request None
              = Some example_schedule) by (vm_compute; reflexivity).
  split; [exact H|].
  exact (proj1 (proj2 end_time_not_consulted) 739507 example_request None
           example_schedule H).
Defined.

(* ------------------------------------------------------------------ *)
(** ** The e-mail scan *)


Lemma mem_In (k : string) (l : list string) : mem k l = true <-> In k l.
Proof.
  unfold mem. rewrite existsb_exists. split.
  - intros (x & Hx & E). apply String.eqb_eq in E. now subst.
  - intros H. exists k. split; [exact H|apply String.eqb_refl].
Qed.

(** [first_keyword] finds a keyword exactly when one occurs, and the one it
    finds is the earliest of the list that occurs. *)
Lemma first_keyword_spec (keywords : list string) (text : string) :
  match first_keyword keywords text with
  | Some k =>
      exists before after,
        keywords = before ++ k :: after /\
        PyStr.contains k text = true /\
        Forall (fun k' => PyStr.contains k' text = false) before
  | None => Forall (fun k' => PyStr.contains k' text = false) keywords
  end.
Proof.
  induction keywords as [|k ks IH]; simpl.
  - constructor.
  - destruct (PyStr.contains k text) eqn:E.
    + exists [], ks. repeat split; [exact E|constructor].
    + destruct (first_keyword ks text) as [k'|].
      * destruct IH as (before & after & -> & Hk & Hb).
        exists (k :: before), after. repeat split; [exact Hk|].
        now constructor.
      * now constructor.
Qed.

Lemma first_keyword_found (keywords : list string) (text : string) :
  (exists k, In k keywords /\ PyStr.contains k text = true) ->
  exists k, first_keyword keywords text = Some k.
Proof.
  intros (k & Hin & Hk).
  pose proof (first_keyword_spec keywords text) as H.
  destruct (first_keyword keywords text) as [k'|]; [now exists k'|].
  rewrite Forall_forall in H. rewrite (H k Hin) in Hk. discriminate.
Qed.

Lemma has_stress_first_keyword (d : email_dict) :
  has_stress (Dict d) = true <->
  exists k, first_keyword stress_keywords (email_text d) = Some k.
Proof.
  unfold has_stress. rewrite existsb_exists. split.
  - intros H. now apply first_keyword_found.
  - intros (k & Hk).
    pose proof (first_keyword_spec stress_keywords (email_text d)) as H.
    rewrite Hk in H. destruct H as (before & after & E & Hc & _).
    exists k. split; [|exact Hc]. rewrite E. apply in_elt.
Qed.

(** The work scan and the hour bucket leave the stress counters alone. *)
Lemma scan_email_stress_part
    (fromisoformat : string -> option datetime)
    (fromtimestamp : Z -> option datetime) (d : email_dict) (c : counters) :
  let c' := scan_email fromisoformat fromtimestamp (Dict d) c in
  urgent_count c' = urgent_count (scan_stress (email_text d) c) /\
  stress_keywords_found c'
  = stress_keywords_found (scan_stress (email_text d) c).
Proof.
  simpl. unfold scan_hour, scan_work.
  destruct (match e_date d with
            | Some date_str => _
            | None => _
            end);
    destruct (first_keyword work_keywords (email_text d)); now simpl.
Qed.

Lemma scan_stress_NoDup (text : string) (c : counters) :
  NoDup (stress_keywords_found c) ->
  NoDup (stress_keywords_found (scan_stress text c)).
Proof.
  intros H. unfold scan_stress.
  destruct (first_keyword stress_keywords text) as [k|]; [|exact H]. simpl.
  destruct (mem k (stress_keywords_found c)) eqn:E; [exact H|].
  apply NoDup_rev in H. rewrite <- (rev_involutive (_ ++ [k])).
  apply NoDup_rev. rewrite rev_app_distr. simpl.
  constructor; [|exact H].
  rewrite <- in_rev. intros Hin. apply mem_In in Hin. congruence.
Qed.

Lemma scan_email_NoDup
    (fromisoformat : string -> option datetime)
    (fromtimestamp : Z -> option datetime) (e : email) (c : counters) :
  NoDup (stress_keywords_found c) ->
  NoDup (stress_keywords_found (scan_email fromisoformat fromtimestamp e c)).
Proof.
  destruct e as [|d]; [trivial|]. intros H.
  rewrite (proj2 (scan_email_stress_part fromisoformat fromtimestamp d c)).
  now apply scan_stress_NoDup.
Qed.

Lemma scan_email_urgent
    (fromisoformat : string -> option datetime)
    (fromtimestamp : Z -> option datetime) (e : email) (c : counters) :
  urgent_count (scan_email fromisoformat fromtimestamp e c)
  = urgent_count c + (if has_stress e then 1 else 0).
Proof.
  destruct e as [|d]; [simpl; lia|].
  rewrite (proj1 (scan_email_stress_part fromisoformat fromtimestamp d c)).
  unfold scan_stress.
  destruct (has_stress (Dict d)) eqn:E.
  - apply has_stress_first_keyword in E. destruct E as (k & ->). reflexivity.
  - destruct (first_keyword stress_keywords (email_text d)) as [k|] eqn:Ek.
    + assert (has_stress (Dict d) = true)
        by (apply has_stress_first_keyword; now exists k).
      congruence.
    + simpl. lia.
Qed.

(** The second loop as a whole, from any counters. *)
Lemma scan_fold
    (fromisoformat : string -> option datetime)
    (fromtimestamp : Z -> option datetime) (l : list email) :
  forall c,
    let c' := fold_left (fun c e => scan_email fromisoformat fromtimestamp e c)
                        l c in
    urgent_count c'
    = urgent_count c + Z.of_nat (List.length (filter has_stress l)) /\
    (NoDup (stress_keywords_found c) -> NoDup (stress_keywords_found c')).
Proof.
  induction l as [|e l IH]; intros c; simpl.
  - split; [lia|trivial].
  - destruct (IH (scan_email fromisoformat fromtimestamp e c)) as [Hu Hn].
    split.
    + rewrite Hu, scan_email_urgent.
      destruct (has_stress e); simpl List.length; lia.
    + intros H. apply Hn. now apply scan_email_NoDup.
Qed.

(** What a successful analysis returns, in terms of the two loops. *)
Lemma analyze_unfold
    (fromisoformat : string -> option datetime)
    (fromtimestamp : Z -> option datetime) (now : datetime)
    (emails : list email) (days_back : Z) (a : analysis) :
  _analyze_email_content fromisoformat fromtimestamp now emails days_back
  = Some a ->
  exists cutoff_date peaks,
    let recent_emails :=
      filter (is_recent fromisoformat fromtimestamp cutoff_date) emails in
    let c := scan_all fromisoformat fromtimestamp recent_emails in
    total_emails a = Z.of_nat (List.length recent_emails) /\
    urgent_emails a = urgent_count c /\
    work_emails a = work_count c /\
    a_stress_keywords_found a = stress_keywords_found c /\
    a_hourly_distribution a = hourly_distribution c /\
    compute_recommendations (total_emails a) (urgent_emails a) (work_emails a)
      peaks (a_hourly_distribution a) = Some (recommendations a).
Proof.
  unfold _analyze_email_content. intros H.
  destruct (timedelta_days days_back) as [td|]; [|discriminate].
  destruct (sub now td) as [cutoff_date|]; [|discriminate].
  destruct (compute_peak_hours _) as [peaks|]; [|discriminate].
  destruct (compute_recommendations _ _ _ _ _) as [recs|] eqn:E; [|discriminate].
  injection H as <-. exists cutoff_date, peaks. simpl.
  repeat split. exact E.
Qed.

(** C7. For a kept e-mail (a dictionary) whose lowercased text holds at
    least one stress keyword, the scan adds exactly one to [urgent_count];
    the keyword it credits is the first of the fixed list that occurs in
    the text, and [stress_keywords_found] grows by that keyword alone, and
    only when it is not there yet; the list never holds a keyword twice.
    An e-mail holding both [urgent] and [deadline] adds exactly one, for
    [urgent].  Over a whole list, [urgent_count] is the number of e-mails
    holding a stress keyword, and so is [urgent_emails] in the returned
    analysis, over the kept e-mails. *)
Theorem stress_keyword_counted_once
    (fromisoformat : string -> option datetime)
    (fromtimestamp : Z -> option datetime) :
  (forall (d : email_dict) (c : counters),
     (exists k, In k stress_keywords /\
                PyStr.contains k (email_text d) = true) ->
     let c' := scan_email fromisoformat fromtimestamp (Dict d) c in
     urgent_count c' = urgent_count c + 1 /\
     (exists k before after,
        stress_keywords = before ++ k :: after /\
        PyStr.contains k (email_text d) = true /\
        Forall (fun k' => PyStr.contains k' (email_text d) = false) before /\
        stress_keywords_found c'
        = if mem k (stress_keywords_found c)
          then stress_keywords_found c
          else stress_keywords_found c ++ [k]) /\
     (NoDup (stress_keywords_found c) -> NoDup (stress_keywords_found c'))) /\
  (forall (d : email_dict) (c : counters),
     PyStr.contains "urgent" (email_text d) = true ->
     PyStr.contains "deadline" (email_text d) = true ->
     let c' := scan_email fromisoformat fromtimestamp (Dict d) c in
     urgent_count c' = urgent_count c + 1 /\
     stress_keywords_found c'
     = if mem "urgent" (stress_keywords_found c)
       then stress_keywords_found c
       else stress_keywords_found c ++ ["urgent"]) /\
  (forall recent_emails : list email,
     let c := scan_all fromisoformat fromtimestamp recent_emails in
     urgent_count c = Z.of_nat (List.length (filter has_stress recent_emails)) /\
     NoDup (stress_keywords_found c)) /\
  (forall (now : datetime) (emails : list email) (days_back : Z) (a : analysis),
     _analyze_email_content fromisoformat fromtimestamp now emails days_back
     = Some a ->
     NoDup (a_stress_keywords_found a) /\
     exists recent_emails,
       incl recent_emails emails /\
       total_emails a = Z.of_nat (List.length recent_emails) /\
       urgent_emails a
       = Z.of_nat (List.length (filter has_stress recent_emails))).
Proof.
  assert (Hall : forall recent_emails : list email,
     let c := scan_all fromisoformat fromtimestamp recent_emails in
     urgent_count c = Z.of_nat (List.length (filter has_stress recent_emails)) /\
     NoDup (stress_keywords_found c)).
  { intros recent_emails c. subst c. unfold scan_all.
    destruct (scan_fold fromisoformat fromtimestamp recent_emails
                (mk_counters 0 0 [] [])) as [Hu Hn].
    split; [rewrite Hu; simpl; lia|]. apply Hn. constructor. }
  split; [|split; [|split; [exact Hall|]]].
  - intros d c Hex c'. subst c'.
    destruct (scan_email_stress_part fromisoformat fromtimestamp d c) as [Hu Hf].
    rewrite Hu, Hf. clear Hu Hf.
    split; [|split].
    + apply first_keyword_found in Hex. destruct Hex as (k & Hk).
      unfold scan_stress. now rewrite Hk.
    + apply first_keyword_found in Hex. destruct Hex as (k & Hk).
      pose proof (first_keyword_spec stress_keywords (email_text d)) as H.
      rewrite Hk in H. destruct H as (before & after & E & Hc & Hb).
      exists k, before, after. repeat split; try assumption.
      unfold scan_stress. now rewrite Hk.
    + apply scan_stress_NoDup.
  - intros d c Hu Hd c'. subst c'.
    destruct (scan_email_stress_part fromisoformat fromtimestamp d c) as [H1 H2].
    rewrite H1, H2. unfold scan_stress, stress_keywords.
    cbn [first_keyword]. rewrite Hu. now simpl.
  - intros now emails days_back a H.
    apply analyze_unfold in H.
    destruct H as (cutoff_date & peaks & Ht & Hu & _ & Hf & _).
    destruct (Hall (filter (is_recent fromisoformat fromtimestamp cutoff_date)
                      emails)) as [Hcount Hnodup].
    split; [rewrite Hf; exact Hnodup|].
    exists (filter (is_recent fromisoformat fromtimestamp cutoff_date) emails).
    split; [apply incl_filter|]. split; [exact Ht|].
    rewrite Hu. exact Hcount.
Qed.

Lemma stress_keyword_counted_once_witness :
  (exists k, In k stress_keywords /\
             PyStr.contains k (email_text urgent_deadline_email) = true) /\
  PyStr.contains "urgent" (email_text urgent_deadline_email) = true /\
  PyStr.contains "deadline" (email_text urgent_deadline_email) = true /\
  urgent_count
    (scan_email IsoBasic.fromisoformat IsoBasic.fromtimestamp
       (Dict urgent_deadline_email) (mk_counters 0 0 [] []))
  = 0 + 1.
Proof.
  assert (Hex : exists k, In k stress_keywords /\
                  PyStr.contains k (email_text urgent_deadline_email) = true).
  { exists "urgent". split; [now left|reflexivity]. }
  split; [exact Hex|]. split; [reflexivity|]. split; [reflexivity|].
  exact (proj1 (proj1 (stress_keyword_counted_once
                         IsoBasic.fromisoformat IsoBasic.fromtimestamp)
                  urgent_deadline_email (mk_counters 0 0 [] []) Hex)).
Defined.

(* ------------------------------------------------------------------ *)
(** ** The late-night recommendation *)

(** The late-night test sees a bucket exactly when its hour is in the
    late range and is not zero. *)
Lemma any_late_hour_spec (d : histogram) :
  any_late_hour d = true <->
  exists h, In h (map fst d) /\ (22 <= h \/ h <= 6) /\ h <> 0.
Proof.
  unfold any_late_hour. rewrite existsb_exists. split.
  - intros (h & Hin & Hnz). apply filter_In in Hin. destruct Hin as [Hin Hl].
    exists h. split; [exact Hin|].
    apply orb_true_iff in Hl. rewrite !Z.leb_le in Hl.
    apply negb_true_iff, Z.eqb_neq in Hnz. now split.
  - intros (h & Hin & Hl & Hnz). exists h. split.
    + apply filter_In. split; [exact Hin|].
      apply orb_true_iff. now rewrite !Z.leb_le.
    + now apply negb_true_iff, Z.eqb_neq.
Qed.

(** With at least one kept e-mail, the late-night string is recommended
    exactly when some bucket lies in 22, 23, 1, ..., 6: a bucket for hour 0
    alone does not trigger it. *)
Lemma late_night_recommended_iff
    (total urgent work : Z) (peaks : list string) (d : histogram)
    (recs : list string) :
  compute_recommendations total urgent work peaks d = Some recs ->
  0 < total ->
  (In rec_late_night recs <->
   exists h, In h (map fst d) /\ (22 <= h \/ h <= 6) /\ h <> 0).
Proof.
  unfold compute_recommendations. intros H Ht.
  apply Z.ltb_lt in Ht. rewrite Ht in H.
  destruct (PyFloat.int_mul total PyFloat.lit_0_25) as [q|]; [|discriminate].
  destruct (PyFloat.int_mul total PyFloat.lit_0_6) as [s|]; [|discriminate].
  rewrite <- any_late_hour_spec.
  destruct (PyFloat.int_gt urgent q), (3 <? Z.of_nat (List.length peaks)),
    (any_late_hour d), (PyFloat.int_gt work s);
    simpl in H; injection H as <-; simpl; split; intros H;
    try discriminate; try reflexivity;
    repeat (destruct H as [H|H]; try discriminate H); try contradiction;
    auto 6.
Qed.

(** The same, on the returned analysis. *)
Lemma late_night_in_analysis
    (fromisoformat : string -> option datetime)
    (fromtimestamp : Z -> option datetime) (now : datetime)
    (emails : list email) (days_back : Z) (a : analysis) :
  _analyze_email_content fromisoformat fromtimestamp now emails days_back
  = Some a ->
  0 < total_emails a ->
  (In rec_late_night (recommendations a) <->
   exists h, In h (map fst (a_hourly_distribution a)) /\
             (22 <= h \/ h <= 6) /\ h <> 0).
Proof.
  intros H Ht. apply analyze_unfold in H.
  destruct H as (cutoff_date & peaks & _ & _ & _ & _ & _ & Hr).
  eapply late_night_recommended_iff; eassumption.
Qed.

(** C8 fails on the code at hour 0.  One kept e-mail stamped 00:30 gives a
    positive count and the histogram [{0: 1}], whose only bucket lies in
    the late range, yet the late-night string is not among the
    recommendations: the analysis answers with the healthy-patterns string
    alone. *)
Theorem midnight_bucket_not_flagged :
  exists a : analysis,
    _analyze_email_content IsoBasic.fromisoformat IsoBasic.fromtimestamp
      sample_now [midnight_email] 7 = Some a /\
    total_emails a = 1 /\
    a_hourly_distribution a = [(0, 1)] /\
    ~ In rec_late_night (recommendations a) /\
    recommendations a = [rec_healthy].
Proof.
  eexists. split; [vm_compute; reflexivity|].
  cbn [total_emails a_hourly_distribution recommendations].
  split; [reflexivity|]. split; [reflexivity|]. split; [|reflexivity].
  intros [H|[]]. discriminate H.
Qed.

Lemma late_night_recommended_iff_witness :
  compute_recommendations 1 0 0 ["23:00-00:00"] [(23, 1)]
  = Some [rec_late_night] /\
  0 < 1 /\
  (In rec_late_night [rec_late_night] <->
   exists h, In h (map fst [(23, 1)]) /\ (22 <= h \/ h <= 6) /\ h <> 0).
Proof.
  assert (H : compute_recommendations 1 0 0 ["23:00-00:00"] [(23, 1)]
              = Some [rec_late_night]) by (vm_compute; reflexivity).
  split; [exact H|]. split; [lia|].
  exact (late_night_recommended_iff 1 0 0 _ _ _ H ltac:(lia)).
Defined.

(* ------------------------------------------------------------------ *)
(** ** The free-time walk fed with its own output *)

Lemma fmt_02d_length (n : Z) : String.length (PyStr.fmt_02d n) = 2%nat.
Proof. reflexivity. Qed.

Lemma strftime_HM_length (d : datetime) :
  String.length (strftime_HM d) = 5%nat.
Proof. reflexivity. Qed.

Lemma replace_char_empty_length (c : ascii) (s : string) :
  (String.length (PyStr.replace_char c "" s) <= String.length s)%nat.
Proof.
  induction s as [|a s IH]; simpl; [lia|].
  destruct (Ascii.eqb c a); simpl; lia.
Qed.

Section FreeTimeFacts.
Variable fromisoformat : string -> option datetime.

Lemma walk_body_clock (ev : event) (st : walk_state) :
  Forall clock_entries (w_free st) ->
  Forall clock_entries (w_free (walk_body fromisoformat ev st)).
Proof.
  intros H. unfold walk_body.
  destruct (PyStr.truthy (ev_start ev)); [|exact H].
  destruct (fromisoformat _) as [event_start|]; [|exact H].
  destruct (lt (w_current st) event_start) as [is_before|]; [|exact H].
  set (free_blocks := if is_before then _ else _).
  assert (Hf : Forall clock_entries free_blocks).
  { subst free_blocks. destruct is_before; [|exact H].
    destruct (diff_seconds _ _); [|exact H].
    destruct (PyFloat.ge _ _); [|exact H].
    apply Forall_app. split; [exact H|].
    constructor; [|constructor]. split; apply strftime_HM_length. }
  destruct (PyStr.truthy (ev_end ev)); [|exact Hf].
  destruct (fromisoformat _) as [event_end|]; [|exact Hf].
  destruct (lt (w_current st) event_end) as [[]|]; exact Hf.
Qed.

Lemma walk_clock (evs : list event) :
  forall st,
    Forall clock_entries (w_free st) ->
    Forall clock_entries
      (w_free (fold_left (fun st ev => walk_body fromisoformat ev st) evs st)).
Proof.
  induction evs as [|ev evs IH]; intros st H; simpl; [exact H|].
  apply IH. now apply walk_body_clock.
Qed.

(** Every block the walk returns carries clock strings. *)
Lemma free_blocks_clock (events : list event) :
  Forall clock_entries (_calculate_free_time_blocks fromisoformat events).
Proof.
  unfold _calculate_free_time_blocks. destruct events as [|ev evs].
  - repeat constructor.
  - apply walk_clock. constructor.
Qed.

(** The parser rejects every string shorter than a date. *)
Hypothesis short_rejected :
  forall s, (String.length s < 7)%nat -> fromisoformat s = None.

Lemma walk_body_skips (ev : event) (st : walk_state) :
  String.length (ev_start ev) = 5%nat ->
  walk_body fromisoformat ev st = st.
Proof.
  intros H. unfold walk_body.
  destruct (PyStr.truthy (ev_start ev)); [|reflexivity].
  rewrite short_rejected; [reflexivity|].
  pose proof (replace_char_empty_length "Z" (ev_start ev)). lia.
Qed.

Lemma walk_skips (evs : list event) (st : walk_state) :
  Forall (fun ev => String.length (ev_start ev) = 5%nat) evs ->
  fold_left (fun st ev => walk_body fromisoformat ev st) evs st = st.
Proof.
  induction 1 as [|ev evs Hev _ IH]; simpl; [reflexivity|].
  now rewrite walk_body_skips.
Qed.

(** C9, amended. Fed with its own output, the free-time walk gives back
    none of the busy intervals: its blocks carry bare [HH:MM] clock
    strings, which the ISO parser rejects, so every one of them is skipped
    and the second pass returns no block at all; when the first pass
    returned no block, the second returns the single default block
    09:00-17:00. *)
Theorem free_time_blocks_fed_back (events : list event) :
  let free := _calculate_free_time_blocks fromisoformat events in
  _calculate_free_time_blocks fromisoformat (map as_event free)
  = match free with
    | [] => default_free_blocks
    | _ => []
    end.
Proof.
  intros free.
  pose proof (free_blocks_clock events) as Hc. fold free in Hc.
  destruct free as [|b bs]; [reflexivity|].
  unfold _calculate_free_time_blocks.
  cbn [map]. rewrite walk_skips; [reflexivity|].
  apply sorted_by_Forall.
  change (as_event b :: map as_event bs) with (map as_event (b :: bs)).
  apply Forall_map. eapply Forall_impl; [|exact Hc].
  now intros a [Ha _].
Qed.
End FreeTimeFacts.

Lemma digits_length (n : nat) :
  forall acc s v r,
    IsoBasic.digits n acc s = Some (v, r) ->
    String.length s = (n + String.length r)%nat.
Proof.
  induction n as [|n IH]; intros acc s v r H; simpl in H.
  - now injection H as _ <-.
  - destruct s as [|c s]; [discriminate|].
    destruct (PyStr.is_digit c); [|discriminate].
    apply IH in H. simpl. now rewrite H.
Qed.

Lemma parse_date_length (s : string) (o : Z) (r : string) :
  IsoBasic.parse_date s = Some (o, r) -> (10 <= String.length s)%nat.
Proof.
  unfold IsoBasic.parse_date. intros H.
  destruct (IsoBasic.digits 4 0 s) as [[y r1]|] eqn:E1; [|discriminate].
  destruct r1 as [|c1 r1]; [discriminate|].
  destruct (IsoBasic.digits 2 0 r1) as [[m r2]|] eqn:E2.
  2:{ destruct c1 as [[] [] [] [] [] [] [] []]; discriminate. }
  destruct r2 as [|c2 r2].
  { destruct c1 as [[] [] [] [] [] [] [] []]; discriminate. }
  destruct (IsoBasic.digits 2 0 r2) as [[d r3]|] eqn:E3.
  2:{ destruct c1 as [[] [] [] [] [] [] [] []]; try discriminate;
      destruct c2 as [[] [] [] [] [] [] [] []]; discriminate. }
  apply digits_length in E1, E2, E3. simpl in *. lia.
Qed.

Lemma iso_basic_short_rejected (s : string) :
  (String.length s < 7)%nat -> IsoBasic.fromisoformat s = None.
Proof.
  intros H. unfold IsoBasic.fromisoformat.
  destruct (IsoBasic.parse_date s) as [[o r]|] eqn:E; [|reflexivity].
  apply parse_date_length in E. lia.
Qed.

(** C9, as stated, fails.  The lecture 10:00-11:30 and the lab 14:00-17:00
    leave the free blocks 09:00-10:00 and 11:30-14:00; the walk over these
    two blocks returns no block, so no busy interval comes back: no
    returned block spans the lecture. *)
Lemma round_trip_returns_nothing :
  let free := _calculate_free_time_blocks IsoBasic.fromisoformat sample_events in
  let back := _calculate_free_time_blocks IsoBasic.fromisoformat
                (map as_event free) in
  map as_event free = [mk_event "09:00" "10:00"; mk_event "11:30" "14:00"] /\
  back = [] /\
  ~ (exists b, In b back /\ fb_start b = "10:00" /\ fb_end b = "11:30").
Proof.
  split; [vm_compute; reflexivity|].
  split; [vm_compute; reflexivity|].
  intros (b & Hb & _). vm_compute in Hb. exact Hb.
Qed.

Lemma free_time_blocks_fed_back_witness :
  (forall s, (String.length s < 7)%nat -> IsoBasic.fromisoformat s = None) /\
  _calculate_free_time_blocks IsoBasic.fromisoformat
    (map as_event
       (_calculate_free_time_blocks IsoBasic.fromisoformat sample_events))
  = [].
Proof.
  split; [exact iso_basic_short_rejected|].
  exact (free_time_blocks_fed_back IsoBasic.fromisoformat
           iso_basic_short_rejected sample_events).
Defined.

(* ------------------------------------------------------------------ *)
(** ** The shape of a schedule *)

Lemma alternating_length (n : nat) :
  List.length (alternating n) = (2 * n - 1)%nat.
Proof.
  induction n as [|[|k] IH]; [reflexivity|reflexivity|].
  change (alternating (S (S k))) with (study :: break :: alternating (S k)).
  cbn [List.length]. rewrite IH. lia.
Qed.

Lemma alternating_breaks (n : nat) :
  List.length (filter (fun t => match t with break => true | study => false end)
                 (alternating n)) = (n - 1)%nat.
Proof.
  induction n as [|[|k] IH]; [reflexivity|reflexivity|].
  change (alternating (S (S k))) with (study :: break :: alternating (S k)).
  cbn [filter List.length]. rewrite IH. lia.
Qed.

(** From index [i] with [n - i] subjects left, the loop appends a study
    block per subject and a break after each but the last. *)
Lemma loop_types (sd bd n : Z) (subjects : list string) :
  forall i st st',
    n = i + Z.of_nat (List.length subjects) ->
    loop sd bd n i subjects st = Some st' ->
    map type_of (st_blocks st')
    = map type_of (st_blocks st) ++ alternating (List.length subjects).
Proof.
  induction subjects as [|subject rest IH]; intros i st st' Hn H; simpl in H.
  - injection H as <-. now rewrite app_nil_r.
  - destruct (loop_body sd bd n i subject st) as [st1|] eqn:E; [|discriminate].
    apply IH in H; [|simpl List.length in Hn; lia].
    rewrite H. clear H.
    apply loop_body_cases in E.
    destruct E as (sb & _ & _ & _ & [(Hi & -> & _)|(Hi & bb & -> & _)]).
    + apply Z.ltb_ge in Hi. simpl List.length in Hn.
      destruct rest as [|r rest]; [|simpl List.length in Hn; lia].
      rewrite map_app, <- app_assoc. reflexivity.
    + apply Z.ltb_lt in Hi. simpl List.length in Hn.
      destruct rest as [|r rest]; [simpl in Hn; lia|].
      rewrite map_app, <- app_assoc. reflexivity.
Qed.

Lemma order_subjects_length (subjects : list string) :
  List.length (_order_subjects_by_difficulty subjects) = List.length subjects.
Proof.
  symmetry. apply Permutation_length.
  rewrite order_subjects_unfold. apply sorted_by_perm.
Qed.

(** X1. A schedule for [n] subjects is study, break, study, ..., study:
    the kinds of its blocks alternate, starting and ending with a study
    block, so that it has [2n - 1] blocks, [n - 1] of them breaks. *)
Theorem schedule_alternates
    (today : Z) (prefs : preferences) (events : option (list event))
    (sched : schedule) :
  _generate_optimized_blocks today prefs events = Some sched ->
  let n := List.length (PyList.get_or (p_subjects prefs) default_subjects) in
  map type_of (study_blocks sched) = alternating n /\
  List.length (study_blocks sched) = (2 * n - 1)%nat /\
  List.length (filter is_break (study_blocks sched)) = (n - 1)%nat.
Proof.
  intros H n. apply generate_unfold in H.
  destruct H as (t & st & _ & Hloop & ->). simpl study_blocks.
  apply loop_types in Hloop; [|lia]. simpl in Hloop.
  rewrite order_subjects_length in Hloop. fold n in Hloop.
  split; [exact Hloop|]. split.
  - rewrite <- (length_map type_of), Hloop. apply alternating_length.
  - rewrite <- (alternating_breaks n), <- Hloop.
    clear. induction (st_blocks st) as [|b bs IH]; [reflexivity|].
    destruct b; simpl; now rewrite IH.
Qed.

Lemma schedule_alternates_witness :
  _generate_optimized_blocks 739507 example_request None
  = Some example_schedule /\
  map type_of (study_blocks example_schedule) = [study; break; study].
Proof.
  assert (H : _generate_optimized_blocks 739507 example_request None
              = Some example_schedule) by (vm_compute; reflexivity).
  split; [exact H|].
  exact (proj1 (schedule_alternates 739507 example_request None
                  example_schedule H)).
Defined.

(* ------------------------------------------------------------------ *)
(** ** Adjusted durations as whole percentages *)

Lemma percent_agrees_all :
  forallb (fun mp => forallb (percent_agrees mp) day_minutes) multiplier_table
  = true.
Proof. vm_compute. reflexivity. Qed.

Lemma in_day_minutes (base : Z) : 0 <= base <= 1440 -> In base day_minutes.
Proof.
  intros H. unfold day_minutes. apply in_map_iff.
  exists (Z.to_nat base). split; [lia|]. apply in_seq. lia.
Qed.

(** The adjusted duration, for a base of up to a day, as a whole
    percentage of the base. *)
Lemma adjust_duration_percent
    (time : datetime) (subject : string) (base : Z) :
  0 <= base <= 1440 ->
  _adjust_duration_for_time_and_subject time subject base
  = Some (base * percent (hour time) (_get_subject_difficulty subject) / 100).
Proof.
  intros Hb. pose proof percent_agrees_all as Hall.
  rewrite forallb_forall in Hall.
  assert (Hone : forall mp, In mp multiplier_table ->
            match PyFloat.int_mul base (fst mp) with
            | Some f => PyFloat.to_int f
            | None => None
            end = Some (base * snd mp / 100)).
  { intros mp Hmp. specialize (Hall mp Hmp). rewrite forallb_forall in Hall.
    specialize (Hall base (in_day_minutes base Hb)).
    unfold percent_agrees in Hall.
    destruct (PyFloat.int_mul base (fst mp)) as [f|]; [|discriminate].
    destruct (PyFloat.to_int f) as [d|]; [|discriminate].
    apply Z.eqb_eq in Hall. now subst. }
  unfold _adjust_duration_for_time_and_subject, percent, duration_multiplier.
  destruct (8 <=? _get_subject_difficulty subject);
    destruct (hour time <? 12);
    destruct (((9 <=? hour time) && (hour time <=? 11))
              || ((15 <=? hour time) && (hour time <=? 17)));
    try destruct (((11 <=? hour time) && (hour time <=? 15))
                  || ((17 <=? hour time) && (hour time <=? 20)));
    cbn [andb negb];
    first
      [ exact (Hone (PyFloat.lit_1_0, 100) ltac:(simpl; tauto))
      | exact (Hone (PyFloat.lit_0_9, 90) ltac:(simpl; tauto))
      | exact (Hone (PyFloat.lit_0_8, 80) ltac:(simpl; tauto))
      | exact (Hone (PyFloat.mul PyFloat.lit_1_0 PyFloat.lit_0_9, 90)
                 ltac:(simpl; tauto))
      | exact (Hone (PyFloat.mul PyFloat.lit_0_9 PyFloat.lit_0_9, 81)
                 ltac:(simpl; tauto))
      | exact (Hone (PyFloat.mul PyFloat.lit_0_8 PyFloat.lit_0_9, 72)
                 ltac:(simpl; tauto)) ].
Qed.

(** X2. For a base duration of up to a day, the float product in
    [_adjust_duration_for_time_and_subject] is an exact whole percentage:
    the result is the floor of 100, 90 or 80 percent of the base by the
    hour band, and of 90, 81 or 72 percent for a subject rated 8 or more
    from noon on. *)
Theorem adjusted_duration_is_percentage
    (time : datetime) (subject : string) (base : Z) :
  0 <= base <= 1440 ->
  _adjust_duration_for_time_and_subject time subject base
  = Some (base * percent (hour time) (_get_subject_difficulty subject) / 100).
Proof. exact (adjust_duration_percent time subject base). Qed.

Lemma adjusted_duration_is_percentage_witness :
  0 <= 90 <= 1440 /\
  _adjust_duration_for_time_and_subject (combine 739507 (14, 30)) "Physics" 90
  = Some (90 * 81 / 100).
Proof.
  split; [lia|].
  exact (adjusted_duration_is_percentage (combine 739507 (14, 30)) "Physics" 90
           ltac:(lia)).
Defined.

(* ------------------------------------------------------------------ *)
(** ** What the loop writes into the blocks *)

Lemma loop_body_written (sd bd n i : Z) (subject : string) (st st' : loop_state) :
  normalized (st_current st) /\ Forall (written_by_loop sd bd) (st_blocks st) ->
  loop_body sd bd n i subject st = Some st' ->
  normalized (st_current st') /\ Forall (written_by_loop sd bd) (st_blocks st').
Proof.
  intros [Hn HF]. unfold loop_body.
  destruct (_adjust_duration_for_time_and_subject _ _ _) as [d|] eqn:Ed;
    [|discriminate].
  destruct (timedelta_minutes d) as [td|]; [|discriminate].
  destruct (add (st_current st) td) as [end_dt|] eqn:Ea; [|discriminate].
  apply add_wall in Ea. destruct Ea as [_ Hne].
  assert (Hs : written_by_loop sd bd
                 (Study (mk_study subject (strftime_HM (st_current st))
                           (strftime_HM end_dt) d
                           (_get_subject_difficulty subject)
                           (_is_optimal_time_for_subject (st_current st) subject)))).
  { exists (st_current st). simpl. repeat split; try assumption; apply Hn. }
  destruct (i <? n - 1).
  - destruct (timedelta_minutes _) as [tb|]; [|discriminate].
    destruct (add end_dt tb) as [break_end|] eqn:Eb; [|discriminate].
    apply add_wall in Eb. destruct Eb as [_ Hnb].
    injection 1 as <-. simpl. split; [exact Hnb|].
    repeat (apply Forall_app; split); try assumption;
      constructor; try constructor; try exact Hs.
    exists d. simpl. split; reflexivity.
  - injection 1 as <-. simpl. split; [exact Hne|].
    apply Forall_app; split; [assumption|]. constructor; [exact Hs|constructor].
Qed.

(** Every block of a returned schedule is as the loop writes it. *)
Lemma schedule_blocks_written
    (today : Z) (prefs : preferences) (events : option (list event))
    (sched : schedule) :
  _generate_optimized_blocks today prefs events = Some sched ->
  Forall (written_by_loop (PyList.get_or (p_study_duration prefs) 90)
                          (PyList.get_or (p_break_duration prefs) 15))
         (study_blocks sched).
Proof.
  intros H. apply generate_unfold in H.
  destruct H as (t & st & Ht & Hloop & ->). simpl.
  destruct t as [h m]. destruct (strptime_HM_range _ _ _ Ht) as [Hh Hm].
  refine (proj2 (loop_invariant _ _ _
            (fun st => normalized (st_current st) /\
                       Forall (written_by_loop _ _) (st_blocks st))
            _ _ _ _ _ _ Hloop)).
  - intros. eapply loop_body_written; eassumption.
  - simpl. split; [now apply combine_normalized|constructor].
Qed.

(** X3. With a base study duration of up to a day, every study block of a
    returned schedule lasts between 72 percent (rounded down) and the whole
    of the base duration. *)
Theorem study_blocks_within_base
    (today : Z) (prefs : preferences) (events : option (list event))
    (sched : schedule) :
  _generate_optimized_blocks today prefs events = Some sched ->
  let sd := PyList.get_or (p_study_duration prefs) 90 in
  0 <= sd <= 1440 ->
  Forall (fun b => is_study b = true ->
                   sd * 72 / 100 <= duration_of b <= sd)
         (study_blocks sched).
Proof.
  intros H sd Hsd. apply schedule_blocks_written in H. fold sd in H.
  eapply Forall_impl; [|exact H].
  intros [s|k] Hw; [|discriminate]. intros _. simpl.
  destruct Hw as (time & _ & _ & Hd & _).
  rewrite adjust_duration_percent in Hd by exact Hsd.
  injection Hd as <-.
  set (p := percent (hour time) (_get_subject_difficulty (sb_subject s))).
  assert (Hp : 72 <= p <= 100).
  { subst p. unfold percent.
    repeat match goal with
           | |- context [if ?c then _ else _] => destruct c
           end; cbv; split; congruence. }
  split.
  - apply Z.div_le_mono; [lia|]. nia.
  - apply Z.div_le_upper_bound; [lia|]. nia.
Qed.

Lemma study_blocks_within_base_witness :
  _generate_optimized_blocks 739507 example_request None
  = Some example_schedule /\
  0 <= 90 <= 1440 /\
  Forall (fun b => is_study b = true -> 90 * 72 / 100 <= duration_of b <= 90)
         (study_blocks example_schedule).
Proof.
  assert (H : _generate_optimized_blocks 739507 example_request None
              = Some example_schedule) by (vm_compute; reflexivity).
  split; [exact H|]. split; [lia|].
  exact (study_blocks_within_base 739507 example_request None
           example_schedule H ltac:(simpl; lia)).
Defined.

(** X4. With a base break of 0 to 20 minutes, every break of a returned
    schedule lasts at least the base and at most 20 minutes, is longer than
    the base by 5 minutes at most, carries the activity chosen for its
    length, and that activity is never the one kept for breaks of more
    than 20 minutes. *)
Theorem breaks_within_twenty
    (today : Z) (prefs : preferences) (events : option (list event))
    (sched : schedule) :
  _generate_optimized_blocks today prefs events = Some sched ->
  let bd := PyList.get_or (p_break_duration prefs) 15 in
  0 <= bd <= 20 ->
  Forall (fun b =>
            match b with
            | Study _ => True
            | Break k =>
                bd <= bb_duration k <= 20 /\
                bb_duration k <= bd + 5 /\
                bb_activity k = _suggest_break_activity (bb_duration k) /\
                bb_activity k <> "Physical exercise or snack"
            end)
         (study_blocks sched).
Proof.
  intros H bd Hbd. apply schedule_blocks_written in H. fold bd in H.
  eapply Forall_impl; [|exact H].
  intros [s|k] Hw; [exact I|].
  destruct Hw as (d & Hd & Ha).
  assert (Hr : bd <= bb_duration k <= 20 /\ bb_duration k <= bd + 5).
  { rewrite Hd. unfold _adjust_break_duration. destruct (90 <=? d); lia. }
  destruct Hr as [Hr1 Hr2]. repeat split; try lia; try exact Ha.
  rewrite Ha. unfold _suggest_break_activity.
  destruct (bb_duration k <=? 10); [discriminate|].
  destruct (bb_duration k <=? 20) eqn:E; [discriminate|].
  apply Z.leb_gt in E. lia.
Qed.

Lemma breaks_within_twenty_witness :
  _generate_optimized_blocks 739507 example_request None
  = Some example_schedule /\
  0 <= 15 <= 20 /\
  15 <= 20 <= 20.
Proof.
  assert (H : _generate_optimized_blocks 739507 example_request None
              = Some example_schedule) by (vm_compute; reflexivity).
  split; [exact H|]. split; [lia|].
  pose proof (breaks_within_twenty 739507 example_request None
                example_schedule H ltac:(simpl; lia)) as HF.
  simpl in HF. inversion HF as [|? ? _ HF']. inversion HF' as [|? ? Hb _].
  exact (proj1 Hb).
Defined.

(* ------------------------------------------------------------------ *)
(** ** Ratings, flags and the span of a schedule *)

Lemma strptime_strftime (d : datetime) :
  normalized d -> strptime_HM (strftime_HM d) = Some (hour d, minute d).
Proof.
  unfold normalized. intros H. unfold strftime_HM. apply strptime_fmt.
  - unfold hour, us_per_hour, us_per_day in *. split.
    + apply Z.div_pos; lia.
    + apply Z.lt_succ_r. apply Z.div_lt_upper_bound; lia.
  - unfold minute. pose proof (Z.mod_pos_bound (dt_us d / us_per_minute) 60).
    lia.
Qed.

Lemma lower_char_idempotent (c : ascii) :
  PyStr.lower_char (PyStr.lower_char c) = PyStr.lower_char c.
Proof. destruct c as [[] [] [] [] [] [] [] []]; reflexivity. Qed.

Lemma lower_idempotent (s : string) : PyStr.lower (PyStr.lower s) = PyStr.lower s.
Proof.
  induction s as [|c s IH]; [reflexivity|].
  simpl. now rewrite lower_char_idempotent, IH.
Qed.

(** X5. The difficulty rating of any subject name lies between 5 and 9,
    and it does not depend on the letter case of the name: two names with
    the same lowercase form get the same rating. *)
Theorem difficulty_rating_range_and_case (subject other : string) :
  5 <= _get_subject_difficulty subject <= 9 /\
  _get_subject_difficulty (PyStr.lower subject)
  = _get_subject_difficulty subject /\
  (PyStr.lower subject = PyStr.lower other ->
   _get_subject_difficulty subject = _get_subject_difficulty other).
Proof.
  split; [|split].
  - unfold _get_subject_difficulty, difficulty_map. cbn [PyList.dict_get].
    repeat match goal with
           | |- context [if ?c then _ else _] => destruct c
           end; lia.
  - unfold _get_subject_difficulty. now rewrite lower_idempotent.
  - intros H. unfold _get_subject_difficulty. now rewrite H.
Qed.

Lemma difficulty_rating_range_and_case_witness :
  PyStr.lower "MATH" = PyStr.lower "Math" /\
  _get_subject_difficulty "MATH" = _get_subject_difficulty "Math".
Proof.
  split; [reflexivity|].
  exact (proj2 (proj2 (difficulty_rating_range_and_case "MATH" "Math"))
           eq_refl).
Defined.

(** X6. In a returned schedule every study block states the rating of its
    own subject, and its optimal-time flag is the window test for that
    rating at the hour written in its own [start_time]; a block flagged
    optimal therefore starts between 09:00 and 20:59. *)
Theorem study_block_annotations
    (today : Z) (prefs : preferences) (events : option (list event))
    (sched : schedule) :
  _generate_optimized_blocks today prefs events = Some sched ->
  Forall (fun b =>
            match b with
            | Break _ => True
            | Study s =>
                exists h m,
                  strptime_HM (sb_start_time s) = Some (h, m) /\
                  sb_difficulty s = _get_subject_difficulty (sb_subject s) /\
                  sb_optimal_time s = optimal_at h (sb_difficulty s) /\
                  (sb_optimal_time s = true -> 9 <= h <= 20)
            end)
         (study_blocks sched).
Proof.
  intros H. apply schedule_blocks_written in H.
  eapply Forall_impl; [|exact H].
  intros [s|k] Hw; [|exact I].
  destruct Hw as (time & Hn & Hs & _ & Hd & Ho).
  exists (hour time), (minute time).
  rewrite Hs, Hd, Ho. split; [now apply strptime_strftime|].
  split; [reflexivity|]. split; [reflexivity|].
  unfold _is_optimal_time_for_subject.
  destruct (7 <=? _get_subject_difficulty (sb_subject s)); intros E.
  - apply orb_true_iff in E.
    destruct E as [E|E]; apply andb_true_iff in E; destruct E as [E1 E2];
      apply Z.leb_le in E1, E2; lia.
  - apply andb_true_iff in E. destruct E as [E1 E2].
    apply Z.leb_le in E1, E2. lia.
Qed.

Lemma study_block_annotations_witness :
  _generate_optimized_blocks 739507 example_request None
  = Some example_schedule /\
  (exists h m, strptime_HM "09:00" = Some (h, m) /\
               true = optimal_at h 9).
Proof.
  assert (H : _generate_optimized_blocks 739507 example_request None
              = Some example_schedule) by (vm_compute; reflexivity).
  split; [exact H|].
  pose proof (study_block_annotations 739507 example_request None
                example_schedule H) as HF.
  inversion HF as [|? ? Hb _]. cbn beta iota in Hb.
  destruct Hb as (h & m & Hp & Hd & Ho & _).
  exists h, m. split; [exact Hp|exact Ho].
Defined.

Lemma laid_out_end (w w' : Z) (bs : list block) :
  laid_out w bs w' ->
  w' = w + (sum_durations is_study bs + sum_durations is_break bs)
           * us_per_minute.
Proof.
  induction 1 as [w|w b bs w' _ _ _ IH].
  - unfold sum_durations. simpl. lia.
  - rewrite IH. change (b :: bs) with ([b] ++ bs).
    rewrite !sum_durations_app.
    destruct b; unfold sum_durations; simpl; lia.
Qed.

Lemma last_cons {A : Type} (bs : list A) :
  forall c b : A, last (c :: bs) b = last bs c.
Proof.
  induction bs as [|x bs IH]; intros c b; [reflexivity|].
  change (last (c :: x :: bs) b) with (last (x :: bs) b).
  now rewrite !IH.
Qed.

Lemma laid_out_last_end (bs : list block) :
  forall w w' b,
    laid_out w (b :: bs) w' -> end_time_of (last bs b) = clock w'.
Proof.
  induction bs as [|c bs IH]; intros w w' b H.
  - inversion H as [|? ? ? ? _ He Hl]; subst.
    inversion Hl; subst. exact He.
  - inversion H as [|? ? ? ? _ _ Hl]; subst.
    rewrite last_cons. eapply IH. exact Hl.
Qed.

(** X7. The blocks of a returned schedule cover exactly
    [total_study_time + total_break_time] minutes from the requested start:
    the [end_time] of the last block is the clock string of the start moved
    on by the two totals. *)
Theorem schedule_span_is_totals
    (today : Z) (prefs : preferences) (events : option (list event))
    (sched : schedule) :
  _generate_optimized_blocks today prefs events = Some sched ->
  exists t,
    strptime_HM (PyList.get_or (p_start_time prefs) "09:00") = Some t /\
    let finish :=
      wall (combine today t)
      + (total_study_time sched + total_break_time sched) * us_per_minute in
    laid_out (wall (combine today t)) (study_blocks sched) finish /\
    forall first rest,
      study_blocks sched = first :: rest ->
      end_time_of (last rest first) = clock finish.
Proof.
  intros H. apply generate_unfold in H.
  destruct H as (t & st & Ht & Hloop & ->). simpl.
  exists t. split; [exact Ht|].
  destruct t as [h m]. destruct (strptime_HM_range _ _ _ Ht) as [Hh Hm].
  assert (Hlaid : laid_out (wall (combine today (h, m))) (st_blocks st)
                    (wall (st_current st))).
  { eapply loop_laid_out; [|exact Hloop]. simpl. split.
    - now apply combine_normalized.
    - constructor. }
  assert (Htot : st_study st = sum_durations is_study (st_blocks st) /\
                 st_break st = sum_durations is_break (st_blocks st)).
  { eapply loop_totals; [|exact Hloop]. split; reflexivity. }
  destruct Htot as [-> ->].
  rewrite <- (laid_out_end _ _ _ Hlaid).
  split; [exact Hlaid|].
  intros first rest E. rewrite E in Hlaid.
  eapply laid_out_last_end. exact Hlaid.
Qed.

Lemma schedule_span_is_totals_witness :
  _generate_optimized_blocks 739507 example_request None
  = Some example_schedule /\
  end_time_of (Study (mk_study "English" "10:50" "12:20" 90 5 true))
  = clock (wall (combine 739507 (9, 0)) + (180 + 20) * us_per_minute).
Proof.
  assert (H : _generate_optimized_blocks 739507 example_request None
              = Some example_schedule) by (vm_compute; reflexivity).
  split; [exact H|].
  destruct (schedule_span_is_totals 739507 example_request None
              example_schedule H) as (t & Ht & _ & Hlast).
  assert (t = (9, 0)) as -> by (vm_compute in Ht; congruence).
  exact (Hlast _ _ eq_refl).
Defined.

(* ------------------------------------------------------------------ *)
(** ** The public methods of the calendar optimizer *)

Import CalendarService.

(** X8. Within one day ([datetime.now().date()] reads the same date each
    time the call asks for it), [create_optimized_schedule] always answers
    with what [_generate_optimized_blocks] makes of the preferences alone:
    whether the toolkit is initialised, whether it can be, and whatever
    events the calendar holds change nothing, and a request the block loop
    rejects is rejected on every path. *)
Theorem create_schedule_ignores_toolkit
    (today : Z) (arcade_available : bool) (fetched_events : list event)
    (tk : toolkit) (prefs : preferences) :
  fst (create_optimized_schedule today arcade_available fetched_events tk prefs)
  = _generate_optimized_blocks today prefs None.
Proof.
  unfold create_optimized_schedule, initialize, _create_with_arcade_toolkit,
    _simulate_schedule.
  change (_generate_optimized_blocks today prefs
            (Some (_get_existing_events fetched_events _)))
    with (_generate_optimized_blocks today prefs None).
  destruct tk as [[] []], arcade_available; simpl;
    destruct (_generate_optimized_blocks today prefs None); reflexivity.
Qed.

Section CalendarEventsFacts.
Variable fromisoformat : string -> option datetime.
Variable float_sum : list spec_float -> spec_float.
Hypothesis short_rejected :
  forall s, (String.length s < 7)%nat -> fromisoformat s = None.

Lemma block_hours_rejected (b : free_block) :
  clock_entries b -> block_hours fromisoformat b = None.
Proof.
  intros [_ He]. unfold block_hours.
  rewrite short_rejected; [reflexivity|].
  pose proof (replace_char_empty_length "Z" (fb_end b)). lia.
Qed.

Lemma calendar_events_cases
    (fetched : list raw_event) (tk : toolkit) (days : Z) :
  let events :=
    if tk_initialized tk && tk_client tk then fetched else simulated_events in
  let free :=
    _calculate_free_time_blocks fromisoformat
      (map walk_view (process_events events)) in
  get_calendar_events fromisoformat float_sum fetched tk days
  = match free with
    | [] => Report (process_events events) []
                   (Z.of_nat (List.length (process_events events))) (Int 0)
    | _ => ReportError
    end.
Proof.
  intros events free.
  unfold get_calendar_events. fold events. fold free.
  pose proof (free_blocks_clock fromisoformat
                (map walk_view (process_events events))) as Hc.
  fold free in Hc. destruct free as [|b bs]; [reflexivity|].
  inversion Hc as [|? ? Hb _]; subst.
  cbn [all_hours]. now rewrite block_hours_rejected.
Qed.

(** X9. [get_calendar_events] cannot report free time: the free blocks
    carry [HH:MM] strings, which the ISO parser rejects when the free hours
    are added up, so whenever the walk finds a free block the method ends
    in its [except] branch, with no events and no blocks; it reports the
    events only when there is no free block, with zero free hours.  With a
    client and an empty calendar the answer is always the error. *)
Theorem calendar_events_report
    (fetched : list raw_event) (tk : toolkit) (days : Z) :
  let events :=
    if tk_initialized tk && tk_client tk then fetched else simulated_events in
  let free :=
    _calculate_free_time_blocks fromisoformat
      (map walk_view (process_events events)) in
  get_calendar_events fromisoformat float_sum fetched tk days
  = match free with
    | [] => Report (process_events events) []
                   (Z.of_nat (List.length (process_events events))) (Int 0)
    | _ => ReportError
    end /\
  get_calendar_events fromisoformat float_sum [] (mk_toolkit true true) days
  = ReportError.
Proof.
  intros events free. split.
  - apply calendar_events_cases.
  - exact (calendar_events_cases [] (mk_toolkit true true) days).
Qed.
End CalendarEventsFacts.

Lemma calendar_events_report_witness :
  (forall s, (String.length s < 7)%nat -> IsoBasic.fromisoformat s = None) /\
  get_calendar_events IsoBasic.fromisoformat (fun _ => PyFloat.lit_1_0)
    [] (mk_toolkit false false) 7 = ReportError.
Proof.
  split; [exact iso_basic_short_rejected|].
  exact (proj1 (calendar_events_report IsoBasic.fromisoformat
                  (fun _ => PyFloat.lit_1_0) iso_basic_short_rejected
                  [] (mk_toolkit false false) 7)).
Defined.

(* ------------------------------------------------------------------ *)
(** ** Sorting and filtering *)

Lemma string_leb_trans (a b c : string) :
  String.leb a b = true -> String.leb b c = true -> String.leb a c = true.
Proof.
  unfold String.leb. revert b c.
  induction a as [|x a IH]; intros [|y b] [|z c]; simpl; try easy.
  unfold Ascii.compare.
  destruct (N.compare_spec (N_of_ascii x) (N_of_ascii y)) as [Exy|Exy|Exy];
    destruct (N.compare_spec (N_of_ascii y) (N_of_ascii z)) as [Eyz|Eyz|Eyz];
    try easy.
  - rewrite Exy, Eyz, N.compare_refl. apply IH.
  - rewrite Exy. now rewrite (proj2 (N.compare_lt_iff _ _) Eyz).
  - rewrite <- Eyz. now rewrite (proj2 (N.compare_lt_iff _ _) Exy).
  - now rewrite (proj2 (N.compare_lt_iff _ _) (N.lt_trans _ _ _ Exy Eyz)).
Qed.

Section SortedFilter.
Context {A K : Type}.
Variable key : A -> K.
Variable ahead : K -> K -> bool.
Hypothesis ahead_total :
  forall a b, ahead a b = false -> ahead b a = true.
Hypothesis ahead_trans :
  forall a b c, ahead a b = true -> ahead b c = true -> ahead a c = true.

Lemma insert_sorted (x : A) (l : list A) :
  StronglySorted (fun a b => ahead (key a) (key b) = true) l ->
  StronglySorted (fun a b => ahead (key a) (key b) = true)
                 (PyList.insert key ahead x l).
Proof.
  induction 1 as [|y l Hs IH Hy]; simpl.
  - repeat constructor.
  - destruct (ahead (key x) (key y)) eqn:E.
    + constructor; [constructor; assumption|].
      constructor; [exact E|].
      eapply Forall_impl; [|exact Hy].
      intros a Ha. eapply ahead_trans; eassumption.
    + constructor; [exact IH|].
      eapply Permutation_Forall; [apply insert_perm|].
      constructor; [now apply ahead_total|exact Hy].
Qed.

Lemma sorted_by_sorted (l : list A) :
  StronglySorted (fun a b => ahead (key a) (key b) = true)
                 (PyList.sorted_by key ahead l).
Proof.
  induction l as [|x l IH]; simpl; [constructor|].
  now apply insert_sorted.
Qed.

(** Inserting into the kept part of a sorted list is keeping part of the
    list inserted into. *)
Lemma insert_filter_sorted (sel : A -> bool) (x : A) (l : list A) :
  StronglySorted (fun a b => ahead (key a) (key b) = true) l ->
  sel x = true ->
  filter sel (PyList.insert key ahead x l)
  = PyList.insert key ahead x (filter sel l).
Proof.
  intros Hs Hx. induction Hs as [|y l Hs IH Hy]; simpl.
  - now rewrite Hx.
  - destruct (ahead (key x) (key y)) eqn:E.
    + cbn [filter]. rewrite Hx.
      destruct (sel y) eqn:Ey.
      * simpl. now rewrite E.
      * assert (Hall : Forall (fun a => ahead (key x) (key a) = true)
                         (filter sel l)).
        { apply Forall_forall. intros a Ha. apply filter_In in Ha.
          rewrite Forall_forall in Hy. eapply ahead_trans; [exact E|].
          apply Hy. apply Ha. }
        destruct (filter sel l) as [|a fl]; [reflexivity|].
        inversion Hall as [|? ? Ha _]; subst. simpl. now rewrite Ha.
    + cbn [filter]. rewrite IH.
      destruct (sel y); [|reflexivity]. simpl. now rewrite E.
Qed.

(** Sorting commutes with dropping elements. *)
Lemma sorted_by_filter_commute (sel : A -> bool) (l : list A) :
  filter sel (PyList.sorted_by key ahead l)
  = PyList.sorted_by key ahead (filter sel l).
Proof.
  induction l as [|x l IH]; [reflexivity|].
  simpl PyList.sorted_by. cbn [filter].
  destruct (sel x) eqn:Ex.
  - rewrite insert_filter_sorted by (try apply sorted_by_sorted; assumption).
    simpl. now rewrite IH.
  - rewrite insert_filter by (intros; congruence).
    cbn [filter]. now rewrite Ex.
Qed.
End SortedFilter.

(* ------------------------------------------------------------------ *)
(** ** Events the free-time walk cannot read *)

Section UnreadableEvents.
Variable fromisoformat : string -> option datetime.

Lemma walk_body_unreadable (ev : event) (st : walk_state) :
  readable fromisoformat ev = false ->
  walk_body fromisoformat ev st = st.
Proof.
  unfold readable, walk_body. intros H.
  destruct (PyStr.truthy (ev_start ev)); [|reflexivity].
  destruct (fromisoformat _); [discriminate|reflexivity].
Qed.

Lemma walk_filter_readable (evs : list event) :
  forall st,
    fold_left (fun st ev => walk_body fromisoformat ev st) evs st
    = fold_left (fun st ev => walk_body fromisoformat ev st)
        (filter (readable fromisoformat) evs) st.
Proof.
  induction evs as [|ev evs IH]; intros st; [reflexivity|].
  cbn [filter fold_left].
  destruct (readable fromisoformat ev) eqn:E.
  - cbn [fold_left]. apply IH.
  - rewrite walk_body_unreadable by exact E. apply IH.
Qed.

(** X10. Events whose [start] is empty or does not parse are skipped by
    the free-time walk: leaving them out of the input gives the same free
    blocks, as long as one readable event remains.  When none remains the
    answer is the empty list, not the default block 09:00-17:00 that an
    empty event list gets. *)
Theorem unreadable_events_skipped (events : list event) :
  let kept := filter (readable fromisoformat) events in
  (kept <> [] ->
   _calculate_free_time_blocks fromisoformat events
   = _calculate_free_time_blocks fromisoformat kept) /\
  (events <> [] -> kept = [] ->
   _calculate_free_time_blocks fromisoformat events = []) /\
  _calculate_free_time_blocks fromisoformat [] = default_free_blocks.
Proof.
  intros kept.
  assert (Hwalk : forall ev evs,
            _calculate_free_time_blocks fromisoformat (ev :: evs)
            = w_free (fold_left (fun st e => walk_body fromisoformat e st)
                        (PyList.sorted_str ev_start
                           (filter (readable fromisoformat) (ev :: evs)))
                        (mk_walk [] day_start))).
  { intros ev evs. unfold _calculate_free_time_blocks.
    rewrite walk_filter_readable. unfold PyList.sorted_str.
    rewrite sorted_by_filter_commute; [reflexivity| |].
    - intros a b H. destruct (String.leb_total a b) as [H'|H']; congruence.
    - apply string_leb_trans. }
  split; [|split].
  - intros Hk. destruct events as [|ev evs]; [now contradiction Hk|].
    rewrite Hwalk. fold kept.
    destruct kept as [|k ks] eqn:Ek; [now contradiction Hk|].
    rewrite Hwalk.
    assert (Hkk : filter (readable fromisoformat) (k :: ks) = k :: ks).
    { rewrite <- Ek. subst kept. clear.
      induction (ev :: evs) as [|a l IH]; [reflexivity|].
      cbn [filter]. destruct (readable fromisoformat a) eqn:E;
        [cbn [filter]; now rewrite E, IH|exact IH]. }
    now rewrite Hkk.
  - intros He Hk. destruct events as [|ev evs]; [now contradiction He|].
    rewrite Hwalk. fold kept. rewrite Hk. reflexivity.
  - reflexivity.
Qed.
End UnreadableEvents.

Lemma unreadable_events_skipped_witness :
  filter (readable IsoBasic.fromisoformat)
    (mk_event "soon" "later" :: mk_event "" "" :: sample_events) <> [] /\
  _calculate_free_time_blocks IsoBasic.fromisoformat
    (mk_event "soon" "later" :: mk_event "" "" :: sample_events)
  = _calculate_free_time_blocks IsoBasic.fromisoformat sample_events /\
  [mk_event "soon" "later"] <> [] /\
  filter (readable IsoBasic.fromisoformat) [mk_event "soon" "later"] = [] /\
  _calculate_free_time_blocks IsoBasic.fromisoformat [mk_event "soon" "later"]
  = [].
Proof.
  pose proof (unreadable_events_skipped IsoBasic.fromisoformat
                (mk_event "soon" "later" :: mk_event "" "" :: sample_events))
    as [H1 _].
  pose proof (unreadable_events_skipped IsoBasic.fromisoformat
                [mk_event "soon" "later"]) as [_ [H2 _]].
  assert (Hne : filter (readable IsoBasic.fromisoformat)
                  (mk_event "soon" "later" :: mk_event "" "" :: sample_events)
                <> []) by (vm_compute; discriminate).
  split; [exact Hne|]. split; [exact (H1 Hne)|].
  split; [discriminate|]. split; [reflexivity|].
  exact (H2 ltac:(discriminate) eq_refl).
Defined.

(* ------------------------------------------------------------------ *)
(** ** Counters and histogram of the e-mail analysis *)

Lemma has_work_first_keyword (d : email_dict) :
  has_work (Dict d) = true <->
  exists k, first_keyword work_keywords (email_text d) = Some k.
Proof.
  unfold has_work. rewrite existsb_exists. split.
  - intros H. now apply first_keyword_found.
  - intros (k & Hk).
    pose proof (first_keyword_spec work_keywords (email_text d)) as H.
    rewrite Hk in H. destruct H as (before & after & E & Hc & _).
    exists k. split; [|exact Hc]. rewrite E. apply in_elt.
Qed.

Lemma scan_email_work
    (fromisoformat : string -> option datetime)
    (fromtimestamp : Z -> option datetime) (e : email) (c : counters) :
  work_count (scan_email fromisoformat fromtimestamp e c)
  = work_count c + (if has_work e then 1 else 0).
Proof.
  destruct e as [|d]; [simpl; lia|].
  assert (E : work_count (scan_email fromisoformat fromtimestamp (Dict d) c)
              = work_count (scan_work (email_text d) c)).
  { simpl. unfold scan_hour, scan_work, scan_stress.
    destruct (match e_date d with
              | Some date_str => _
              | None => _
              end);
      destruct (first_keyword work_keywords (email_text d));
      destruct (first_keyword stress_keywords (email_text d)); reflexivity. }
  rewrite E. unfold scan_work.
  destruct (has_work (Dict d)) eqn:Ew.
  - apply has_work_first_keyword in Ew. destruct Ew as (k & ->). reflexivity.
  - destruct (first_keyword work_keywords (email_text d)) as [k|] eqn:Ek.
    + assert (has_work (Dict d) = true)
        by (apply has_work_first_keyword; now exists k).
      congruence.
    + simpl. lia.
Qed.

(** The keywords recorded by one step come from the fixed list, and at
    most one is added, and only when the e-mail counts as urgent. *)
Lemma scan_email_found
    (fromisoformat : string -> option datetime)
    (fromtimestamp : Z -> option datetime) (e : email) (c : counters) :
  let c' := scan_email fromisoformat fromtimestamp e c in
  (Forall (fun k => In k stress_keywords) (stress_keywords_found c) ->
   Forall (fun k => In k stress_keywords) (stress_keywords_found c')) /\
  Z.of_nat (List.length (stress_keywords_found c')) - urgent_count c'
  <= Z.of_nat (List.length (stress_keywords_found c)) - urgent_count c.
Proof.
  destruct e as [|d]; [simpl; split; [trivial|lia]|].
  cbv zeta.
  destruct (scan_email_stress_part fromisoformat fromtimestamp d c) as [Hu Hf].
  rewrite Hu, Hf. unfold scan_stress.
  pose proof (first_keyword_spec stress_keywords (email_text d)) as Hs.
  destruct (first_keyword stress_keywords (email_text d)) as [k|];
    [|split; [trivial|lia]].
  destruct Hs as (before & after & E & _ & _). cbn [stress_keywords_found urgent_count].
  destruct (mem k (stress_keywords_found c)).
  - split; [trivial|lia].
  - split.
    + intros H. apply Forall_app. split; [exact H|].
      constructor; [|constructor]. rewrite E. apply in_elt.
    + rewrite length_app. simpl List.length. lia.
Qed.

Lemma scan_fold_counts
    (fromisoformat : string -> option datetime)
    (fromtimestamp : Z -> option datetime) (l : list email) :
  forall c,
    let c' := fold_left (fun c e => scan_email fromisoformat fromtimestamp e c)
                        l c in
    work_count c' = work_count c + Z.of_nat (List.length (filter has_work l)) /\
    (Forall (fun k => In k stress_keywords) (stress_keywords_found c) ->
     Forall (fun k => In k stress_keywords) (stress_keywords_found c')) /\
    Z.of_nat (List.length (stress_keywords_found c')) - urgent_count c'
    <= Z.of_nat (List.length (stress_keywords_found c)) - urgent_count c.
Proof.
  induction l as [|e l IH]; intros c; cbn [fold_left filter].
  - cbv zeta. simpl. repeat split; [lia|trivial|lia].
  - destruct (IH (scan_email fromisoformat fromtimestamp e c)) as (Hw & Hf & Hl).
    destruct (scan_email_found fromisoformat fromtimestamp e c) as [Hf1 Hl1].
    cbv zeta in *. repeat split.
    + rewrite Hw, scan_email_work.
      destruct (has_work e); cbn [List.length]; lia.
    + intros H. apply Hf, Hf1, H.
    + lia.
Qed.

Lemma filter_length_le {A : Type} (p : A -> bool) (l : list A) :
  (List.length (filter p l) <= List.length l)%nat.
Proof.
  induction l as [|x l IH]; simpl; [lia|]. destruct (p x); simpl; lia.
Qed.

(** X11. In a returned analysis the counters are consistent: the urgent
    and the work count lie between zero and [total_emails], which is at
    most the number of e-mails given; [work_emails] is the number of kept
    e-mails whose text holds a work keyword; every recorded stress keyword
    belongs to the fixed list, and there are no more of them than urgent
    e-mails. *)
Theorem analysis_counts_bounded
    (fromisoformat : string -> option datetime)
    (fromtimestamp : Z -> option datetime) (now : datetime)
    (emails : list email) (days_back : Z) (a : analysis) :
  _analyze_email_content fromisoformat fromtimestamp now emails days_back
  = Some a ->
  0 <= urgent_emails a <= total_emails a /\
  0 <= work_emails a <= total_emails a /\
  total_emails a <= Z.of_nat (List.length emails) /\
  (exists recent_emails,
     incl recent_emails emails /\
     total_emails a = Z.of_nat (List.length recent_emails) /\
     work_emails a = Z.of_nat (List.length (filter has_work recent_emails))) /\
  incl (a_stress_keywords_found a) stress_keywords /\
  Z.of_nat (List.length (a_stress_keywords_found a)) <= urgent_emails a.
Proof.
  intros H. apply analyze_unfold in H.
  destruct H as (cutoff_date & peaks & Ht & Hu & Hw & Hf & _).
  cbv zeta in *.
  set (recent := filter (is_recent fromisoformat fromtimestamp cutoff_date)
                   emails) in *.
  unfold scan_all in *.
  destruct (scan_fold fromisoformat fromtimestamp recent
              (mk_counters 0 0 [] [])) as [Hu' _].
  destruct (scan_fold_counts fromisoformat fromtimestamp recent
              (mk_counters 0 0 [] [])) as (Hw' & Hin & Hlen).
  cbv zeta in *. cbn [urgent_count work_count stress_keywords_found] in *.
  rewrite Hu, Hw, Hf, Ht.
  pose proof (filter_length_le has_stress recent).
  pose proof (filter_length_le has_work recent).
  pose proof (filter_length_le
                (is_recent fromisoformat fromtimestamp cutoff_date) emails).
  fold recent in H1.
  repeat split; try lia.
  - exists recent. split; [apply incl_filter|]. split; [reflexivity|]. lia.
  - intros k Hk. specialize (Hin (Forall_nil _)).
    rewrite Forall_forall in Hin. now apply Hin.
  - simpl List.length in Hlen. lia.
Qed.

Lemma analysis_counts_bounded_witness :
  exists a,
    _analyze_email_content IsoBasic.fromisoformat IsoBasic.fromtimestamp
      sample_now [Dict urgent_deadline_email; NotDict; midnight_email] 7
    = Some a /\
    0 <= urgent_emails a <= total_emails a /\
    Z.of_nat (List.length (a_stress_keywords_found a)) <= urgent_emails a.
Proof.
  eexists. split; [vm_compute; reflexivity|].
  match goal with
  | |- context [urgent_emails ?a] =>
      assert (E : _analyze_email_content IsoBasic.fromisoformat
                    IsoBasic.fromtimestamp sample_now
                    [Dict urgent_deadline_email; NotDict; midnight_email] 7
                  = Some a) by (vm_compute; reflexivity);
      pose proof (analysis_counts_bounded _ _ _ _ _ _ E) as (H1 & _ & _ & _ & _ & H2)
  end.
  split; [exact H1|exact H2].
Defined.

(** *** The histogram *)

Lemma bump_keys (d : histogram) (h : Z) :
  map fst (bump d h)
  = if existsb (Z.eqb h) (map fst d) then map fst d else map fst d ++ [h].
Proof.
  induction d as [|[k v] d IH]; [reflexivity|].
  simpl. rewrite (Z.eqb_sym h k).
  destruct (k =? h); [reflexivity|]. simpl. rewrite IH.
  now destruct (existsb (Z.eqb h) (map fst d)).
Qed.

Lemma bump_NoDup (d : histogram) (h : Z) :
  NoDup (map fst d) -> NoDup (map fst (bump d h)).
Proof.
  intros H. rewrite bump_keys.
  destruct (existsb (Z.eqb h) (map fst d)) eqn:E; [exact H|].
  apply NoDup_rev in H. rewrite <- (rev_involutive (_ ++ [h])).
  apply NoDup_rev. rewrite rev_app_distr. simpl.
  constructor; [|exact H].
  rewrite <- in_rev. intros Hin.
  assert (existsb (Z.eqb h) (map fst d) = true); [|congruence].
  apply existsb_exists. exists h. split; [exact Hin|apply Z.eqb_refl].
Qed.

Lemma bump_total (d : histogram) (h : Z) :
  histogram_total (bump d h) = histogram_total d + 1.
Proof.
  unfold histogram_total.
  induction d as [|[k v] d IH]; [reflexivity|].
  simpl. destruct (k =? h); simpl in *; lia.
Qed.

Lemma bump_positive (d : histogram) (h : Z) :
  Forall (fun kv => 1 <= snd kv) d ->
  Forall (fun kv => 1 <= snd kv) (bump d h).
Proof.
  induction 1 as [|[k v] d Hk Hd IH]; simpl.
  - constructor; [simpl; lia|constructor].
  - destruct (k =? h); constructor; simpl in *; try assumption; lia.
Qed.

Lemma bump_found (d : histogram) (h : Z) : In h (map fst (bump d h)).
Proof.
  induction d as [|[k v] d IH]; simpl; [now left|].
  destruct (k =? h) eqn:E; simpl.
  - left. now apply Z.eqb_eq.
  - now right.
Qed.

(** One step of the scan adds at most one to the histogram. *)
Lemma scan_email_histogram
    (fromisoformat : string -> option datetime)
    (fromtimestamp : Z -> option datetime) (e : email) (c : counters) :
  let c' := scan_email fromisoformat fromtimestamp e c in
  (NoDup (map fst (hourly_distribution c)) ->
   NoDup (map fst (hourly_distribution c'))) /\
  (Forall (fun kv => 1 <= snd kv) (hourly_distribution c) ->
   Forall (fun kv => 1 <= snd kv) (hourly_distribution c')) /\
  histogram_total (hourly_distribution c)
  <= histogram_total (hourly_distribution c')
  <= histogram_total (hourly_distribution c) + 1.
Proof.
  destruct e as [|d]; [simpl; repeat split; trivial; lia|].
  cbv zeta. simpl. unfold scan_hour.
  assert (E : hourly_distribution (scan_work (email_text d)
                                     (scan_stress (email_text d) c))
              = hourly_distribution c).
  { unfold scan_work, scan_stress.
    destruct (first_keyword work_keywords (email_text d));
      destruct (first_keyword stress_keywords (email_text d)); reflexivity. }
  destruct (match e_date d with
            | Some date_str => _
            | None => _
            end) as [t|]; cbn [hourly_distribution]; rewrite E.
  - repeat split.
    + apply bump_NoDup.
    + apply bump_positive.
    + rewrite bump_total. lia.
    + rewrite bump_total. lia.
  - repeat split; trivial; lia.
Qed.

Lemma scan_fold_histogram
    (fromisoformat : string -> option datetime)
    (fromtimestamp : Z -> option datetime) (l : list email) :
  forall c,
    let c' := fold_left (fun c e => scan_email fromisoformat fromtimestamp e c)
                        l c in
    (NoDup (map fst (hourly_distribution c)) ->
     NoDup (map fst (hourly_distribution c'))) /\
    (Forall (fun kv => 1 <= snd kv) (hourly_distribution c) ->
     Forall (fun kv => 1 <= snd kv) (hourly_distribution c')) /\
    histogram_total (hourly_distribution c)
    <= histogram_total (hourly_distribution c')
    <= histogram_total (hourly_distribution c) + Z.of_nat (List.length l).
Proof.
  induction l as [|e l IH]; intros c; cbn [fold_left].
  - cbv zeta. simpl. repeat split; trivial; lia.
  - destruct (IH (scan_email fromisoformat fromtimestamp e c)) as (Hn & Hp & Ht).
    destruct (scan_email_histogram fromisoformat fromtimestamp e c)
      as (Hn1 & Hp1 & Ht1).
    cbv zeta in *. repeat split.
    + intros H. apply Hn, Hn1, H.
    + intros H. apply Hp, Hp1, H.
    + lia.
    + cbn [List.length]. lia.
Qed.

(** X12. The hourly histogram of a returned analysis has one bucket per
    hour (no hour occurs twice), every bucket counts at least one e-mail,
    and the counts add up to at most [total_emails]: each kept e-mail is
    counted in at most one bucket. *)
Theorem hourly_distribution_invariants
    (fromisoformat : string -> option datetime)
    (fromtimestamp : Z -> option datetime) (now : datetime)
    (emails : list email) (days_back : Z) (a : analysis) :
  _analyze_email_content fromisoformat fromtimestamp now emails days_back
  = Some a ->
  NoDup (map fst (a_hourly_distribution a)) /\
  Forall (fun kv => 1 <= snd kv) (a_hourly_distribution a) /\
  0 <= histogram_total (a_hourly_distribution a) <= total_emails a.
Proof.
  intros H. apply analyze_unfold in H.
  destruct H as (cutoff_date & peaks & Ht & _ & _ & _ & Hh & _).
  cbv zeta in *. rewrite Hh, Ht. unfold scan_all.
  destruct (scan_fold_histogram fromisoformat fromtimestamp
              (filter (is_recent fromisoformat fromtimestamp cutoff_date) emails)
              (mk_counters 0 0 [] [])) as (Hn & Hp & Hs).
  cbv zeta in *. cbn [hourly_distribution] in *.
  split; [apply Hn; constructor|]. split; [apply Hp; constructor|].
  unfold histogram_total at 1 4 in Hs. simpl in Hs. lia.
Qed.

Lemma hourly_distribution_invariants_witness :
  exists a,
    _analyze_email_content IsoBasic.fromisoformat IsoBasic.fromtimestamp
      sample_now [midnight_email; NotDict; midnight_email] 7
    = Some a /\
    a_hourly_distribution a = [(0, 2)] /\
    0 <= histogram_total (a_hourly_distribution a) <= total_emails a.
Proof.
  eexists. split; [vm_compute; reflexivity|]. split; [reflexivity|].
  match goal with
  | |- context [total_emails ?a] =>
      assert (E : _analyze_email_content IsoBasic.fromisoformat
                    IsoBasic.fromtimestamp sample_now
                    [midnight_email; NotDict; midnight_email] 7
                  = Some a) by (vm_compute; reflexivity);
      exact (proj2 (proj2 (hourly_distribution_invariants _ _ _ _ _ _ E)))
  end.
Defined.

(** *** The recommendations *)

(** X13. The recommendation list of a returned analysis is never empty
    and holds at most four of the five fixed strings, none twice; the
    healthy-patterns string appears exactly when no other recommendation
    does, and it is the whole list when no e-mail was kept. *)
Theorem recommendations_shape
    (fromisoformat : string -> option datetime)
    (fromtimestamp : Z -> option datetime) (now : datetime)
    (emails : list email) (days_back : Z) (a : analysis) :
  _analyze_email_content fromisoformat fromtimestamp now emails days_back
  = Some a ->
  recommendations a <> [] /\
  (List.length (recommendations a) <= 4)%nat /\
  NoDup (recommendations a) /\
  incl (recommendations a) all_recommendations /\
  (In rec_healthy (recommendations a) <-> recommendations a = [rec_healthy]) /\
  (total_emails a = 0 -> recommendations a = [rec_healthy]).
Proof.
  intros H. apply analyze_unfold in H.
  destruct H as (cutoff_date & peaks & _ & _ & _ & _ & _ & Hr).
  revert Hr. generalize (recommendations a) as recs. intros recs.
  unfold compute_recommendations.
  destruct (0 <? total_emails a) eqn:Et.
  - destruct (PyFloat.int_mul _ PyFloat.lit_0_25) as [q|]; [|discriminate].
    destruct (PyFloat.int_mul _ PyFloat.lit_0_6) as [s|]; [|discriminate].
    apply Z.ltb_lt in Et.
    destruct (PyFloat.int_gt _ q), (3 <? Z.of_nat (List.length peaks)),
      (any_late_hour _), (PyFloat.int_gt _ s);
      cbn [app]; intros Hr; injection Hr as <-;
      (split; [discriminate|]);
      (split; [simpl; lia|]);
      (split; [repeat (constructor;
                       [simpl; intros Hin;
                        repeat (destruct Hin as [Hin|Hin];
                                try discriminate Hin); exact Hin|]);
               constructor|]);
      (split; [intros x Hx; simpl in Hx |- *;
               repeat (destruct Hx as [Hx|Hx]; [subst x; auto 6|]);
               contradiction|]);
      (split; [|lia]);
      (split; [intros Hin; simpl in Hin;
               repeat (destruct Hin as [Hin|Hin]; try discriminate Hin);
               try contradiction; reflexivity
              |intros E; try discriminate E; now left]).
  - intros Hr. injection Hr as <-.
    split; [discriminate|]. split; [simpl; lia|].
    split; [repeat constructor; intros []|].
    split; [intros x [<-|[]]; simpl; auto 6|].
    split; [|reflexivity]. split; [reflexivity|intros _; now left].
Qed.

Lemma recommendations_shape_witness :
  exists a,
    _analyze_email_content IsoBasic.fromisoformat IsoBasic.fromtimestamp
      sample_now [Dict urgent_deadline_email] 7 = Some a /\
    recommendations a = [rec_urgency; rec_academic] /\
    (List.length (recommendations a) <= 4)%nat.
Proof.
  eexists. split; [vm_compute; reflexivity|]. split; [reflexivity|].
  match goal with
  | |- context [recommendations ?a] =>
      assert (E : _analyze_email_content IsoBasic.fromisoformat
                    IsoBasic.fromtimestamp sample_now
                    [Dict urgent_deadline_email] 7
                  = Some a) by (vm_compute; reflexivity);
      exact (proj1 (proj2 (recommendations_shape _ _ _ _ _ _ E)))
  end.
Defined.

(* ------------------------------------------------------------------ *)
(** ** The date filter of the e-mail analysis *)

Lemma filter_length_mono {A : Type} (p q : A -> bool) (l : list A) :
  (forall x, In x l -> p x = true -> q x = true) ->
  (List.length (filter p l) <= List.length (filter q l))%nat.
Proof.
  induction l as [|x l IH]; intros H; simpl; [lia|].
  assert (IH' := IH (fun y Hy => H y (or_intror Hy))).
  destruct (p x) eqn:Ep.
  - rewrite (H x (or_introl eq_refl) Ep). simpl. lia.
  - destruct (q x); simpl; lia.
Qed.

Section DateFilter.
Variable fromisoformat : string -> option datetime.
Variable fromtimestamp : Z -> option datetime.

(** An e-mail kept for one cutoff is kept for every earlier cutoff in the
    same time zone. *)
Lemma is_recent_earlier_cutoff (c1 c2 : datetime) (e : email) :
  dt_tz c1 = dt_tz c2 -> wall c2 <= wall c1 ->
  is_recent fromisoformat fromtimestamp c1 e = true ->
  is_recent fromisoformat fromtimestamp c2 e = true.
Proof.
  intros Htz Hw. unfold is_recent. destruct e as [|d]; [trivial|].
  destruct (match e_date d with
            | Some date_str => _
            | None => _
            end) as [[t|]|]; trivial.
  unfold ge, cmp. rewrite <- Htz.
  destruct (dt_tz t) as [ot|], (dt_tz c1) as [oc|]; simpl; trivial.
  - destruct (Z.compare_spec (wall t - ot) (wall c1 - oc));
      destruct (Z.compare_spec (wall t - ot) (wall c2 - oc));
      trivial; intros; try discriminate; lia.
  - destruct (Z.compare_spec (wall t) (wall c1));
      destruct (Z.compare_spec (wall t) (wall c2));
      trivial; intros; try discriminate; lia.
Qed.

Lemma undated_is_recent (cutoff_date : datetime) (e : email) :
  undated e = true ->
  is_recent fromisoformat fromtimestamp cutoff_date e = true.
Proof.
  unfold undated, is_recent. destruct e as [|d]; [trivial|].
  destruct (e_date d) as [s|].
  - intros H. apply negb_true_iff in H. now rewrite H.
  - destruct (e_timestamp d); [discriminate|trivial].
Qed.

Lemma cutoff_of (now : datetime) (emails : list email) (days_back : Z)
    (a : analysis) :
  _analyze_email_content fromisoformat fromtimestamp now emails days_back
  = Some a ->
  exists cutoff_date,
    dt_tz cutoff_date = dt_tz now /\
    wall cutoff_date = wall now - days_back * us_per_day /\
    total_emails a
    = Z.of_nat (List.length
                  (filter (is_recent fromisoformat fromtimestamp cutoff_date)
                     emails)).
Proof.
  unfold _analyze_email_content, timedelta_days. intros H.
  destruct (timedelta_ok _); [|discriminate].
  destruct (sub now _) as [cutoff_date|] eqn:Ec; [|discriminate].
  destruct (compute_peak_hours _); [|discriminate].
  destruct (compute_recommendations _ _ _ _ _); [|discriminate].
  injection H as <-. exists cutoff_date. cbn [total_emails].
  unfold sub in Ec. pose proof (add_wall _ _ _ Ec) as [Hw _].
  split; [|split; [lia|reflexivity]].
  unfold add in Ec. destruct (_ && _); [|discriminate].
  now injection Ec as <-.
Qed.

(** X14. The date filter fails open.  E-mails it cannot date -- elements
    that are no dictionaries, [date] entries without a [T], dictionaries
    with neither [date] nor [timestamp] -- are kept whatever the window,
    so [total_emails] is at least their number; and a longer window never
    keeps fewer e-mails. *)
Theorem date_filter_fails_open (now : datetime) (emails : list email) :
  (forall days_back a,
     _analyze_email_content fromisoformat fromtimestamp now emails days_back
     = Some a ->
     Z.of_nat (List.length (filter undated emails)) <= total_emails a) /\
  (forall days1 days2 a1 a2,
     _analyze_email_content fromisoformat fromtimestamp now emails days1
     = Some a1 ->
     _analyze_email_content fromisoformat fromtimestamp now emails days2
     = Some a2 ->
     days1 <= days2 ->
     total_emails a1 <= total_emails a2).
Proof.
  split.
  - intros days_back a H.
    apply cutoff_of in H. destruct H as (c & _ & _ & ->).
    apply inj_le, filter_length_mono.
    intros e _. apply undated_is_recent.
  - intros days1 days2 a1 a2 H1 H2 Hd.
    apply cutoff_of in H1. destruct H1 as (c1 & Htz1 & Hw1 & ->).
    apply cutoff_of in H2. destruct H2 as (c2 & Htz2 & Hw2 & ->).
    apply inj_le, filter_length_mono.
    intros e _. apply is_recent_earlier_cutoff; [congruence|].
    unfold us_per_day in *. lia.
Qed.
End DateFilter.

Lemma date_filter_fails_open_witness :
  exists a1 a2,
    _analyze_email_content IsoBasic.fromisoformat IsoBasic.fromtimestamp
      sample_now dated_emails 7 = Some a1 /\
    _analyze_email_content IsoBasic.fromisoformat IsoBasic.fromtimestamp
      sample_now dated_emails 30 = Some a2 /\
    7 <= 30 /\
    total_emails a1 = 2 /\ total_emails a2 = 3 /\
    total_emails a1 <= total_emails a2.
Proof.
  destruct (_analyze_email_content IsoBasic.fromisoformat
              IsoBasic.fromtimestamp sample_now dated_emails 7)
    as [a1|] eqn:E1; [|vm_compute in E1; discriminate E1].
  destruct (_analyze_email_content IsoBasic.fromisoformat
              IsoBasic.fromtimestamp sample_now dated_emails 30)
    as [a2|] eqn:E2; [|vm_compute in E2; discriminate E2].
  exists a1, a2.
  split; [reflexivity|]. split; [reflexivity|]. split; [lia|].
  split; [vm_compute in E1; now injection E1 as <-|].
  split; [vm_compute in E2; now injection E2 as <-|].
  exact (proj2 (date_filter_fails_open IsoBasic.fromisoformat
                  IsoBasic.fromtimestamp sample_now dated_emails)
           7 30 a1 a2 E1 E2 ltac:(lia)).
Defined.

(* ------------------------------------------------------------------ *)
(** ** [utils.py]: time strings *)

Lemma in_range_is_digit (hi : N) (c : ascii) :
  (hi <= 57)%N -> in_range 48 hi c = true -> PyStr.is_digit c = true.
Proof.
  unfold in_range, PyStr.is_digit. intros Hhi H.
  apply andb_true_iff in H. destruct H as [H1 H2].
  apply N.leb_le in H1, H2. apply andb_true_iff.
  split; apply N.leb_le; lia.
Qed.

Lemma at_end_cases (r : string) :
  Utils.at_end r = true -> r = "" \/ r = String "010" "".
Proof.
  destruct r as [|c [|c' r]]; simpl; try discriminate; [now left|].
  intros H. apply Ascii.eqb_eq in H. subst. now right.
Qed.

(** What the minutes part of the pattern accepts. *)
Lemma match_minutes_cases (s : string) :
  Utils.match_minutes s = true ->
  exists a b r,
    s = String ":" (String a (String b r)) /\
    in_range 48 53 a = true /\ PyStr.is_digit b = true /\
    (r = "" \/ r = String "010" "").
Proof.
  destruct s as [|c [|a [|b r]]]; simpl; try discriminate.
  intros H. repeat (apply andb_true_iff in H; destruct H as [H ?]).
  apply Ascii.eqb_eq in H. subst c.
  exists a, b, r. repeat split; try assumption. now apply at_end_cases.
Qed.

Lemma match_M_two_digits (a b : ascii) :
  in_range 48 53 a = true -> PyStr.is_digit b = true ->
  match_M (String a (String b ""))
  = Some (10 * PyStr.digit_val a + PyStr.digit_val b, "").
Proof. intros Ha Hb. unfold match_M. now rewrite Ha, Hb. Qed.

Lemma is_digit_not_colon (c : ascii) :
  PyStr.is_digit c = true -> Ascii.eqb c ":" = false.
Proof.
  intros H. destruct (Ascii.eqb_spec c ":") as [->|]; [discriminate|reflexivity].
Qed.

Lemma prefix_colon (r : string) : prefix ":" (String ":" r) = true.
Proof.
  simpl. destruct (ascii_dec ":" ":") as [_|N]; [now destruct r|now contradiction N].
Qed.

(** [strptime] on the three shapes of the hour. *)
Lemma strptime_hour_01 (a b : ascii) (r : string) :
  in_range 48 49 a = true -> PyStr.is_digit b = true ->
  strptime_HM (String a (String b (String ":" r)))
  = match match_M r with
    | Some (m, "") => Some (10 * PyStr.digit_val a + PyStr.digit_val b, m)
    | _ => None
    end.
Proof.
  intros Ha Hb.
  assert (Ha2 : Ascii.eqb a "2" = false).
  { destruct (Ascii.eqb_spec a "2") as [->|]; [discriminate|reflexivity]. }
  unfold strptime_HM, match_H.
  rewrite Ha2, Ha, Hb, prefix_colon. reflexivity.
Qed.

Lemma strptime_hour_2 (b : ascii) (r : string) :
  in_range 48 51 b = true ->
  strptime_HM (String "2" (String b (String ":" r)))
  = match match_M r with
    | Some (m, "") => Some (20 + PyStr.digit_val b, m)
    | _ => None
    end.
Proof.
  intros Hb. unfold strptime_HM, match_H.
  rewrite Hb, prefix_colon. reflexivity.
Qed.

Lemma strptime_hour_digit (a : ascii) (r : string) :
  PyStr.is_digit a = true ->
  strptime_HM (String a (String ":" r))
  = match match_M r with
    | Some (m, "") => Some (PyStr.digit_val a, m)
    | _ => None
    end.
Proof.
  intros Ha. unfold strptime_HM, match_H.
  replace (in_range 48 51 ":") with false by reflexivity.
  replace (PyStr.is_digit ":") with false by reflexivity.
  rewrite !andb_false_r, Ha. reflexivity.
Qed.

Lemma match_M_newline (a b : ascii) :
  in_range 48 53 a = true -> PyStr.is_digit b = true ->
  match_M (String a (String b (String "010" "")))
  = Some (10 * PyStr.digit_val a + PyStr.digit_val b, String "010" "").
Proof. intros Ha Hb. unfold match_M. now rewrite Ha, Hb. Qed.

(** X15. A string the validator accepts is read by [strptime] as a clock
    value, once the newline the pattern's [$] tolerates at the very end is
    taken off.  The two do not agree beyond that: the validator accepts
    [09:00] followed by a newline, which [strptime] rejects, and
    [strptime] reads [9:5], which the validator rejects. *)
Theorem validated_time_parses (time_str : string) :
  Utils.validate_time_format time_str = true ->
  exists h m,
    0 <= h <= 23 /\ 0 <= m <= 59 /\
    (strptime_HM time_str = Some (h, m) \/
     exists s, time_str = (s ++ String "010" "")%string /\
               strptime_HM s = Some (h, m) /\
               strptime_HM time_str = None).
Proof.
  intros H.
  assert (Hparse :
    exists s hm,
      strptime_HM s = Some hm /\
      (time_str = s \/
       time_str = (s ++ String "010" "")%string /\ strptime_HM time_str = None)).
  { unfold Utils.validate_time_format in H.
    destruct time_str as [|a r1]; [discriminate|].
    apply orb_true_iff in H. destruct H as [H|H];
      [apply orb_true_iff in H; destruct H as [H|H]|].
    - (* [0-1][0-9] *)
      destruct r1 as [|b r2]; [discriminate|].
      apply andb_true_iff in H. destruct H as [H Hm].
      apply andb_true_iff in H. destruct H as [Ha Hb].
      apply match_minutes_cases in Hm.
      destruct Hm as (c & d & r & -> & Hc & Hd & Hr).
      exists (String a (String b (String ":" (String c (String d ""))))).
      eexists. split.
      + rewrite strptime_hour_01, match_M_two_digits by assumption.
        reflexivity.
      + destruct Hr as [->| ->]; [now left|right]. split; [reflexivity|].
        rewrite strptime_hour_01, match_M_newline by assumption.
        reflexivity.
    - (* a lone digit *)
      apply andb_true_iff in H. destruct H as [Ha Hm].
      apply match_minutes_cases in Hm.
      destruct Hm as (c & d & r & -> & Hc & Hd & Hr).
      exists (String a (String ":" (String c (String d "")))).
      eexists. split.
      + rewrite strptime_hour_digit, match_M_two_digits by assumption.
        reflexivity.
      + destruct Hr as [->| ->]; [now left|right]. split; [reflexivity|].
        rewrite strptime_hour_digit, match_M_newline by assumption.
        reflexivity.
    - (* 2[0-3] *)
      destruct r1 as [|b r2]; [discriminate|].
      apply andb_true_iff in H. destruct H as [H Hm].
      apply andb_true_iff in H. destruct H as [Ha Hb].
      apply Ascii.eqb_eq in Ha. subst a.
      apply match_minutes_cases in Hm.
      destruct Hm as (c & d & r & -> & Hc & Hd & Hr).
      exists (String "2" (String b (String ":" (String c (String d ""))))).
      eexists. split.
      + rewrite strptime_hour_2, match_M_two_digits by assumption.
        reflexivity.
      + destruct Hr as [->| ->]; [now left|right]. split; [reflexivity|].
        rewrite strptime_hour_2, match_M_newline by assumption.
        reflexivity. }
  destruct Hparse as (s & [h m] & Hs & Hcase).
  exists h, m. destruct (strptime_HM_range _ _ _ Hs) as [Hh Hm].
  split; [exact Hh|]. split; [exact Hm|].
  destruct Hcase as [->|[-> Hnone]]; [now left|right].
  exists s. now repeat split.
Qed.

Lemma validated_time_parses_witness :
  Utils.validate_time_format (String "0" (String "9" (String ":"
     (String "0" (String "0" (String "010" "")))))) = true /\
  strptime_HM (String "0" (String "9" (String ":"
     (String "0" (String "0" (String "010" "")))))) = None /\
  strptime_HM "9:5" = Some (9, 5) /\
  Utils.validate_time_format "9:5" = false /\
  exists h m,
    0 <= h <= 23 /\ 0 <= m <= 59 /\
    (strptime_HM "23:59" = Some (h, m) \/
     exists s, "23:59" = (s ++ String "010" "")%string /\
               strptime_HM s = Some (h, m) /\
               strptime_HM "23:59" = None).
Proof.
  split; [reflexivity|]. split; [reflexivity|]. split; [reflexivity|].
  split; [reflexivity|].
  apply (validated_time_parses "23:59"). reflexivity.
Defined.

(** The twelve-hour rendering of a clock value is not a [%H:%M] string. *)
Lemma display_not_parsed_all :
  forallb (fun hm =>
             match strptime_HM
                     (Utils.format_time (PyStr.fmt_02d (fst hm) ++ ":"
                                         ++ PyStr.fmt_02d (snd hm))) with
             | Some _ => false
             | None => true
             end) all_clock_values = true.
Proof. vm_compute. reflexivity. Qed.

(** [strptime] reads a string as its two-digit rendering does. *)
Lemma format_time_of_parsed (s : string) (h m : Z) :
  strptime_HM s = Some (h, m) ->
  Utils.format_time s
  = Utils.format_time (PyStr.fmt_02d h ++ ":" ++ PyStr.fmt_02d m).
Proof.
  intros H. destruct (strptime_HM_range _ _ _ H) as [Hh Hm].
  unfold Utils.format_time. now rewrite H, strptime_fmt.
Qed.

(** X16. [format_time] hands back unchanged whatever [strptime] does not
    read, and what it renders it does not read again: formatting twice is
    formatting once.  A string that is read is rendered as its two-digit
    form is, in eight characters. *)
Theorem format_time_idempotent (time_str : string) :
  Utils.format_time (Utils.format_time time_str) = Utils.format_time time_str /\
  (strptime_HM time_str = None -> Utils.format_time time_str = time_str) /\
  (forall h m,
     strptime_HM time_str = Some (h, m) ->
     Utils.format_time time_str
     = Utils.format_time (PyStr.fmt_02d h ++ ":" ++ PyStr.fmt_02d m) /\
     String.length (Utils.format_time time_str) = 8%nat /\
     Utils.format_time time_str <> time_str).
Proof.
  assert (Hnone : strptime_HM time_str = None ->
                  Utils.format_time time_str = time_str).
  { intros H. unfold Utils.format_time. now rewrite H. }
  assert (Hsome : forall h m,
            strptime_HM time_str = Some (h, m) ->
            strptime_HM (Utils.format_time time_str) = None).
  { intros h m H. rewrite (format_time_of_parsed _ _ _ H).
    destruct (strptime_HM_range _ _ _ H) as [Hh Hm].
    pose proof display_not_parsed_all as Hall.
    rewrite forallb_forall in Hall.
    specialize (Hall (h, m) (in_all_clock_values h m Hh Hm)).
    cbn [fst snd] in Hall.
    now destruct (strptime_HM (Utils.format_time _)). }
  split; [|split; [exact Hnone|]].
  - destruct (strptime_HM time_str) as [[h m]|] eqn:E.
    + specialize (Hsome h m eq_refl).
      unfold Utils.format_time at 1. now rewrite Hsome.
    + pose proof (Hnone eq_refl) as E'. now rewrite E'.
  - intros h m H. split; [now apply format_time_of_parsed|].
    split.
    + unfold Utils.format_time. rewrite H.
      destruct (h <? 12); reflexivity.
    + intros E. specialize (Hsome h m H). rewrite E in Hsome. congruence.
Qed.

Lemma format_time_idempotent_witness :
  strptime_HM "9:05" = Some (9, 5) /\
  Utils.format_time "9:05" = "09:05 AM" /\
  Utils.format_time "00:30" = "12:30 AM" /\
  Utils.format_time "12:30" = "12:30 PM" /\
  Utils.format_time "9:05" = Utils.format_time ("09" ++ ":" ++ "05") /\
  String.length (Utils.format_time "9:05") = 8%nat /\
  Utils.format_time "9:05" <> "9:05".
Proof.
  split; [reflexivity|]. split; [reflexivity|]. split; [reflexivity|].
  split; [reflexivity|].
  exact (proj2 (proj2 (format_time_idempotent "9:05")) 9 5 eq_refl).
Defined.

(* ------------------------------------------------------------------ *)
(** ** [utils.py]: the break length *)

(** X17. The suggested break lies between 5 and 30 minutes whatever the
    arguments, and grows -- never shrinks -- with the study duration and
    with the difficulty.  On the 1-10 difficulty scale only the lower
    bound cuts in: the raw value never exceeds 30 there, and it is below 5
    exactly for a session under 90 minutes of difficulty 1 or 2. *)
Theorem optimal_break_time_bounds (study_duration difficulty : Z) :
  5 <= Utils.calculate_optimal_break_time study_duration difficulty <= 30 /\
  (forall study_duration' difficulty',
     study_duration <= study_duration' -> difficulty <= difficulty' ->
     Utils.calculate_optimal_break_time study_duration difficulty
     <= Utils.calculate_optimal_break_time study_duration' difficulty') /\
  (1 <= difficulty <= 10 ->
   Utils.calculate_optimal_break_time study_duration difficulty
   = if (study_duration <? 90) && (difficulty <=? 2) then 5
     else (if 120 <=? study_duration then 20
           else if 90 <=? study_duration then 15 else 10)
          + (difficulty - 5) * 2).
Proof.
  unfold Utils.calculate_optimal_break_time.
  split; [|split].
  - lia.
  - intros sd' d' Hs Hd.
    destruct (120 <=? study_duration) eqn:E1, (90 <=? study_duration) eqn:E2,
      (120 <=? sd') eqn:E3, (90 <=? sd') eqn:E4; lia.
  - intros Hd.
    destruct (120 <=? study_duration) eqn:E1, (90 <=? study_duration) eqn:E2,
      (study_duration <? 90) eqn:E3, (difficulty <=? 2) eqn:E4;
      cbn [andb]; lia.
Qed.

Lemma optimal_break_time_bounds_witness :
  60 <= 120 /\ 3 <= 9 /\ 1 <= 9 <= 10 /\
  Utils.calculate_optimal_break_time 60 3
  <= Utils.calculate_optimal_break_time 120 9 /\
  Utils.calculate_optimal_break_time 120 9 = 20 + (9 - 5) * 2.
Proof.
  split; [lia|]. split; [lia|]. split; [lia|].
  split.
  - exact (proj1 (proj2 (optimal_break_time_bounds 60 3)) 120 9
             ltac:(lia) ltac:(lia)).
  - exact (proj2 (proj2 (optimal_break_time_bounds 120 9)) ltac:(lia)).
Defined.

(* ------------------------------------------------------------------ *)
(** ** [utils.py]: the subject parser *)

Lemma split_char_nonempty (c : ascii) (s : string) :
  PyStr.split_char c s <> [].
Proof.
  destruct s as [|d s]; simpl; [discriminate|].
  destruct (PyStr.split_char c s); [discriminate|].
  destruct (Ascii.eqb c d); discriminate.
Qed.

Lemma split_char_no_sep (c : ascii) (s : string) :
  Forall (fun p => PyStr.has_char c p = false) (PyStr.split_char c s).
Proof.
  induction s as [|d s IH]; simpl; [repeat constructor|].
  pose proof (split_char_nonempty c s) as Hne.
  destruct (PyStr.split_char c s) as [|p ps]; [now contradiction Hne|].
  inversion IH as [|? ? Hp Hps]; subst.
  destruct (Ascii.eqb c d) eqn:E.
  - repeat constructor; assumption.
  - constructor; [simpl; now rewrite E|assumption].
Qed.

Lemma split_char_plain (c : ascii) (p : string) :
  PyStr.has_char c p = false -> PyStr.split_char c p = [p].
Proof.
  induction p as [|d p IH]; simpl; [reflexivity|].
  intros H. apply orb_false_iff in H. destruct H as [E H].
  now rewrite (IH H), E.
Qed.

Lemma split_char_app (c : ascii) (p q : string) :
  PyStr.has_char c p = false ->
  PyStr.split_char c (p ++ String c q) = p :: PyStr.split_char c q.
Proof.
  induction p as [|d p IH]; simpl.
  - intros _. rewrite Ascii.eqb_refl.
    pose proof (split_char_nonempty c q) as Hne.
    destruct (PyStr.split_char c q); [now contradiction Hne|reflexivity].
  - intros H. apply orb_false_iff in H. destruct H as [E H].
    now rewrite (IH H), E.
Qed.

Lemma has_char_lstrip (c : ascii) (s : string) :
  PyStr.has_char c s = false -> PyStr.has_char c (PyStr.lstrip s) = false.
Proof.
  induction s as [|d s IH]; simpl; [trivial|].
  intros H. destruct (PyStr.is_space d); [|exact H].
  apply orb_false_iff in H. now apply IH.
Qed.

Lemma has_char_rstrip (c : ascii) (s : string) :
  PyStr.has_char c s = false -> PyStr.has_char c (PyStr.rstrip s) = false.
Proof.
  induction s as [|d s IH]; simpl; [trivial|].
  intros H. apply orb_false_iff in H. destruct H as [E H].
  specialize (IH H).
  destruct (PyStr.rstrip s) as [|e r].
  - destruct (PyStr.is_space d); simpl; [reflexivity|now rewrite E].
  - cbn [PyStr.has_char] in *. now rewrite E.
Qed.

Lemma rstrip_idempotent (s : string) :
  PyStr.rstrip (PyStr.rstrip s) = PyStr.rstrip s.
Proof.
  induction s as [|c s IH]; [reflexivity|].
  cbn [PyStr.rstrip].
  destruct (PyStr.rstrip s) as [|e r] eqn:E.
  - destruct (PyStr.is_space c) eqn:Ec; [reflexivity|].
    simpl. now rewrite Ec.
  - cbn [PyStr.rstrip]. cbn [PyStr.rstrip] in IH. now rewrite IH.
Qed.

Lemma lstrip_head (s : string) :
  match PyStr.lstrip s with
  | "" => True
  | String c _ => PyStr.is_space c = false
  end.
Proof.
  induction s as [|c s IH]; simpl; [exact I|].
  destruct (PyStr.is_space c) eqn:E; [exact IH|exact E].
Qed.

Lemma rstrip_head (c : ascii) (s : string) :
  PyStr.is_space c = false ->
  exists r, PyStr.rstrip (String c s) = String c r.
Proof.
  intros H. cbn [PyStr.rstrip].
  destruct (PyStr.rstrip s) as [|e r]; [|now eexists].
  rewrite H. now eexists.
Qed.

Lemma strip_idempotent (s : string) :
  PyStr.strip (PyStr.strip s) = PyStr.strip s.
Proof.
  unfold PyStr.strip. pose proof (lstrip_head s) as H.
  destruct (PyStr.lstrip s) as [|c x]; [reflexivity|].
  destruct (rstrip_head c x H) as (r & Er).
  assert (El : PyStr.lstrip (PyStr.rstrip (String c x))
               = PyStr.rstrip (String c x)).
  { rewrite Er. simpl. now rewrite H. }
  rewrite El. apply rstrip_idempotent.
Qed.

Lemma concat_comma_split (x : string) (l : list string) :
  Forall (fun s => PyStr.has_char "," s = false) (x :: l) ->
  PyStr.split_char "," (String.concat ", " (x :: l))
  = x :: map (String " ") l.
Proof.
  revert x. induction l as [|y l IH]; intros x H.
  - inversion H; subst. now apply split_char_plain.
  - inversion H as [|? ? Hx Hl]; subst.
    change (String.concat ", " (x :: y :: l))
      with (x ++ String "," (String " " (String.concat ", " (y :: l))))%string.
    rewrite split_char_app by exact Hx.
    cbn [PyStr.split_char]. rewrite (IH y Hl). reflexivity.
Qed.

(** X18. Every subject the parser returns is clean: not empty, free of
    commas and of white space at its ends.  Conversely a non-empty list of
    clean names, joined with [", "], is parsed back into the same
    list. *)
Theorem parse_subjects_clean_round_trip :
  (forall subjects_input,
     Forall clean_subject (Utils.parse_study_subjects subjects_input)) /\
  (forall subjects,
     subjects <> [] -> Forall clean_subject subjects ->
     Utils.parse_study_subjects (String.concat ", " subjects) = subjects).
Proof.
  split.
  - intros s. unfold Utils.parse_study_subjects.
    destruct (PyStr.truthy s); cbn [negb].
    2:{ repeat constructor; discriminate. }
    apply Forall_forall. intros x Hx.
    apply filter_In in Hx. destruct Hx as [Hx Ht].
    apply in_map_iff in Hx. destruct Hx as (p & <- & Hp).
    pose proof (split_char_no_sep "," s) as Hall.
    rewrite Forall_forall in Hall. specialize (Hall p Hp).
    split; [|split].
    + intros E. rewrite E in Ht. discriminate.
    + unfold PyStr.strip. now apply has_char_rstrip, has_char_lstrip.
    + apply strip_idempotent.
  - intros [|x l] Hne Hc; [now contradiction Hne|].
    assert (Hcomma : Forall (fun s => PyStr.has_char "," s = false) (x :: l)).
    { eapply Forall_impl; [|exact Hc]. now intros s (_ & H & _). }
    unfold Utils.parse_study_subjects.
    assert (Ht : PyStr.truthy (String.concat ", " (x :: l)) = true).
    { inversion Hc as [|? ? (Hx & _) _]; subst.
      destruct x as [|c x]; [now contradiction Hx|].
      destruct l; reflexivity. }
    rewrite Ht. cbn [negb]. rewrite concat_comma_split by exact Hcomma.
    clear Ht Hcomma Hne.
    assert (Hmap : map PyStr.strip (x :: map (String " ") l) = x :: l).
    { cbn [map]. inversion Hc as [|? ? (_ & _ & Hx) Hl]; subst.
      rewrite Hx. f_equal. clear -Hl.
      induction Hl as [|y l (_ & _ & Hy) _ IH]; [reflexivity|].
      cbn [map]. rewrite IH. f_equal. exact Hy. }
    rewrite Hmap. clear Hmap. revert Hc. generalize (x :: l) as names.
    induction 1 as [|y names (Hy & _) _ IH]; [reflexivity|].
    cbn [filter]. destruct y; [now contradiction Hy|].
    cbn [PyStr.truthy]. now rewrite IH.
Qed.

Lemma parse_subjects_clean_round_trip_witness :
  ["Math"; "Art history"] <> [] /\
  Forall clean_subject ["Math"; "Art history"] /\
  Utils.parse_study_subjects "Math, Art history" = ["Math"; "Art history"] /\
  Utils.parse_study_subjects " , ,," = [].
Proof.
  assert (Hc : Forall clean_subject ["Math"; "Art history"]).
  { repeat constructor; discriminate. }
  split; [discriminate|]. split; [exact Hc|].
  split; [|reflexivity].
  exact (proj2 parse_subjects_clean_round_trip ["Math"; "Art history"]
           ltac:(discriminate) Hc).
Defined.

(* ------------------------------------------------------------------ *)
(** ** [wellness_nudger.py]: clock arithmetic *)

Import WellnessNudger.

Lemma strptime_clock_of_minute (t : Z) :
  0 <= t < 1440 ->
  strptime_HM (clock_of_minute t) = Some (t / 60, t mod 60).
Proof.
  intros Ht. apply strptime_fmt.
  - split; [apply Z.div_pos; lia|].
    apply Z.lt_succ_r, Z.div_lt_upper_bound; lia.
  - pose proof (Z.mod_pos_bound t 60). lia.
Qed.

(** The datetime [strptime] builds, moved by whole minutes. *)
Lemma add_minutes_on_clock (h m minutes : Z) :
  0 <= h <= 23 -> 0 <= m <= 59 ->
  -900000000 <= minutes <= 4000000000 ->
  add (combine strptime_date (h, m)) (minutes * us_per_minute)
  = Some (mk_datetime (strptime_date + (h * 60 + m + minutes) / 1440)
            ((h * 60 + m + minutes) mod 1440 * us_per_minute) None).
Proof.
  intros Hh Hm Hn. unfold add, combine. cbn [dt_us dt_date dt_tz fst snd].
  replace (h * us_per_hour + m * us_per_minute + minutes * us_per_minute)
    with ((h * 60 + m + minutes) * us_per_minute)
    by (unfold us_per_hour, us_per_minute; ring).
  change us_per_day with (1440 * us_per_minute).
  rewrite Z.div_mul_cancel_r by discriminate.
  rewrite Z.mul_mod_distr_r by discriminate.
  set (T := h * 60 + m + minutes).
  assert (-625000 <= T / 1440 <= 2777779).
  { split.
    - apply Z.div_le_lower_bound; lia.
    - apply Z.lt_succ_r, Z.div_lt_upper_bound; lia. }
  unfold strptime_date, MINORDINAL, MAXORDINAL.
  replace (1 <=? 693596 + T / 1440) with true by (symmetry; apply Z.leb_le; lia).
  replace (693596 + T / 1440 <=? 3652059) with true
    by (symmetry; apply Z.leb_le; lia).
  reflexivity.
Qed.

Lemma timedelta_minutes_in_range (minutes : Z) :
  -900000000 <= minutes <= 4000000000 ->
  timedelta_minutes minutes = Some (minutes * us_per_minute).
Proof.
  intros Hn. unfold timedelta_minutes, timedelta_ok.
  change us_per_day with (1440 * us_per_minute).
  rewrite Z.div_mul_cancel_r by discriminate.
  assert (-625000 <= minutes / 1440 <= 2777778).
  { split.
    - apply Z.div_le_lower_bound; lia.
    - apply Z.lt_succ_r, Z.div_lt_upper_bound; lia. }
  replace (-999999999 <=? minutes / 1440) with true
    by (symmetry; apply Z.leb_le; lia).
  replace (minutes / 1440 <=? 999999999) with true
    by (symmetry; apply Z.leb_le; lia).
  reflexivity.
Qed.

Lemma strftime_minute_of_day (date t : Z) (tz : option Z) :
  0 <= t < 1440 ->
  strftime_HM (mk_datetime date (t * us_per_minute) tz) = clock_of_minute t.
Proof.
  intros Ht. unfold strftime_HM, clock_of_minute, hour, minute.
  cbn [dt_us].
  change us_per_hour with (60 * us_per_minute).
  rewrite Z.div_mul_cancel_r by discriminate.
  now rewrite Z.div_mul by discriminate.
Qed.

Lemma add_minutes_value (time_str : string) (h m minutes : Z) :
  strptime_HM time_str = Some (h, m) ->
  -900000000 <= minutes <= 4000000000 ->
  _add_minutes_to_time time_str minutes
  = clock_of_minute ((h * 60 + m + minutes) mod 1440).
Proof.
  intros Hs Hn. destruct (strptime_HM_range _ _ _ Hs) as [Hh Hm].
  unfold _add_minutes_to_time.
  rewrite Hs, timedelta_minutes_in_range, add_minutes_on_clock by assumption.
  apply strftime_minute_of_day. apply Z.mod_pos_bound. lia.
Qed.

(** X19. [_add_minutes_to_time] counts on the 24-hour clock: from a
    string read as [h:m] it gives the two-digit string of the minute
    [(60 h + m + minutes) mod 1440] of the day, for any shift that keeps
    the date in range (between -900000000 and 4000000000 minutes); the
    result is read back as that clock value, so two shifts in a row are
    the shift by the sum.  A string that is not read is handed back
    unchanged. *)
Theorem add_minutes_wraps_around (time_str : string) :
  (forall h m minutes,
     strptime_HM time_str = Some (h, m) ->
     -900000000 <= minutes <= 4000000000 ->
     let t := (h * 60 + m + minutes) mod 1440 in
     _add_minutes_to_time time_str minutes = clock_of_minute t /\
     strptime_HM (_add_minutes_to_time time_str minutes)
     = Some (t / 60, t mod 60)) /\
  (forall h m a b,
     strptime_HM time_str = Some (h, m) ->
     -900000000 <= a <= 4000000000 ->
     -900000000 <= b <= 4000000000 ->
     -900000000 <= a + b <= 4000000000 ->
     _add_minutes_to_time (_add_minutes_to_time time_str a) b
     = _add_minutes_to_time time_str (a + b)) /\
  (forall minutes,
     strptime_HM time_str = None ->
     _add_minutes_to_time time_str minutes = time_str).
Proof.
  split; [|split].
  - intros h m minutes Hs Hn t.
    rewrite (add_minutes_value _ _ _ _ Hs Hn). fold t.
    split; [reflexivity|].
    apply strptime_clock_of_minute. apply Z.mod_pos_bound. lia.
  - intros h m a b Hs Ha Hb Hab.
    rewrite (add_minutes_value _ _ _ _ Hs Ha).
    rewrite (add_minutes_value _ _ _ _ Hs Hab).
    set (t := (h * 60 + m + a) mod 1440).
    assert (Ht : 0 <= t < 1440) by (apply Z.mod_pos_bound; lia).
    rewrite (add_minutes_value _ _ _ _ (strptime_clock_of_minute t Ht) Hb).
    f_equal.
    replace (t / 60 * 60 + t mod 60) with t
      by (pose proof (Z.div_mod t 60 ltac:(discriminate)); lia).
    subst t. rewrite Z.add_mod_idemp_l by discriminate.
    f_equal. ring.
  - intros minutes Hs. unfold _add_minutes_to_time. now rewrite Hs.
Qed.

Lemma add_minutes_wraps_around_witness :
  strptime_HM "23:30" = Some (23, 30) /\
  -900000000 <= 45 <= 4000000000 /\
  -900000000 <= -60 <= 4000000000 /\
  -900000000 <= 45 + -60 <= 4000000000 /\
  _add_minutes_to_time "23:30" 45 = "00:15" /\
  _add_minutes_to_time (_add_minutes_to_time "23:30" 45) (-60)
  = _add_minutes_to_time "23:30" (45 + -60) /\
  strptime_HM "soon" = None /\
  _add_minutes_to_time "soon" 45 = "soon".
Proof.
  split; [reflexivity|]. split; [lia|]. split; [lia|]. split; [lia|].
  split; [exact (proj1 (proj1 (add_minutes_wraps_around "23:30") 23 30 45
                          eq_refl ltac:(lia)))|].
  split; [exact (proj1 (proj2 (add_minutes_wraps_around "23:30")) 23 30 45 (-60)
                   eq_refl ltac:(lia) ltac:(lia) ltac:(lia))|].
  split; [reflexivity|].
  exact (proj2 (proj2 (add_minutes_wraps_around "soon")) 45 eq_refl).
Defined.

(* ------------------------------------------------------------------ *)
(** ** [wellness_nudger.py]: the reminder times *)

Lemma wall_at_minute (T : Z) :
  wall (at_minute T)
  = (strptime_date - 1) * us_per_day + T * us_per_minute.
Proof.
  unfold wall, at_minute. cbn [dt_date dt_us].
  change us_per_day with (1440 * us_per_minute).
  pose proof (Z.div_mod T 1440 ltac:(discriminate)).
  unfold us_per_minute. nia.
Qed.

Lemma combine_at_minute (h m : Z) :
  0 <= h <= 23 -> 0 <= m <= 59 ->
  combine strptime_date (h, m) = at_minute (h * 60 + m).
Proof.
  intros Hh Hm. unfold combine, at_minute. cbn [fst snd].
  rewrite Z.div_small, Z.mod_small, Z.add_0_r by lia.
  f_equal. unfold us_per_hour, us_per_minute. ring.
Qed.

Lemma cmp_at_minute (T E : Z) :
  cmp (at_minute T) (at_minute E) = Some (T ?= E).
Proof.
  unfold cmp.
  change (dt_tz (at_minute T)) with (@None Z).
  change (dt_tz (at_minute E)) with (@None Z).
  cbv iota. rewrite !wall_at_minute. f_equal.
  destruct (Z.compare_spec T E);
    [apply Z.compare_eq_iff|apply Z.compare_lt_iff|apply Z.compare_gt_iff];
    unfold us_per_minute; lia.
Qed.

Lemma lt_at_minute (T E : Z) :
  lt (at_minute T) (at_minute E) = Some (T <? E).
Proof.
  unfold lt. rewrite cmp_at_minute. unfold Z.ltb. cbn [option_map].
  now destruct (T ?= E).
Qed.

Lemma le_at_minute (T E : Z) :
  le (at_minute T) (at_minute E) = Some (T <=? E).
Proof.
  unfold le. rewrite cmp_at_minute. unfold Z.leb. cbn [option_map].
  now destruct (T ?= E).
Qed.

Lemma add_at_minute (T k : Z) :
  0 <= T <= 4000 -> 0 <= k <= 4000 ->
  add (at_minute T) (k * us_per_minute) = Some (at_minute (T + k)).
Proof.
  intros HT Hk. unfold add, at_minute. cbn [dt_date dt_us dt_tz].
  replace (T mod 1440 * us_per_minute + k * us_per_minute)
    with ((T mod 1440 + k) * us_per_minute) by ring.
  change us_per_day with (1440 * us_per_minute).
  rewrite Z.div_mul_cancel_r by discriminate.
  rewrite Z.mul_mod_distr_r by discriminate.
  rewrite Z.add_mod_idemp_l by discriminate.
  replace (strptime_date + T / 1440 + (T mod 1440 + k) / 1440)
    with (strptime_date + (T + k) / 1440).
  2:{ rewrite (Z.div_mod T 1440) at 1 by discriminate.
      rewrite <- Z.add_assoc, Z.mul_comm, Z.div_add_l by discriminate. lia. }
  assert (0 <= (T + k) / 1440 <= 6).
  { split; [apply Z.div_pos; lia|].
    apply Z.lt_succ_r, Z.div_lt_upper_bound; lia. }
  unfold strptime_date, MINORDINAL, MAXORDINAL.
  replace (1 <=? 693596 + (T + k) / 1440) with true
    by (symmetry; apply Z.leb_le; lia).
  replace (693596 + (T + k) / 1440 <=? 3652059) with true
    by (symmetry; apply Z.leb_le; lia).
  reflexivity.
Qed.

Lemma strftime_at_minute (T : Z) :
  0 <= T < 1440 -> strftime_HM (at_minute T) = clock_of_minute T.
Proof.
  intros HT. unfold at_minute. rewrite Z.mod_small by exact HT.
  now apply strftime_minute_of_day.
Qed.

Lemma every_minutes_past (k T E : Z) :
  0 < k -> E <= T -> every_minutes k T E = [].
Proof.
  intros Hk H. unfold every_minutes.
  replace (Z.to_nat ((E - T) / k)) with 0%nat; [reflexivity|].
  assert ((E - T) / k <= 0) by (apply Z.div_le_upper_bound; lia). lia.
Qed.

Lemma every_minutes_short (k T E : Z) :
  0 < k -> T < E -> E < T + k -> every_minutes k T E = [].
Proof.
  intros Hk H1 H2. unfold every_minutes.
  rewrite Z.div_small by lia. reflexivity.
Qed.

Lemma every_minutes_step (k T E : Z) :
  0 < k -> T + k <= E ->
  every_minutes k T E = clock_of_minute (T + k) :: every_minutes k (T + k) E.
Proof.
  intros Hk H. unfold every_minutes.
  replace (E - T) with (E - (T + k) + 1 * k) by ring.
  rewrite Z.div_add by lia.
  assert (0 <= (E - (T + k)) / k) by (apply Z.div_pos; lia).
  rewrite Z2Nat.inj_add by lia.
  rewrite Nat.add_comm. change (Z.to_nat 1) with 1%nat.
  cbn [Nat.add seq map].
  replace (T + Z.of_nat 1 * k) with (T + k) by lia.
  f_equal.
  rewrite <- seq_shift, map_map. apply map_ext.
  intros i. f_equal. lia.
Qed.

(** The loop from minute [T] to minute [E] of the starting day, with
    enough iterations allowed. *)
Lemma reminder_loop_spec (k E : Z) :
  0 < k <= 1440 -> 0 <= E < 1440 ->
  forall (fuel : nat) (T : Z) (times : list string),
    0 <= T <= 4000 ->
    Z.max 0 (E - T) < Z.of_nat fuel ->
    reminder_loop fuel (k * us_per_minute) (at_minute T) (at_minute E) times
    = Some (times ++ every_minutes k T E).
Proof.
  intros Hk HE. induction fuel as [|fuel IH]; intros T times HT Hfuel;
    [simpl in Hfuel; lia|].
  cbn [reminder_loop]. rewrite lt_at_minute.
  destruct (Z.ltb_spec T E) as [Hlt|Hge].
  - rewrite add_at_minute, le_at_minute by lia.
    rewrite IH by lia.
    destruct (Z.leb_spec (T + k) E) as [Hle|Hgt].
    + rewrite strftime_at_minute by lia.
      rewrite (every_minutes_step k T E) by lia.
      now rewrite <- app_assoc.
    + rewrite (every_minutes_past k (T + k) E) by lia.
      now rewrite (every_minutes_short k T E) by lia.
  - now rewrite every_minutes_past, app_nil_r by lia.
Qed.

Lemma reminder_times_spec (step k : Z) (first : block) (rest : list block)
    (h m h' m' : Z) :
  step = k * us_per_minute ->
  0 < k <= 1440 ->
  strptime_HM (start_time_of first) = Some (h, m) ->
  strptime_HM (end_time_of (last_block first rest)) = Some (h', m') ->
  reminder_times step (first :: rest)
  = Some (every_minutes k (h * 60 + m) (h' * 60 + m')).
Proof.
  intros -> Hk Hs He. unfold reminder_times. rewrite Hs, He.
  destruct (strptime_HM_range _ _ _ Hs) as [Hh Hm].
  destruct (strptime_HM_range _ _ _ He) as [Hh' Hm'].
  rewrite !combine_at_minute by assumption.
  rewrite reminder_loop_spec; [reflexivity| | | |]; lia.
Qed.

(** X20. The hydration and posture reminders.  When the first block's
    start is read as minute [S] of the day and the last block's end as
    minute [E], the hydration times are the clock strings of
    [S + 120], [S + 240], ... up to [E], and the posture times those of
    [S + 90], [S + 180], ...: [(E - S) / step] of them, none when the end
    clock is not after the start clock (a schedule that runs past
    midnight gets no reminder).  The loop always ends; without blocks the
    lists are empty. *)
Theorem reminder_times_every_step
    (first : block) (rest : list block) (h m h' m' : Z) :
  strptime_HM (start_time_of first) = Some (h, m) ->
  strptime_HM (end_time_of (last_block first rest)) = Some (h', m') ->
  let S := h * 60 + m in
  let E := h' * 60 + m' in
  _generate_hydration_schedule (first :: rest)
  = Some (every_minutes 120 S E) /\
  _generate_posture_schedule (first :: rest)
  = Some (every_minutes 90 S E) /\
  (E <= S ->
   _generate_hydration_schedule (first :: rest) = Some [] /\
   _generate_posture_schedule (first :: rest) = Some []) /\
  _generate_hydration_schedule [] = Some [] /\
  _generate_posture_schedule [] = Some [].
Proof.
  intros Hs He S E.
  assert (H120 : _generate_hydration_schedule (first :: rest)
                 = Some (every_minutes 120 S E)).
  { exact (reminder_times_spec two_hours 120 first rest h m h' m'
             eq_refl ltac:(lia) Hs He). }
  assert (H90 : _generate_posture_schedule (first :: rest)
                = Some (every_minutes 90 S E)).
  { exact (reminder_times_spec ninety_minutes 90 first rest h m h' m'
             eq_refl ltac:(lia) Hs He). }
  split; [exact H120|]. split; [exact H90|].
  split; [|split; reflexivity].
  intros Hle. rewrite H120, H90. clear H120 H90.
  rewrite !every_minutes_past by lia. split; reflexivity.
Qed.

Lemma reminder_times_every_step_witness :
  strptime_HM (start_time_of (Study (mk_study "Math" "09:00" "10:30" 90 9 true)))
  = Some (9, 0) /\
  strptime_HM
    (end_time_of
       (last_block (Study (mk_study "Math" "09:00" "10:30" 90 9 true))
          [Break (mk_break "10:30" "10:50" 20 "Short walk or hydration");
           Study (mk_study "English" "10:50" "12:20" 90 5 true)]))
  = Some (12, 20) /\
  _generate_hydration_schedule (study_blocks example_schedule)
  = Some (every_minutes 120 (9 * 60 + 0) (12 * 60 + 20)) /\
  every_minutes 120 (9 * 60 + 0) (12 * 60 + 20) = ["11:00"] /\
  every_minutes 90 (9 * 60 + 0) (12 * 60 + 20) = ["10:30"; "12:00"].
Proof.
  split; [reflexivity|]. split; [reflexivity|].
  split; [|split; reflexivity].
  exact (proj1 (reminder_times_every_step
                  (Study (mk_study "Math" "09:00" "10:30" 90 9 true))
                  [Break (mk_break "10:30" "10:50" 20 "Short walk or hydration");
                   Study (mk_study "English" "10:50" "12:20" 90 5 true)]
                  9 0 12 20 eq_refl eq_refl)).
Defined.

(* ------------------------------------------------------------------ *)
(** ** Scores between 0 and 10 *)

(** The one-decimal values from 0.1 to 10.0 lie between 0 and 10. *)
Lemma tenths_table :
  forallb (fun t =>
             match PyFloat.int_true_div t 10 with
             | Some f => PyFloat.int_le 0 f && PyFloat.int_ge 10 f
             | None => false
             end) (map Z.of_nat (seq 1 100)) = true.
Proof. vm_compute. reflexivity. Qed.

Lemma nearest_tenths_range (m : positive) (e : Z) :
  PyFloat.int_gt 10 (S754_finite false m e) = true ->
  0 <= PyFloat.nearest_tenths (S754_finite false m e) <= 100.
Proof.
  unfold PyFloat.int_gt, PyFloat.int_cmp, PyFloat.nearest_tenths.
  destruct e as [|p|p].
  - rewrite !Z.shiftl_0_r.
    destruct (Z.compare_spec 10 (Z.pos m)); try discriminate. lia.
  - rewrite !Z.shiftl_mul_pow2 by lia.
    destruct (Z.compare_spec 10 (Z.pos m * 2 ^ Z.pos p)); try discriminate.
    lia.
  - rewrite Z.shiftl_mul_pow2, Z.shiftr_div_pow2 by lia.
    destruct (Z.compare_spec (10 * 2 ^ Z.pos p) (Z.pos m)); try discriminate.
    intros _.
    assert (Hpow : 0 < 2 ^ Z.pos p) by (apply Z.pow_pos_nonneg; lia).
    assert (0 <= 10 * Z.pos m / 2 ^ Z.pos p <= 99).
    { split; [apply Z.div_pos; lia|].
      apply Z.lt_succ_r, Z.div_lt_upper_bound; lia. }
    destruct (_ ?= _); [destruct (Z.even _)| |]; lia.
Qed.

Lemma int_lt_zero_positive (s : bool) (m : positive) (e : Z) :
  PyFloat.int_lt 0 (S754_finite s m e) = true -> s = false.
Proof.
  destruct s; [|reflexivity].
  unfold PyFloat.int_lt, PyFloat.int_cmp.
  destruct e as [|p|p].
  - rewrite Z.shiftl_0_r. discriminate.
  - rewrite Z.shiftl_mul_pow2 by lia.
    assert (0 < 2 ^ Z.pos p) by (apply Z.pow_pos_nonneg; lia).
    destruct (Z.compare_spec 0 (Z.neg m * 2 ^ Z.pos p)); try discriminate; nia.
  - rewrite Z.shiftl_0_l. discriminate.
Qed.

(** Rounding a float strictly between 0 and 10 to one decimal stays
    between 0 and 10. *)
Lemma round_1_range (w : spec_float) :
  PyFloat.int_lt 0 w = true -> PyFloat.int_gt 10 w = true ->
  PyFloat.int_le 0 (PyFloat.round_1 w) = true /\
  PyFloat.int_ge 10 (PyFloat.round_1 w) = true.
Proof.
  destruct w as [s|s| |s m e].
  - discriminate.
  - destruct s; discriminate.
  - discriminate.
  - intros Hpos Hten.
    pose proof (int_lt_zero_positive s m e Hpos) as ->.
    pose proof (nearest_tenths_range m e Hten) as Ht.
    unfold PyFloat.round_1.
    destruct (PyFloat.nearest_tenths (S754_finite false m e)) as [|t|t];
      [split; reflexivity| |lia].
    assert (Hin : In (Z.pos t) (map Z.of_nat (seq 1 100))).
    { apply in_map_iff. exists (Pos.to_nat t). split; [lia|].
      apply in_seq. lia. }
    pose proof tenths_table as Htab. rewrite forallb_forall in Htab.
    specialize (Htab _ Hin).
    destruct (PyFloat.int_true_div (Z.pos t) 10) as [f|]; [|discriminate].
    now apply andb_true_iff in Htab.
Qed.


Lemma clamp_min_max_range (x : number) :
  zero_to_ten
    (PyNum.round1 (PyNum.py_min (Int 10) (PyNum.py_max (Int 0) x))).
Proof.
  unfold zero_to_ten, PyNum.py_max, PyNum.py_min, PyNum.gt.
  destruct x as [z|w]; cbn [PyNum.lt].
  - destruct (Z.ltb_spec 0 z); cbn [PyNum.lt].
    + destruct (Z.ltb_spec z 10); cbn [PyNum.round1 PyNum.ge];
        split; apply Z.leb_le; lia.
    + split; reflexivity.
  - destruct (PyFloat.int_lt 0 w) eqn:Hpos; cbn [PyNum.lt].
    + destruct (PyFloat.int_gt 10 w) eqn:Hten; cbn [PyNum.round1 PyNum.ge].
      * now apply round_1_range.
      * split; reflexivity.
    + split; reflexivity.
Qed.


(** X22. A wellness score the scheduler computes for a list of blocks
    lies between 0 and 10. *)
Theorem schedule_wellness_score_range
    (blocks : list block) (study_time break_time : Z) (score : number) :
  ScoreEngine._calculate_wellness_score blocks study_time break_time
  = Some score ->
  zero_to_ten score.
Proof.
  unfold ScoreEngine._calculate_wellness_score.
  destruct (PyFloat.int_true_div break_time _) as [ratio|]; [|discriminate].
  destruct (PyFloat.div _ _) as [deviation|]; [|discriminate].
  destruct (PyFloat.int_true_div _ _) as [points|]; [|discriminate].
  injection 1 as <-. apply clamp_min_max_range.
Qed.

Lemma schedule_wellness_score_range_witness :
  ScoreEngine._calculate_wellness_score (study_blocks example_schedule) 180 20
  = Some (Float (S754_finite false 5066549580791808 (-49))) /\
  zero_to_ten (Float (S754_finite false 5066549580791808 (-49))).
Proof.
  assert (E : ScoreEngine._calculate_wellness_score
                (study_blocks example_schedule) 180 20
              = Some (Float (S754_finite false 5066549580791808 (-49))))
    by (vm_compute; reflexivity).
  split; [exact E|].
  exact (schedule_wellness_score_range _ _ _ _ E).
Defined.

(* ------------------------------------------------------------------ *)
(** ** The workload score of the e-mail analysis *)

Lemma int_true_div_plus (a b : Z) (f : spec_float) :
  0 <= a -> 0 < b -> PyFloat.int_true_div a b = Some f -> plus_finite f.
Proof.
  intros Ha Hb. unfold PyFloat.int_true_div.
  destruct b as [|q|q]; try lia.
  destruct a as [|p|p]; try lia.
  - simpl. injection 1 as <-. reflexivity.
  - unfold PyFloat.exact, SFdiv.
    destruct (SFdiv_core_binary _ _ _ _ _ _) as [[mz ez] lz].
    pose proof (binary_round_aux_plus mz ez lz) as H.
    cbn [xorb].
    destruct (binary_round_aux _ _ _ _ _ _); try discriminate;
      injection 1 as <-; exact H.
Qed.

Lemma mul_sign_plus (x y : spec_float) :
  sign_plus x -> sign_plus y -> sign_plus (PyFloat.mul x y).
Proof.
  unfold PyFloat.mul, SFmul.
  destruct x as [sx|sx| |sx mx ex], y as [sy|sy| |sy my ey]; simpl;
    intros Hx Hy; subst; try reflexivity; try exact I.
  apply binary_round_aux_plus.
Qed.

Lemma add_sign_plus (x y : spec_float) :
  sign_plus x -> sign_plus y -> sign_plus (PyFloat.add x y).
Proof.
  unfold PyFloat.add, SFadd.
  destruct x as [sx|sx| |sx mx ex], y as [sy|sy| |sy my ey]; simpl;
    intros Hx Hy; subst; try reflexivity; try exact I.
  unfold binary_normalize.
  destruct (shl_align mx ex (Z.min ex ey)) as [ax ?].
  destruct (shl_align my ey (Z.min ex ey)) as [ay ?].
  cbn [fst cond_Zopp Z.add]. unfold binary_round.
  destruct (shl_align _ _ _) as [mz ez].
  apply binary_round_aux_plus.
Qed.

Lemma plus_finite_sign (f : spec_float) : plus_finite f -> sign_plus f.
Proof. destruct f; simpl; trivial. contradiction. Qed.

Lemma int_lt_zero_finite (m : positive) (e : Z) :
  PyFloat.int_lt 0 (S754_finite false m e) = true.
Proof.
  unfold PyFloat.int_lt, PyFloat.int_cmp.
  destruct e as [|p|p].
  - rewrite Z.shiftl_0_r. reflexivity.
  - rewrite Z.shiftl_mul_pow2 by lia.
    assert (0 < 2 ^ Z.pos p) by (apply Z.pow_pos_nonneg; lia).
    destruct (Z.compare_spec 0 (Z.pos m * 2 ^ Z.pos p)); try reflexivity; nia.
  - rewrite Z.shiftl_0_l. reflexivity.
Qed.

(** [round(min(10, x), 1)] for a float that is not negative. *)
Lemma min_ten_range (x : spec_float) :
  sign_plus x ->
  zero_to_ten (PyNum.round1 (PyNum.py_min (Int 10) (Float x))).
Proof.
  intros Hx. unfold zero_to_ten, PyNum.py_min. cbn [PyNum.lt].
  destruct (PyFloat.int_gt 10 x) eqn:Hten; [|split; reflexivity].
  cbn [PyNum.round1 PyNum.ge].
  destruct x as [s|s| |s m e]; simpl in Hx; subst.
  - split; reflexivity.
  - discriminate.
  - discriminate.
  - apply round_1_range; [apply int_lt_zero_finite|exact Hten].
Qed.

(** X23. The workload score entry of the analysis lies between 0 and 10
    whenever the two counts it is computed from are not negative (as the
    counts of an analysis are), and it is the integer 0 when no e-mail
    was kept. *)
Theorem workload_score_range (total urgent work : Z) (score : number) :
  0 <= urgent -> 0 <= work ->
  workload_score_entry total urgent work = Some score ->
  zero_to_ten score /\ (total <= 0 -> score = Int 0).
Proof.
  intros Hu Hw. unfold workload_score_entry, workload_score.
  destruct (Z.ltb_spec 0 total) as [Ht|Ht].
  - destruct (PyFloat.int_true_div urgent total) as [ur|] eqn:Eu;
      [|discriminate].
    destruct (PyFloat.int_true_div work total) as [wr|] eqn:Ew;
      [|discriminate].
    cbn [option_map]. injection 1 as <-.
    split; [|lia].
    apply min_ten_range.
    apply int_true_div_plus in Eu; [|lia|lia].
    apply int_true_div_plus in Ew; [|lia|lia].
    apply mul_sign_plus; [|reflexivity].
    apply add_sign_plus; apply mul_sign_plus;
      try reflexivity; now apply plus_finite_sign.
  - cbn [option_map PyNum.round1]. injection 1 as <-.
    split; [split; reflexivity|reflexivity].
Qed.

Lemma workload_score_range_witness :
  0 <= 1 /\ 0 <= 0 /\
  workload_score_entry 10 1 0 = Some (Float PyFloat.lit_5_0) /\
  workload_score_entry 10 1 2 = Some (Int 10) /\
  zero_to_ten (Float PyFloat.lit_5_0).
Proof.
  assert (E : workload_score_entry 10 1 0 = Some (Float PyFloat.lit_5_0))
    by (vm_compute; reflexivity).
  split; [lia|]. split; [lia|]. split; [exact E|].
  split; [vm_compute; reflexivity|].
  exact (proj1 (workload_score_range 10 1 0 _ ltac:(lia) ltac:(lia) E)).
Defined.

(* ------------------------------------------------------------------ *)
(** ** The schedule read by the reminder code *)

Lemma clock_whole_minute (T : Z) :
  clock (T * us_per_minute) = clock_of_minute (T mod 1440).
Proof.
  unfold clock. change us_per_day with (1440 * us_per_minute).
  rewrite Z.mul_mod_distr_r by discriminate.
  apply strftime_minute_of_day. apply Z.mod_pos_bound. lia.
Qed.

Lemma add_minutes_on_clock_string (T d : Z) :
  0 <= d <= 4000000000 ->
  _add_minutes_to_time (clock (T * us_per_minute)) d
  = clock ((T + d) * us_per_minute).
Proof.
  intros Hd. rewrite !clock_whole_minute.
  set (t := T mod 1440).
  assert (Ht : 0 <= t < 1440) by (apply Z.mod_pos_bound; lia).
  rewrite (add_minutes_value _ _ _ _ (strptime_clock_of_minute t Ht))
    by lia.
  f_equal.
  replace (t / 60 * 60 + t mod 60) with t
    by (pose proof (Z.div_mod t 60 ltac:(discriminate)); lia).
  subst t. now rewrite Z.add_mod_idemp_l by discriminate.
Qed.

Lemma laid_out_add_minutes (w w' : Z) (bs : list block) :
  laid_out w bs w' ->
  forall T, w = T * us_per_minute ->
  Forall (fun b => 0 <= duration_of b) bs ->
  Forall (fun b => duration_of b <= 4000000000 ->
                   end_time_of b
                   = _add_minutes_to_time (start_time_of b) (duration_of b))
         bs.
Proof.
  induction 1 as [w|w b bs w' Hs He _ IH]; intros T -> Hd; [constructor|].
  inversion Hd as [|? ? Hb Hbs]; subst.
  constructor.
  - intros Hmax. rewrite Hs, He.
    replace (T * us_per_minute + duration_of b * us_per_minute)
      with ((T + duration_of b) * us_per_minute) by ring.
    symmetry. apply add_minutes_on_clock_string. lia.
  - apply (IH (T + duration_of b)); [ring|exact Hbs].
Qed.

(** X24. The reminder code's clock arithmetic agrees with the
    scheduler's: in a schedule generated from base durations that are not
    negative, the end time of every block of at most 4000000000 minutes
    is what [_add_minutes_to_time] computes from its start time and its
    duration. *)
Theorem block_end_is_start_plus_duration
    (today : Z) (prefs : preferences) (events : option (list event))
    (sched : schedule) :
  _generate_optimized_blocks today prefs events = Some sched ->
  0 <= PyList.get_or (p_study_duration prefs) 90 ->
  0 <= PyList.get_or (p_break_duration prefs) 15 ->
  Forall (fun b => duration_of b <= 4000000000 ->
                   end_time_of b
                   = _add_minutes_to_time (start_time_of b) (duration_of b))
         (study_blocks sched).
Proof.
  intros H Hsd Hbd. apply generate_unfold in H.
  destruct H as ([h m] & st & Ht & Hloop & ->). cbn [study_blocks].
  destruct (strptime_HM_range _ _ _ Ht) as [Hh Hm].
  assert (Hlaid : normalized (st_current st) /\
                  laid_out (wall (combine today (h, m))) (st_blocks st)
                           (wall (st_current st))).
  { eapply loop_laid_out; [|exact Hloop]. cbn [st_current st_blocks].
    split; [|constructor].
    unfold normalized, combine. cbn [dt_us fst snd].
    unfold us_per_hour, us_per_minute, us_per_day. lia. }
  assert (Hnn : Forall (fun b => 0 <= duration_of b) (st_blocks st)).
  { eapply loop_durations_nonneg; [exact Hsd|exact Hbd| |exact Hloop].
    constructor. }
  eapply (laid_out_add_minutes _ _ _ (proj2 Hlaid)
            ((today - 1) * 1440 + h * 60 + m)); [|exact Hnn].
  unfold wall, combine. cbn [dt_date dt_us fst snd].
  unfold us_per_hour, us_per_minute, us_per_day. ring.
Qed.

Lemma block_end_is_start_plus_duration_witness :
  _generate_optimized_blocks 739507 example_request None
  = Some example_schedule /\
  0 <= 90 /\ 0 <= 15 /\
  Forall (fun b => duration_of b <= 4000000000 ->
                   end_time_of b
                   = _add_minutes_to_time (start_time_of b) (duration_of b))
         (study_blocks example_schedule).
Proof.
  assert (H : _generate_optimized_blocks 739507 example_request None
              = Some example_schedule) by (vm_compute; reflexivity).
  split; [exact H|]. split; [lia|]. split; [lia|].
  exact (block_end_is_start_plus_duration 739507 example_request None
           example_schedule H ltac:(simpl; lia) ltac:(simpl; lia)).
Defined.

(* ------------------------------------------------------------------ *)
(** ** Hardest subjects first *)

Lemma study_difficulties_written (sd bd : Z) (blocks : list block) :
  Forall (written_by_loop sd bd) blocks ->
  study_difficulties blocks
  = map _get_subject_difficulty (map subject_of (filter is_study blocks)).
Proof.
  induction 1 as [|b bs Hb _ IH]; [reflexivity|].
  destruct b as [s|k]; cbn [study_difficulties flat_map filter is_study map app].
  - destruct Hb as (time & _ & _ & _ & Hd & _).
    fold (study_difficulties bs). rewrite IH, Hd. reflexivity.
  - exact IH.
Qed.

Lemma sorted_map_ratings (l : list string) :
  StronglySorted
    (fun a b => _get_subject_difficulty b <= _get_subject_difficulty a) l ->
  StronglySorted (fun x y => y <= x) (map _get_subject_difficulty l).
Proof.
  induction 1 as [|a l _ IH Ha]; simpl; constructor; [exact IH|].
  apply Forall_map. exact Ha.
Qed.

(** X25. The study blocks of a generated schedule come hardest first:
    their difficulty entries, in schedule order, are the ratings of the
    requested subjects sorted in non-increasing order. *)
Theorem schedule_hardest_first
    (today : Z) (prefs : preferences) (events : option (list event))
    (sched : schedule) :
  _generate_optimized_blocks today prefs events = Some sched ->
  let subjects := PyList.get_or (p_subjects prefs) default_subjects in
  study_difficulties (study_blocks sched)
  = map _get_subject_difficulty (_order_subjects_by_difficulty subjects) /\
  StronglySorted (fun x y => y <= x) (study_difficulties (study_blocks sched)) /\
  Permutation (study_difficulties (study_blocks sched))
              (map _get_subject_difficulty subjects).
Proof.
  intros H subjects.
  pose proof (schedule_blocks_written _ _ _ _ H) as Hw.
  apply study_difficulties_written in Hw.
  apply generate_unfold in H.
  destruct H as (t & st & _ & Hloop & ->). cbn [study_blocks] in *.
  apply loop_study_subjects in Hloop. cbn [st_blocks filter map app] in Hloop.
  fold subjects in Hloop. rewrite Hloop in Hw. rewrite Hw.
  split; [reflexivity|].
  rewrite order_subjects_unfold. split.
  - apply sorted_map_ratings. apply sorted_desc_sorted.
  - apply Permutation_map. apply Permutation_sym.
    unfold PyList.sorted_desc. apply sorted_by_perm.
Qed.

Lemma schedule_hardest_first_witness :
  _generate_optimized_blocks 739507 example_request None
  = Some example_schedule /\
  study_difficulties (study_blocks example_schedule) = [9; 5] /\
  StronglySorted (fun x y => y <= x)
                 (study_difficulties (study_blocks example_schedule)).
Proof.
  assert (H : _generate_optimized_blocks 739507 example_request None
              = Some example_schedule) by (vm_compute; reflexivity).
  split; [exact H|]. split; [reflexivity|].
  exact (proj1 (proj2 (schedule_hardest_first 739507 example_request None
                         example_schedule H))).
Defined.
